(** * A shallow embedding of the AI provider layer ([src/providers])

    The development follows the Python sources file by file:
    - [base.py]: [ProviderConfig], its [__post_init__] and
      [AIProvider._retry_with_backoff];
    - [qwen_provider.py], [gemini_provider.py], [openai_provider.py],
      [anthropic_provider.py], [ollama_provider.py]: the five providers
      with their [chat] and [vision] methods and factory functions;
    - [factory.py]: [_load_env_file] and [get_provider].

    Conventions of the model.
    - A Python [str] is the Rocq [string] of its UTF-8 bytes.  Whitespace
      is Unicode's; the case tables of Unicode are not modelled: where
      the result of [str.lower] or [str.upper] on text outside ASCII can
      be seen, it is a parameter ([str_lower], [str_upper]).
    - Python [int] is [Z].  A Python [float] is [pyfloat]: the rational
      value of a finite binary64 number, or one of the three special
      values.  The one operation on floats, a product with a power of
      two, is exact in binary64 until it overflows to an infinity.
    - [int(s)], [float(s)] and the system call behind [time.sleep] are
      parameters: the model fixes what CPython 3.11 does around them.
    - A computation that can raise returns a [result]; code that touches
      the outside world threads a [World] carrying the external state and
      the trace of what the retry loop does (invocations, prints and
      sleeps); the requests a provider sends are recorded on the wire. *)

From Stdlib Require Import ZArith QArith String Ascii List Lia DecimalString.
From stdpp Require Import base strings gmap.
Import ListNotations.

Local Open Scope list_scope.
Local Open Scope string_scope.

(* ===================================================================== *)
(** * Python strings *)
(* ===================================================================== *)

Module PyStr.

Definition is_upper (c : ascii) : bool :=
  let n := N_of_ascii c in ((65 <=? n) && (n <=? 90))%N.

Definition is_lower (c : ascii) : bool :=
  let n := N_of_ascii c in ((97 <=? n) && (n <=? 122))%N.

Definition lower_ascii (c : ascii) : ascii :=
  if is_upper c then ascii_of_N (N_of_ascii c + 32) else c.

Definition upper_ascii (c : ascii) : ascii :=
  if is_lower c then ascii_of_N (N_of_ascii c - 32) else c.

Fixpoint map_chars (f : ascii -> ascii) (s : string) : string :=
  match s with
  | EmptyString => EmptyString
  | String c s' => String (f c) (map_chars f s')
  end.

(** [s.isascii()] *)
Fixpoint is_ascii (s : string) : bool :=
  match s with
  | EmptyString => true
  | String c s' => (N_of_ascii c <? 128)%N && is_ascii s'
  end.

(** [s.lower()] and [s.upper()] for ASCII text; on other text they
    change the ASCII letters only.  The providers use [lower] on any
    text, but only to look for the words [llava], [bakllava],
    [moondream], [gpt-4o], [gpt-4-turbo] and [gpt-4-vision] in it, or to
    look it up among [png], [jpg], [jpeg], [gif] and [webp]: there the
    answer is that of [str.lower], since the only characters outside
    ASCII whose lowercase form has an ASCII letter are U+212A, which
    gives [k], and U+0130, which gives [i] followed by a combining
    dot. *)
Definition lower : string -> string := map_chars lower_ascii.
Definition upper : string -> string := map_chars upper_ascii.

(** [m in s] for two strings: [m] occurs in [s] as a substring. *)
Fixpoint contains (m s : string) : bool :=
  String.prefix m s ||
  match s with
  | EmptyString => false
  | String _ s' => contains m s'
  end.

(** [sep.join(l)] *)
Fixpoint join (sep : string) (l : list string) : string :=
  match l with
  | [] => ""
  | [x] => x
  | x :: rest => x ++ sep ++ join sep rest
  end.

(** A byte that continues a character: [10xxxxxx]. *)
Definition is_continuation (c : ascii) : bool :=
  let n := N_of_ascii c in ((128 <=? n) && (n <? 192))%N.

(** [s[:n]] for [0 <= n]: the first [n] characters, each with the bytes
    that continue it. *)
Fixpoint take (n : nat) (s : string) {struct s} : string :=
  match s with
  | EmptyString => EmptyString
  | String c s' =>
      if is_continuation c then String c (take n s')
      else match n with
           | O => EmptyString
           | Datatypes.S n' => String c (take n' s')
           end
  end.

(** [str(n)] for an [int] *)
Definition of_Z (n : Z) : string := NilZero.string_of_int (Z.to_int n).

(** The string of the given bytes. *)
Definition bytes (l : list N) : string :=
  fold_right (fun n s => String (ascii_of_N n) s) EmptyString l.

(** The characters [str.strip()] removes, those for which [str.isspace]
    holds, in UTF-8: U+0009 to U+000D, U+001C to U+0020, U+0085, U+00A0,
    U+1680, U+2000 to U+200A, U+2028, U+2029, U+202F, U+205F, U+3000. *)
Definition whitespace : list string :=
  map bytes
    [[9]; [10]; [11]; [12]; [13]; [28]; [29]; [30]; [31]; [32];
     [194; 133]; [194; 160]; [225; 154; 128];
     [226; 128; 128]; [226; 128; 129]; [226; 128; 130]; [226; 128; 131];
     [226; 128; 132]; [226; 128; 133]; [226; 128; 134]; [226; 128; 135];
     [226; 128; 136]; [226; 128; 137]; [226; 128; 138];
     [226; 128; 168]; [226; 128; 169]; [226; 128; 175];
     [226; 129; 159]; [227; 128; 128]]%N.

Definition is_whitespace (w : string) : bool :=
  existsb (String.eqb w) whitespace.

(** [s[::-1]] on bytes *)
Fixpoint rev (s : string) : string :=
  match s with
  | EmptyString => EmptyString
  | String c s' => rev s' ++ String c EmptyString
  end.

(** Drop the leading characters that [ws] selects; a character has one
    to three bytes. *)
Fixpoint lstrip_chars (ws : string -> bool) (s : string) : string :=
  match s with
  | EmptyString => EmptyString
  | String c1 r1 =>
      if ws (String c1 EmptyString) then lstrip_chars ws r1 else
      match r1 with
      | EmptyString => s
      | String c2 r2 =>
          if ws (String c1 (String c2 EmptyString)) then lstrip_chars ws r2 else
          match r2 with
          | EmptyString => s
          | String c3 r3 =>
              if ws (String c1 (String c2 (String c3 EmptyString)))
              then lstrip_chars ws r3 else s
          end
      end
  end.

(** [s.lstrip()] and [s.rstrip()]: the second reads the string from its
    end, where the bytes of a character come in reverse. *)
Definition lstrip (s : string) : string := lstrip_chars is_whitespace s.
Definition rstrip (s : string) : string :=
  rev (lstrip_chars (fun w => is_whitespace (rev w)) (rev s)).

Fixpoint lstrip_by (p : ascii -> bool) (s : string) : string :=
  match s with
  | EmptyString => EmptyString
  | String c s' => if p c then lstrip_by p s' else s
  end.

Fixpoint rstrip_by (p : ascii -> bool) (s : string) : string :=
  match s with
  | EmptyString => EmptyString
  | String c s' =>
      match rstrip_by p s' with
      | EmptyString => if p c then EmptyString else String c EmptyString
      | r => String c r
      end
  end.

Definition strip_by (p : ascii -> bool) (s : string) : string :=
  rstrip_by p (lstrip_by p s).

(** [s.strip()] *)
Definition strip (s : string) : string := rstrip (lstrip s).

(** [s.strip(c)] and [s.rstrip(c)] for a one-character ASCII [c] *)
Definition strip_char (c : ascii) : string -> string := strip_by (Ascii.eqb c).
Definition rstrip_char (c : ascii) : string -> string := rstrip_by (Ascii.eqb c).

(** [s.split(c, 1)]: [None] when [c] does not occur (the list then has
    one element), else the text before and after the first [c]. *)
Fixpoint split_once (c : ascii) (s : string) : option (string * string) :=
  match s with
  | EmptyString => None
  | String d s' =>
      if Ascii.eqb c d then Some (EmptyString, s')
      else match split_once c s' with
           | Some (k, v) => Some (String d k, v)
           | None => None
           end
  end.

(** [s.startswith(c)] *)
Definition startswith_char (c : ascii) (s : string) : bool :=
  match s with
  | String d _ => Ascii.eqb c d
  | EmptyString => false
  end.

(** Truthiness of a string: [bool(s)] *)
Definition truthy (s : string) : bool :=
  match s with EmptyString => false | _ => true end.

(** [a or b] on strings *)
Definition or_else (a b : string) : string := if truthy a then a else b.

End PyStr.

(** [s.lower()] and [s.upper()] on any text.  On ASCII text they are
    computed; the result on other text is what the parameter says, which
    stands for Unicode's case tables. *)
Definition str_lower (unicode_lower : string -> string) (s : string) : string :=
  if PyStr.is_ascii s then PyStr.lower s else unicode_lower s.

Definition str_upper (unicode_upper : string -> string) (s : string) : string :=
  if PyStr.is_ascii s then PyStr.upper s else unicode_upper s.

(* ===================================================================== *)
(** * Python floats *)
(* ===================================================================== *)

Inductive pyfloat : Type :=
| Finite (q : Q)
| PosInf
| NegInf
| NaN.

(** [x <= y]: every comparison with [nan] is false. *)
Definition float_le (x y : pyfloat) : bool :=
  match x, y with
  | NaN, _ | _, NaN => false
  | NegInf, _ => true
  | _, PosInf => true
  | PosInf, _ => false
  | _, NegInf => false
  | Finite a, Finite b => Qle_bool a b
  end.

(** The chained comparison [lo <= x <= hi]. *)
Definition float_between (lo x hi : pyfloat) : bool :=
  float_le lo x && float_le x hi.

Definition float_of_Z (n : Z) : pyfloat := Finite (inject_Z n).

(* ===================================================================== *)
(** * Exceptions and results *)
(* ===================================================================== *)

(** The exception classes the providers raise or meet.  [BaseOnly] stands
    for the classes that derive from [BaseException] but not from
    [Exception] ([KeyboardInterrupt], [SystemExit], ...): an
    [except Exception] clause lets them through. *)
Inductive exn_class : Type :=
| RuntimeError
| ValueError
| TypeError
| ImportError
| ConnectionError
| OverflowError
| OSError
| OtherException (name : string)
| BaseOnly (name : string).

(** An exception object: its class and its [str()]. *)
Record exn : Type := Exn { exn_cls : exn_class; exn_str : string }.

Definition is_Exception (e : exn) : bool :=
  match exn_cls e with
  | BaseOnly _ => false
  | _ => true
  end.

Inductive result (A : Type) : Type :=
| Ret (a : A)
| Raise (e : exn).
Arguments Ret {A} a.
Arguments Raise {A} e.

Definition is_Ret {A} (r : result A) : bool :=
  match r with Ret _ => true | Raise _ => false end.

(** [str(x)] where [x] is an exception or [None] *)
Definition str_opt_exn (x : option exn) : string :=
  match x with
  | Some e => exn_str e
  | None => "None"
  end.

(* ===================================================================== *)
(** * base.py: ProviderConfig *)
(* ===================================================================== *)

Record ProviderConfig : Type := mkProviderConfig {
  api_key : string;
  api_base : string;
  vision_model : string;
  language_model : string;
  max_tokens : Z;
  temperature : pyfloat;
  top_p : pyfloat;
  max_retries : Z;
  retry_delay : pyfloat;
  extra : gmap string string
}.

Definition DEFAULT_MAX_TOKENS : Z := 4096.
Definition DEFAULT_TEMPERATURE : pyfloat := Finite 0.7.
Definition DEFAULT_TOP_P : pyfloat := Finite 0.9.
Definition DEFAULT_MAX_RETRIES : Z := 3.
Definition DEFAULT_RETRY_DELAY : pyfloat := Finite 1.

(** [ProviderConfig.__post_init__]: three independent resets, in the
    order of the source. *)
Definition __post_init__ (self : ProviderConfig) : ProviderConfig :=
  let max_tokens' :=
    if (max_tokens self <? 1)%Z then DEFAULT_MAX_TOKENS else max_tokens self in
  let temperature' :=
    if negb (float_between (Finite 0) (temperature self) (Finite 2))
    then DEFAULT_TEMPERATURE else temperature self in
  let top_p' :=
    if negb (float_between (Finite 0) (top_p self) (Finite 1))
    then DEFAULT_TOP_P else top_p self in
  {| api_key := api_key self;
     api_base := api_base self;
     vision_model := vision_model self;
     language_model := language_model self;
     max_tokens := max_tokens';
     temperature := temperature';
     top_p := top_p';
     max_retries := max_retries self;
     retry_delay := retry_delay self;
     extra := extra self |}.

(** The keyword arguments of the dataclass constructor; an absent keyword
    takes the field's default. *)
Record ConfigArgs : Type := mkConfigArgs {
  arg_api_key : option string;
  arg_api_base : option string;
  arg_vision_model : option string;
  arg_language_model : option string;
  arg_max_tokens : option Z;
  arg_temperature : option pyfloat;
  arg_top_p : option pyfloat;
  arg_max_retries : option Z;
  arg_retry_delay : option pyfloat;
  arg_extra : option (gmap string string)
}.

Definition no_args : ConfigArgs :=
  mkConfigArgs None None None None None None None None None None.

(** The call [ProviderConfig] with keyword arguments: the generated
    [__init__] stores the fields
    and then runs [__post_init__].  Nothing on this path raises. *)
Definition new_ProviderConfig (a : ConfigArgs) : result ProviderConfig :=
  Ret (__post_init__
    {| api_key := default "" (arg_api_key a);
       api_base := default "" (arg_api_base a);
       vision_model := default "" (arg_vision_model a);
       language_model := default "" (arg_language_model a);
       max_tokens := default DEFAULT_MAX_TOKENS (arg_max_tokens a);
       temperature := default DEFAULT_TEMPERATURE (arg_temperature a);
       top_p := default DEFAULT_TOP_P (arg_top_p a);
       max_retries := default DEFAULT_MAX_RETRIES (arg_max_retries a);
       retry_delay := default DEFAULT_RETRY_DELAY (arg_retry_delay a);
       extra := default ∅ (arg_extra a) |}).

(* ===================================================================== *)
(** * Vendor requests *)
(* ===================================================================== *)

Inductive provider_kind : Type := Qwen | Gemini | OpenAI | Anthropic | Ollama.

(** [AIProvider.name] of each subclass. *)
Definition name (k : provider_kind) : string :=
  match k with
  | Qwen => "qwen"
  | Gemini => "gemini"
  | OpenAI => "openai"
  | Anthropic => "anthropic"
  | Ollama => "ollama"
  end.

(** One element of a multimodal message's content list. *)
Inductive part : Type :=
| ImageUrlPart (url : string) (detail : option string)
| ImagePart (source_type media_type data : string)
| TextPart (text : string).

Inductive msg_content : Type :=
| TextContent (s : string)
| PartsContent (ps : list part).

Record message : Type := mkMessage { role : string; content : msg_content }.

(** Gemini's [generation_config] dictionary. *)
Record generation_config : Type := mkGenerationConfig {
  gc_temperature : pyfloat;
  gc_top_p : option pyfloat;
  gc_max_output_tokens : Z
}.

Inductive gemini_contents : Type :=
| PromptOnly (full_prompt : string)
| ImageAndPrompt (mime_type : string) (data : list Byte.byte) (prompt : string).

(** Ollama's request body. *)
Record ollama_options : Type := mkOllamaOptions {
  oo_temperature : pyfloat;
  oo_top_p : option pyfloat;
  oo_num_predict : Z
}.

Record ollama_data : Type := mkOllamaData {
  od_model : string;
  od_prompt : string;
  od_images : option (list string);
  od_stream : bool;
  od_options : ollama_options;
  od_system : option string
}.

(** The call a provider makes on its transport inside [_call]. *)
Inductive request : Type :=
| ChatCompletionsCreate (model : string) (messages : list message)
    (req_max_tokens : Z) (req_temperature : pyfloat) (req_top_p : option pyfloat)
| MessagesCreate (model : string) (req_max_tokens : Z) (messages : list message)
    (req_temperature : pyfloat) (system : option string)
| GenerateContent (model : string) (contents : gemini_contents)
    (config : generation_config)
| MakeRequest (url : string) (data : ollama_data).

(** The sampling temperature a request carries. *)
Definition request_temperature (r : request) : pyfloat :=
  match r with
  | ChatCompletionsCreate _ _ _ t _ => t
  | MessagesCreate _ _ _ t _ => t
  | GenerateContent _ _ c => gc_temperature c
  | MakeRequest _ d => oo_temperature (od_options d)
  end.

(* ===================================================================== *)
(** * The world: external state and trace *)
(* ===================================================================== *)

Inductive event : Type :=
| EvInvoke
| EvPrintRetry (number total : Z) (wait_time : pyfloat) (reason : string)
| EvSleep (secs : pyfloat).

Record World (S : Type) : Type := mkWorld { ext : S; trace : list event }.
Arguments mkWorld {S} ext trace.
Arguments ext {S} w.
Arguments trace {S} w.

(** A computation in the world that returns or raises. *)
Definition M (S A : Type) : Type := World S -> result A * World S.

Definition ret {S A} (a : A) : M S A := fun w => (Ret a, w).

Definition raise {S A} (e : exn) : M S A := fun w => (Raise e, w).

Definition bind {S A B} (c : M S A) (k : A -> M S B) : M S B :=
  fun w =>
    match c w with
    | (Ret a, w') => k a w'
    | (Raise e, w') => (Raise e, w')
    end.

Notation "'do' x <- c ; k" := (bind c (fun x => k))
  (at level 10, x name, c at level 100, k at level 200).
Notation "c ;> k" := (bind c (fun _ => k))
  (at level 200, right associativity).

Definition emit {S} (e : event) : M S unit :=
  fun w => (Ret tt, mkWorld (ext w) (trace w ++ [e])%list).

(** Run a computation of the outside world on the external state. *)
Definition outside {S A} (f : S -> result A * S) : M S A :=
  fun w => let '(r, s') := f (ext w) in (r, mkWorld s' (trace w)).

Definition lift_result {S A} (r : result A) : M S A := fun w => (r, w).

(** The system call behind [time.sleep]: what the platform does with a
    timeout of so many seconds that CPython accepted, in a state of the
    outside world.  It sleeps, or it refuses with an exception: [OSError]
    where the deadline is past what the clock holds, and at the very top
    of the range, where the C conversion is not defined, whatever the
    platform makes of the timeout. *)
Class Clock (S : Type) : Type := {
  clock_nanosleep : Q -> S -> result unit
}.

(** The largest number of nanoseconds that CPython's conversion of a
    timeout to [_PyTime_t] lets through: products up to it round to at
    most [2 ** 63] in binary64. *)
Definition TIMEOUT_LIMIT : Q := inject_Z (2 ^ 63 + 1024).

Definition nanoseconds (q : Q) : Q := q * inject_Z (10 ^ 9).

Definition timestamp_too_large : exn :=
  Exn OverflowError "timestamp too large to convert to C _PyTime_t".

(** [time.sleep(secs)] for a float: [nan] is a [ValueError]; a timeout
    whose nanoseconds leave the range of [_PyTime_t], an infinity
    included, is an [OverflowError]; a negative one is a [ValueError];
    any other goes to the system call and, when that returns, is slept
    through. *)
Definition time_sleep {S} {clock : Clock S} (secs : pyfloat) : M S unit :=
  match secs with
  | NaN => raise (Exn ValueError "Invalid value NaN (not a number)")
  | PosInf | NegInf => raise timestamp_too_large
  | Finite q =>
      if negb (Qle_bool (- TIMEOUT_LIMIT) (nanoseconds q)
               && Qle_bool (nanoseconds q) TIMEOUT_LIMIT)
      then raise timestamp_too_large
      else if negb (Qle_bool 0 q)
      then raise (Exn ValueError "sleep length must be non-negative")
      else fun w =>
             match clock_nanosleep q (ext w) with
             | Ret _ => emit (EvSleep secs) w
             | Raise e => (Raise e, w)
             end
  end.

(** The first power of two that binary64 cannot hold. *)
Definition BINARY64_OVERFLOW : Q := inject_Z (2 ^ 1024).

(** [x * (2 ** a)] for a float [x] and an int [0 <= a]: the int is first
    converted to a float, which raises [OverflowError] from [2 ** 1024]
    on; the product is exact until it overflows to an infinity. *)
Definition float_mul_pow2 (x : pyfloat) (a : Z) : result pyfloat :=
  if (1024 <=? a)%Z
  then Raise (Exn OverflowError "int too large to convert to float")
  else Ret match x with
           | Finite q =>
               let p := (q * inject_Z (2 ^ a))%Q in
               if Qle_bool BINARY64_OVERFLOW p then PosInf
               else if Qle_bool p (- BINARY64_OVERFLOW) then NegInf
               else Finite p
           | other => other
           end.

(* ===================================================================== *)
(** * base.py: AIProvider._retry_with_backoff *)
(* ===================================================================== *)

Section Retry.

Context {S A : Type} {clock : Clock S}.

(** [self.config] and [self.name], the two things the method reads. *)
Variable cfg : ProviderConfig.
Variable self_name : string.

(** The wrapped callable, applied to its arguments. *)
Variable func : S -> result A * S.

(** How one pass through the [for] loop's body can leave the loop. *)
Inductive loop_exit : Type :=
| Returned (v : A)
| Exhausted (last_exception : option exn).

(** The [except Exception as e] handler of iteration [attempt]. *)
Definition on_exception (attempt : Z) (e : exn) : M S unit :=
  if (attempt <? max_retries cfg - 1)%Z then
    do wait_time <- lift_result (float_mul_pow2 (retry_delay cfg) attempt);
    (emit (EvPrintRetry (attempt + 1) (max_retries cfg) wait_time
             (PyStr.take 50 (exn_str e))) ;>
     time_sleep wait_time)
  else ret tt.

(** [for attempt in range(max_retries)], with [n] iterations left. *)
Fixpoint attempts (n : nat) (attempt : Z) (last_exception : option exn)
  : M S loop_exit :=
  match n with
  | O => ret (Exhausted last_exception)
  | Datatypes.S n' =>
      fun w =>
        match (emit EvInvoke ;> outside func) w with
        | (Ret v, w1) => (Ret (Returned v), w1)
        | (Raise e, w1) =>
            if is_Exception e then
              (on_exception attempt e ;>
               attempts n' (attempt + 1) (Some e)) w1
            else (Raise e, w1)
        end
  end.

Definition all_retries_failed (last_exception : option exn) : exn :=
  Exn RuntimeError
    ("All " ++ PyStr.of_Z (max_retries cfg) ++ " retries failed for "
     ++ self_name ++ ": " ++ str_opt_exn last_exception).

Definition _retry_with_backoff : M S A :=
  do out <- attempts (Z.to_nat (max_retries cfg)) 0 None;
  match out with
  | Returned v => ret v
  | Exhausted last_exception => raise (all_retries_failed last_exception)
  end.

End Retry.

(* ===================================================================== *)
(** * base64 (Python standard library, RFC 4648 standard alphabet) *)
(* ===================================================================== *)

Module base64.

Definition alphabet : string :=
  "ABCDEFGHIJKLMNOPQRSTUVWXYZabcdefghijklmnopqrstuvwxyz0123456789+/".

Definition pad : ascii := "="%char.

(** The character of a 6-bit value. *)
Definition char_of (n : N) : ascii :=
  match String.get (N.to_nat n) alphabet with
  | Some c => c
  | None => pad
  end.

Fixpoint index_from (c : ascii) (s : string) (i : N) : option N :=
  match s with
  | EmptyString => None
  | String d s' => if Ascii.eqb c d then Some i else index_from c s' (i + 1)
  end.

(** The 6-bit value of a character of the alphabet. *)
Definition index_of (c : ascii) : option N := index_from c alphabet 0.

Definition byte_of_N (n : N) : Byte.byte :=
  match Byte.of_N (n mod 256) with
  | Some b => b
  | None => Byte.x00
  end.

(** [base64.standard_b64encode(bs).decode("utf-8")]: three bytes become
    four characters; a last group of one or two bytes is padded. *)
Fixpoint standard_b64encode (bs : list Byte.byte) : string :=
  match bs with
  | [] => ""
  | [a] =>
      let x := Byte.to_N a in
      String (char_of (x / 4))
     (String (char_of (x mod 4 * 16))
     (String pad (String pad "")))
  | [a; b] =>
      let x := Byte.to_N a in
      let y := Byte.to_N b in
      String (char_of (x / 4))
     (String (char_of (x mod 4 * 16 + y / 16))
     (String (char_of (y mod 16 * 4))
     (String pad "")))
  | a :: b :: c :: rest =>
      let x := Byte.to_N a in
      let y := Byte.to_N b in
      let z := Byte.to_N c in
      String (char_of (x / 4))
     (String (char_of (x mod 4 * 16 + y / 16))
     (String (char_of (y mod 16 * 4 + z / 64))
     (String (char_of (z mod 64))
       (standard_b64encode rest))))
  end%N.

(** [base64.b64decode(s, validate=True)]: four characters become three
    bytes; padding is accepted in the last group only. *)
Fixpoint b64decode (s : string) : option (list Byte.byte) :=
  match s with
  | EmptyString => Some []
  | String c1 (String c2 (String c3 (String c4 rest))) =>
      match index_of c1, index_of c2 with
      | Some n1, Some n2 =>
          let b1 := byte_of_N (n1 * 4 + n2 / 16) in
          if Ascii.eqb c3 pad then
            if Ascii.eqb c4 pad && negb (PyStr.truthy rest)
            then Some [b1] else None
          else
            match index_of c3 with
            | Some n3 =>
                let b2 := byte_of_N (n2 mod 16 * 16 + n3 / 4) in
                if Ascii.eqb c4 pad then
                  if negb (PyStr.truthy rest) then Some [b1; b2] else None
                else
                  match index_of c4, b64decode rest with
                  | Some n4, Some tail =>
                      Some (b1 :: b2 :: byte_of_N (n3 mod 4 * 64 + n4) :: tail)
                  | _, _ => None
                  end
            | None => None
            end
      | _, _ => None
      end
  | _ => None
  end%N.

End base64.

(* ===================================================================== *)
(** * The provider objects and the outside world they talk to *)
(* ===================================================================== *)

(** The attributes of a provider instance.  [_client] is [false] while
    the attribute is [None]. *)
Record AIProvider : Type := mkAIProvider {
  kind : provider_kind;
  config : ProviderConfig;
  _client : bool;
  _base_url : option string;
  _vision_model : option string;
  _language_model : option string
}.

(** [AIProvider.__init__] *)
Definition new_provider (k : provider_kind) (c : ProviderConfig) : AIProvider :=
  mkAIProvider k c false None None None.

Definition set_client (self : AIProvider) : AIProvider :=
  mkAIProvider (kind self) (config self) true (_base_url self)
    (_vision_model self) (_language_model self).

Definition set_base_url (u : string) (self : AIProvider) : AIProvider :=
  mkAIProvider (kind self) (config self) (_client self) (Some u)
    (_vision_model self) (_language_model self).

Definition set_models (v l : string) (self : AIProvider) : AIProvider :=
  mkAIProvider (kind self) (config self) (_client self) (_base_url self)
    (Some v) (Some l).

(** What [urllib.request.urlopen] on Ollama's [/api/tags] can do. *)
Inductive probe_outcome : Type :=
| ProbeStatus (status : Z)
| ProbeURLError (e : string)
| ProbeRaises (e : exn).

(** The vendor SDKs and the network, as seen from the providers. *)
Class Outside (S : Type) : Type := {
  sdk_importable : provider_kind -> S -> bool;
  make_client : AIProvider -> S -> result unit * S;
  urlopen_tags : string -> S -> probe_outcome * S;
  transport : AIProvider -> request -> S -> result string * S;
  nanosleep : Q -> S -> result unit
}.

(** The external state of a provider call: the vendor side and the list
    of requests put on the wire so far. *)
Record Wire (S : Type) : Type := mkWire {
  vendor : S;
  sent : list (provider_kind * request)
}.
Arguments mkWire {S} vendor sent.
Arguments vendor {S} w.
Arguments sent {S} w.

(** A method of a provider: it may update [self] even when it raises. *)
Definition Method (S A : Type) : Type :=
  AIProvider -> World (Wire S) -> result A * AIProvider * World (Wire S).

Definition on_vendor {S A} (f : S -> result A * S) : M (Wire S) A :=
  outside (fun n => let '(r, s') := f (vendor n) in (r, mkWire s' (sent n))).

Definition newline : string := String (ascii_of_N 10) "".

(** The clock of a provider call is the vendor side's. *)
#[export] Instance wire_clock {S : Type} `{Outside S} : Clock (Wire S) :=
  {| clock_nanosleep := fun q n => nanosleep q (vendor n) |}.

Section Providers.

Context {S : Type} `{Outside S}.

(** The body of every [_call] closure: one request on the transport. *)
Definition send (self : AIProvider) (req : request)
  : Wire S -> result string * Wire S :=
  fun n =>
    let '(r, s') := transport self req (vendor n) in
    (r, mkWire s' (sent n ++ [(kind self, req)])%list).

Definition import_error (k : provider_kind) : exn :=
  Exn ImportError
    match k with
    | Qwen => "openai package is required for Qwen provider. Install with: pip install openai"
    | OpenAI => "openai package is required for OpenAI provider. Install with: pip install openai"
    | Anthropic => "anthropic package is required for Anthropic provider. Install with: pip install anthropic"
    | Gemini => "google-generativeai package is required for Gemini provider. Install with: pip install google-generativeai"
    | Ollama => "" (* Ollama imports no SDK *)
    end.

(** [_initialize_client] of the three SDK-backed providers that store a
    client, and of Gemini, which stores its two models and leaves
    [_client] as it is. *)
Definition _initialize_sdk_client : Method S unit :=
  fun self w =>
    if sdk_importable (kind self) (vendor (ext w)) then
      match on_vendor (make_client self) w with
      | (Ret _, w') =>
          match kind self with
          | Gemini =>
              (Ret tt,
               set_models
                 (PyStr.or_else (vision_model (config self)) "gemini-2.0-flash")
                 (PyStr.or_else (language_model (config self)) "gemini-2.0-flash")
                 self, w')
          | _ => (Ret tt, set_client self, w')
          end
      | (Raise e, w') => (Raise e, self, w')
      end
    else (Raise (import_error (kind self)), self, w).

(** [OllamaProvider._initialize_client] *)
Definition _initialize_ollama : Method S unit :=
  fun self w =>
    let base_url := PyStr.or_else (api_base (config self)) "http://localhost:11434" in
    let stripped := PyStr.rstrip_char "/"%char base_url in
    let self1 := set_base_url stripped self in
    match outside (fun n => let '(o, s') := urlopen_tags (stripped ++ "/api/tags") (vendor n)
                            in (Ret o, mkWire s' (sent n))) w with
    | (Ret (ProbeStatus status), w') =>
        if (status =? 200)%Z then (Ret tt, set_client self1, w')
        else (Raise (Exn ConnectionError "Ollama is not responding"), self1, w')
    | (Ret (ProbeURLError e), w') =>
        (Raise (Exn ConnectionError
                  ("Cannot connect to Ollama at " ++ stripped ++ ". "
                   ++ "Make sure Ollama is running: ollama serve" ++ newline
                   ++ "Error: " ++ e)), self1, w')
    | (Ret (ProbeRaises e), w') => (Raise e, self1, w')
    | (Raise e, w') => (Raise e, self1, w')
    end.

Definition _initialize_client : Method S unit :=
  fun self =>
    match kind self with
    | Ollama => _initialize_ollama self
    | _ => _initialize_sdk_client self
    end.

(** [if self._client is None: self._initialize_client()] *)
Definition ensure_client : Method S unit :=
  fun self w =>
    if _client self then (Ret tt, self, w) else _initialize_client self w.

(** Reading an attribute that [_initialize_client] has not set yet. *)
Definition attribute_error (attr : string) : exn :=
  Exn (OtherException "AttributeError")
    ("object has no attribute '" ++ attr ++ "'").

(** A [_call] closure: it sends the request it was built around, or
    raises where building the request reads a missing attribute. *)
Definition _call (self : AIProvider) (req : result request)
  : Wire S -> result string * Wire S :=
  match req with
  | Ret r => send self r
  | Raise e => fun n => (Raise e, n)
  end.

(** [return self._retry_with_backoff(_call)] *)
Definition call_with_retry (req : result request) : Method S string :=
  fun self w =>
    let '(r, w') :=
      _retry_with_backoff (config self) (name (kind self)) (_call self req) w in
    (r, self, w').

End Providers.

(* ===================================================================== *)
(** * The requests each provider builds *)
(* ===================================================================== *)

(** [if system_prompt:] on an optional string *)
Definition given (system_prompt : option string) : bool :=
  match system_prompt with
  | Some s => PyStr.truthy s
  | None => false
  end.

Definition user_message (prompt : string) : message :=
  mkMessage "user" (TextContent prompt).

Definition system_messages (system_prompt : option string) : list message :=
  match system_prompt with
  | Some s => if PyStr.truthy s then [mkMessage "system" (TextContent s)] else []
  | None => []
  end.

(** The literal [0.1] of every [vision] method. *)
Definition OCR_TEMPERATURE : pyfloat := Finite 0.1.

(** The f-string [data:image/{image_format};base64,{image_base64}] *)
Definition data_url (image_format image_base64 : string) : string :=
  "data:image/" ++ image_format ++ ";base64," ++ image_base64.

Module QwenProvider.

Definition supports_vision (self : AIProvider) : bool := true.

Definition chat_request (self : AIProvider) (prompt : string)
    (system_prompt : option string) : result request :=
  let c := config self in
  Ret (ChatCompletionsCreate
         (PyStr.or_else (language_model c) "qwen-max")
         (system_messages system_prompt ++ [user_message prompt])%list
         (max_tokens c) (temperature c) (Some (top_p c))).

Definition vision_request (self : AIProvider) (image_data : list Byte.byte)
    (prompt image_format : string) : result request :=
  let c := config self in
  let image_base64 := base64.standard_b64encode image_data in
  Ret (ChatCompletionsCreate
         (PyStr.or_else (vision_model c) "qwen-vl-plus")
         [mkMessage "user"
            (PartsContent [ImageUrlPart (data_url image_format image_base64) None;
                           TextPart prompt])]
         (max_tokens c) OCR_TEMPERATURE None).

End QwenProvider.

Module OpenAIProvider.

Definition vision_models : list string := ["gpt-4o"; "gpt-4-turbo"; "gpt-4-vision"].

Definition supports_vision (self : AIProvider) : bool :=
  existsb (fun m => PyStr.contains m (PyStr.lower (vision_model (config self))))
          vision_models.

Definition chat_request (self : AIProvider) (prompt : string)
    (system_prompt : option string) : result request :=
  let c := config self in
  Ret (ChatCompletionsCreate
         (PyStr.or_else (language_model c) "gpt-4o")
         (system_messages system_prompt ++ [user_message prompt])%list
         (max_tokens c) (temperature c) (Some (top_p c))).

Definition vision_request (self : AIProvider) (image_data : list Byte.byte)
    (prompt image_format : string) : result request :=
  let c := config self in
  let image_base64 := base64.standard_b64encode image_data in
  Ret (ChatCompletionsCreate
         (PyStr.or_else (vision_model c) "gpt-4o")
         [mkMessage "user"
            (PartsContent [ImageUrlPart (data_url image_format image_base64)
                                        (Some "high");
                           TextPart prompt])]
         (max_tokens c) OCR_TEMPERATURE None).

End OpenAIProvider.

Module AnthropicProvider.

Definition supports_vision (self : AIProvider) : bool := true.

Definition media_type_map : list (string * string) :=
  [("png", "image/png"); ("jpg", "image/jpeg"); ("jpeg", "image/jpeg");
   ("gif", "image/gif"); ("webp", "image/webp")].

(** [d.get(key, default)] on a dictionary literal *)
Fixpoint dict_get (d : list (string * string)) (key default : string) : string :=
  match d with
  | [] => default
  | (k, v) :: d' => if String.eqb key k then v else dict_get d' key default
  end.

Definition chat_request (self : AIProvider) (prompt : string)
    (system_prompt : option string) : result request :=
  let c := config self in
  Ret (MessagesCreate
         (PyStr.or_else (language_model c) "claude-sonnet-4-20250514")
         (max_tokens c)
         [user_message prompt]
         (temperature c)
         (if given system_prompt then system_prompt else None)).

Definition vision_request (self : AIProvider) (image_data : list Byte.byte)
    (prompt image_format : string) : result request :=
  let c := config self in
  let image_base64 := base64.standard_b64encode image_data in
  let media_type :=
    dict_get media_type_map (PyStr.lower image_format) "image/png" in
  Ret (MessagesCreate
         (PyStr.or_else (vision_model c) "claude-sonnet-4-20250514")
         (max_tokens c)
         [mkMessage "user"
            (PartsContent [ImagePart "base64" media_type image_base64;
                           TextPart prompt])]
         OCR_TEMPERATURE None).

End AnthropicProvider.

Module GeminiProvider.

Definition supports_vision (self : AIProvider) : bool := true.

Definition chat_request (self : AIProvider) (prompt : string)
    (system_prompt : option string) : result request :=
  let c := config self in
  let full_prompt :=
    match system_prompt with
    | Some s => if PyStr.truthy s then s ++ newline ++ newline ++ prompt else prompt
    | None => prompt
    end in
  match _language_model self with
  | Some m =>
      Ret (GenerateContent m (PromptOnly full_prompt)
             (mkGenerationConfig (temperature c) (Some (top_p c)) (max_tokens c)))
  | None => Raise (attribute_error "_language_model")
  end.

Definition vision_request (self : AIProvider) (image_data : list Byte.byte)
    (prompt image_format : string) : result request :=
  let c := config self in
  match _vision_model self with
  | Some m =>
      Ret (GenerateContent m
             (ImageAndPrompt ("image/" ++ image_format) image_data prompt)
             (mkGenerationConfig OCR_TEMPERATURE None (max_tokens c)))
  | None => Raise (attribute_error "_vision_model")
  end.

End GeminiProvider.

Module OllamaProvider.

Definition vision_models : list string := ["llava"; "bakllava"; "moondream"].

Definition supports_vision (self : AIProvider) : bool :=
  existsb (fun m => PyStr.contains m (PyStr.lower (vision_model (config self))))
          vision_models.

(** [_make_request(endpoint, data)] up to the point where the request
    goes out: the URL needs [self._base_url]. *)
Definition _make_request (self : AIProvider) (endpoint : string)
    (data : ollama_data) : result request :=
  match _base_url self with
  | Some b => Ret (MakeRequest (b ++ endpoint) data)
  | None => Raise (attribute_error "_base_url")
  end.

Definition chat_request (self : AIProvider) (prompt : string)
    (system_prompt : option string) : result request :=
  let c := config self in
  _make_request self "/api/generate"
    (mkOllamaData (PyStr.or_else (language_model c) "llama3") prompt None true
       (mkOllamaOptions (temperature c) (Some (top_p c)) (max_tokens c))
       (if given system_prompt then system_prompt else None)).

Definition vision_request (self : AIProvider) (image_data : list Byte.byte)
    (prompt image_format : string) : result request :=
  let c := config self in
  let image_base64 := base64.standard_b64encode image_data in
  _make_request self "/api/generate"
    (mkOllamaData (PyStr.or_else (vision_model c) "llava") prompt
       (Some [image_base64]) true
       (mkOllamaOptions OCR_TEMPERATURE None (max_tokens c))
       None).

End OllamaProvider.

(** Dispatch on the class of [self]. *)
Definition supports_vision (self : AIProvider) : bool :=
  match kind self with
  | Qwen => QwenProvider.supports_vision self
  | Gemini => GeminiProvider.supports_vision self
  | OpenAI => OpenAIProvider.supports_vision self
  | Anthropic => AnthropicProvider.supports_vision self
  | Ollama => OllamaProvider.supports_vision self
  end.

Definition chat_request (self : AIProvider) : string -> option string -> result request :=
  match kind self with
  | Qwen => QwenProvider.chat_request self
  | Gemini => GeminiProvider.chat_request self
  | OpenAI => OpenAIProvider.chat_request self
  | Anthropic => AnthropicProvider.chat_request self
  | Ollama => OllamaProvider.chat_request self
  end.

Definition vision_request (self : AIProvider)
  : list Byte.byte -> string -> string -> result request :=
  match kind self with
  | Qwen => QwenProvider.vision_request self
  | Gemini => GeminiProvider.vision_request self
  | OpenAI => OpenAIProvider.vision_request self
  | Anthropic => AnthropicProvider.vision_request self
  | Ollama => OllamaProvider.vision_request self
  end.

Section Methods.

Context {S : Type} `{Outside S}.

(** [chat(self, prompt, system_prompt=None)] *)
Definition chat (prompt : string) (system_prompt : option string)
  : Method S string :=
  fun self w =>
    match ensure_client self w with
    | (Ret _, self1, w1) =>
        call_with_retry (chat_request self1 prompt system_prompt) self1 w1
    | (Raise e, self1, w1) => (Raise e, self1, w1)
    end.

(** [vision(self, image_data, prompt, image_format="png")] *)
Definition vision (image_data : list Byte.byte) (prompt image_format : string)
  : Method S string :=
  fun self w =>
    match ensure_client self w with
    | (Ret _, self1, w1) =>
        call_with_retry (vision_request self1 image_data prompt image_format)
          self1 w1
    | (Raise e, self1, w1) => (Raise e, self1, w1)
    end.

End Methods.

(* ===================================================================== *)
(** * The factory functions of the provider modules *)
(* ===================================================================== *)

(** The keyword options a caller can pass through the keyword
    dictionary of [get_provider] and of the factory functions: the fields
    of [ProviderConfig] that no factory function names, and [base_url],
    which [create_ollama_provider] names.  Other keywords are outside
    the model. *)
Record Kwargs : Type := mkKwargs {
  kw_api_base : option string;
  kw_max_tokens : option Z;
  kw_temperature : option pyfloat;
  kw_top_p : option pyfloat;
  kw_max_retries : option Z;
  kw_retry_delay : option pyfloat;
  kw_extra : option (gmap string string);
  kw_base_url : option string
}.

Definition no_kwargs : Kwargs :=
  mkKwargs None None None None None None None None.

(** [os.environ.get(key, default)] *)
Definition environ_get (environ : gmap string string) (key default : string)
  : string :=
  match environ !! key with
  | Some v => v
  | None => default
  end.

(** [ProviderConfig(api_key=..., api_base=..., vision_model=...,
    language_model=..., **kwargs)]; [api_base] is [None] where the call
    does not name it.  A keyword given twice is a [TypeError], raised
    where the call is put together, and so is a [base_url] that reaches
    the constructor, which has no such field. *)
Definition config_from (api_key : string) (api_base : option string)
    (vision_model language_model : string) (kwargs : Kwargs)
  : result ProviderConfig :=
  match api_base, kw_api_base kwargs, kw_base_url kwargs with
  | Some _, Some _, _ =>
      Raise (Exn TypeError
               "providers.base.ProviderConfig() got multiple values for keyword argument 'api_base'")
  | _, _, Some _ =>
      Raise (Exn TypeError
               "ProviderConfig.__init__() got an unexpected keyword argument 'base_url'")
  | _, _, None =>
      new_ProviderConfig
        {| arg_api_key := Some api_key;
           arg_api_base :=
             match api_base with Some b => Some b | None => kw_api_base kwargs end;
           arg_vision_model := Some vision_model;
           arg_language_model := Some language_model;
           arg_max_tokens := kw_max_tokens kwargs;
           arg_temperature := kw_temperature kwargs;
           arg_top_p := kw_top_p kwargs;
           arg_max_retries := kw_max_retries kwargs;
           arg_retry_delay := kw_retry_delay kwargs;
           arg_extra := kw_extra kwargs |}
  end.

Definition result_map {A B} (f : A -> B) (r : result A) : result B :=
  match r with
  | Ret a => Ret (f a)
  | Raise e => Raise e
  end.

(** [api_key or os.environ.get(var, "")] with [api_key] possibly [None] *)
Definition key_or_environ (api_key : option string) (var : string)
    (environ : gmap string string) : string :=
  PyStr.or_else (default "" api_key) (environ_get environ var "").

Definition create_qwen_provider (api_key : option string)
    (vision_model language_model : string) (kwargs : Kwargs)
    (environ : gmap string string) : result AIProvider :=
  result_map (new_provider Qwen)
    (config_from (key_or_environ api_key "DASHSCOPE_API_KEY" environ)
       (Some "https://dashscope.aliyuncs.com/compatible-mode/v1")
       vision_model language_model kwargs).

Definition create_gemini_provider (api_key : option string)
    (vision_model language_model : string) (kwargs : Kwargs)
    (environ : gmap string string) : result AIProvider :=
  result_map (new_provider Gemini)
    (config_from (key_or_environ api_key "GEMINI_API_KEY" environ)
       None vision_model language_model kwargs).

Definition create_openai_provider (api_key : option string)
    (vision_model language_model : string) (kwargs : Kwargs)
    (environ : gmap string string) : result AIProvider :=
  result_map (new_provider OpenAI)
    (config_from (key_or_environ api_key "OPENAI_API_KEY" environ)
       None vision_model language_model kwargs).

Definition create_anthropic_provider (api_key : option string)
    (vision_model language_model : string) (kwargs : Kwargs)
    (environ : gmap string string) : result AIProvider :=
  result_map (new_provider Anthropic)
    (config_from (key_or_environ api_key "ANTHROPIC_API_KEY" environ)
       None vision_model language_model kwargs).

(** [create_ollama_provider(base_url=..., vision_model=...,
    language_model=..., **kwargs)]: [base_url] is the keyword of that
    name and defaults to the local endpoint when the caller leaves it
    out; the other keywords go on to [ProviderConfig]. *)
Definition without_base_url (kwargs : Kwargs) : Kwargs :=
  mkKwargs (kw_api_base kwargs) (kw_max_tokens kwargs) (kw_temperature kwargs)
    (kw_top_p kwargs) (kw_max_retries kwargs) (kw_retry_delay kwargs)
    (kw_extra kwargs) None.

Definition create_ollama_provider
    (vision_model language_model : string) (kwargs : Kwargs)
    (environ : gmap string string) : result AIProvider :=
  result_map (new_provider Ollama)
    (config_from ""
       (Some (PyStr.or_else
                (default "http://localhost:11434" (kw_base_url kwargs))
                (environ_get environ "OLLAMA_BASE_URL" "http://localhost:11434")))
       vision_model language_model (without_base_url kwargs)).

(* ===================================================================== *)
(** * factory.py *)
(* ===================================================================== *)

(** The registry, in the order of the dictionary literal. *)
Definition PROVIDERS : list (string * provider_kind) :=
  [("qwen", Qwen); ("gemini", Gemini); ("openai", OpenAI);
   ("anthropic", Anthropic); ("ollama", Ollama)].

(** [PROVIDERS.keys()] *)
Definition provider_names : list string := map fst PROVIDERS.

Fixpoint lookup_provider (reg : list (string * provider_kind)) (n : string)
  : option provider_kind :=
  match reg with
  | [] => None
  | (k, v) :: reg' => if String.eqb n k then Some v else lookup_provider reg' n
  end.

(** [DEFAULT_MODELS[name]["vision"]] and [["language"]] *)
Definition DEFAULT_MODELS (k : provider_kind) : string * string :=
  match k with
  | Qwen => ("qwen-vl-plus", "qwen-max")
  | Gemini => ("gemini-2.0-flash", "gemini-2.0-flash")
  | OpenAI => ("gpt-4o", "gpt-4o")
  | Anthropic => ("claude-sonnet-4-20250514", "claude-sonnet-4-20250514")
  | Ollama => ("llava", "llama3")
  end.

Definition api_key_env_map (k : provider_kind) : option string :=
  match k with
  | Qwen => Some "DASHSCOPE_API_KEY"
  | Gemini => Some "GEMINI_API_KEY"
  | OpenAI => Some "OPENAI_API_KEY"
  | Anthropic => Some "ANTHROPIC_API_KEY"
  | Ollama => None
  end.

(** [FACTORY_FUNCTIONS[name]], called with the keyword [api_key] where
    the caller has one for it; [create_ollama_provider] is never given
    one. *)
Definition FACTORY_FUNCTIONS (k : provider_kind)
  : option string -> string -> string -> Kwargs -> gmap string string
    -> result AIProvider :=
  match k with
  | Qwen => create_qwen_provider
  | Gemini => create_gemini_provider
  | OpenAI => create_openai_provider
  | Anthropic => create_anthropic_provider
  | Ollama => fun _ => create_ollama_provider
  end.

Definition unknown_provider (provider_name : string) : exn :=
  Exn ValueError
    ("Unknown provider: " ++ provider_name ++ ". "
     ++ "Available providers: " ++ PyStr.join ", " provider_names).

Definition double_quote : ascii := ascii_of_N 34.
Definition single_quote : ascii := ascii_of_N 39.
Definition nul : ascii := ascii_of_N 0.

Fixpoint has_char (c : ascii) (s : string) : bool :=
  match s with
  | EmptyString => false
  | String d s' => Ascii.eqb c d || has_char c s'
  end.

(** [os.environ.setdefault(key, value)]: a present key is left alone; a
    new one goes through [putenv], which refuses an embedded null with
    [ValueError] before the call of [setenv], and that refuses an empty
    name ([EINVAL]).  A key of a [.env] line holds no equals sign. *)
Definition environ_setdefault (key value : string)
    (environ : gmap string string) : result (gmap string string) :=
  match environ !! key with
  | Some _ => Ret environ
  | None =>
      if has_char nul key || has_char nul value
      then Raise (Exn ValueError "embedded null byte")
      else if negb (PyStr.truthy key)
      then Raise (Exn OSError "[Errno 22] Invalid argument")
      else Ret (<[key := value]> environ)
  end.

Section Factory.

(** [int(s)] and [float(s)] on a string: the number, or the text of
    the [ValueError] that Python raises. *)
Variable py_int : string -> Z + string.
Variable py_float : string -> pyfloat + string.

(** [s.lower()] on text outside ASCII. *)
Variable unicode_lower : string -> string.

(** The two [.env] paths computed from the module's own directory. *)
Variable module_env_paths : list string.

(** The file system: the lines of the text file at a path, if it exists. *)
Variable fs : string -> option (list string).

Definition search_paths (env_path : option string) : list (option string) :=
  env_path :: Some ".env" :: map Some module_env_paths.

(** The first path that is set and exists. *)
Fixpoint find_env_file (paths : list (option string)) : option (list string) :=
  match paths with
  | [] => None
  | None :: rest => find_env_file rest
  | Some path :: rest =>
      if PyStr.truthy path then
        match fs path with
        | Some lines => Some lines
        | None => find_env_file rest
        end
      else find_env_file rest
  end.

(** The body of [for line in f], on the pair of [env_vars] and
    [os.environ]. *)
Definition load_line (line : string)
    (st : gmap string string * gmap string string)
  : result (gmap string string) * gmap string string :=
  let '(env_vars, environ) := st in
  let line := PyStr.strip line in
  if negb (PyStr.truthy line) || PyStr.startswith_char "#"%char line
  then (Ret env_vars, environ)
  else
    match PyStr.split_once "="%char line with
    | Some (key, value) =>
        let key := PyStr.strip key in
        let value :=
          PyStr.strip_char single_quote
            (PyStr.strip_char double_quote (PyStr.strip value)) in
        match environ_setdefault key value environ with
        | Ret environ' => (Ret (<[key := value]> env_vars), environ')
        | Raise e => (Raise e, environ)
        end
    | None => (Ret env_vars, environ)
    end.

Fixpoint load_lines (lines : list string)
    (env_vars environ : gmap string string)
  : result (gmap string string) * gmap string string :=
  match lines with
  | [] => (Ret env_vars, environ)
  | line :: rest =>
      match load_line line (env_vars, environ) with
      | (Ret env_vars', environ') => load_lines rest env_vars' environ'
      | (Raise e, environ') => (Raise e, environ')
      end
  end.

(** [_load_env_file(env_path)]: returns [env_vars]; [os.environ] is
    threaded through. *)
Definition _load_env_file (env_path : option string)
    (environ : gmap string string)
  : result (gmap string string) * gmap string string :=
  match find_env_file (search_paths env_path) with
  | None => (Ret ∅, environ)
  | Some lines => load_lines lines ∅ environ
  end.

(** [os.environ.get(key, env_vars.get(key, default))] for a string
    default. *)
Definition layered_get (environ env_vars : gmap string string)
    (key default : string) : string :=
  environ_get environ key (environ_get env_vars key default).

(** [int(os.environ.get(key, env_vars.get(key, default)))] for an [int]
    default, which [int] returns unchanged. *)
Definition int_setting (environ env_vars : gmap string string)
    (key : string) (default : Z) : result Z :=
  match environ !! key, env_vars !! key with
  | Some s, _ | None, Some s =>
      match py_int s with
      | inl n => Ret n
      | inr text => Raise (Exn ValueError text)
      end
  | None, None => Ret default
  end.

(** [float(os.environ.get(key, env_vars.get(key, default)))] *)
Definition float_setting (environ env_vars : gmap string string)
    (key : string) (default : pyfloat) : result pyfloat :=
  match environ !! key, env_vars !! key with
  | Some s, _ | None, Some s =>
      match py_float s with
      | inl x => Ret x
      | inr text => Raise (Exn ValueError text)
      end
  | None, None => Ret default
  end.

(** The part of [get_provider] after the [.env] file is loaded. *)
Definition resolve (provider_name api_key vision_model language_model
                      : option string) (kwargs : Kwargs)
    (env_vars environ : gmap string string) : result AIProvider :=
  let provider_name :=
    match provider_name with
    | Some n => n
    | None => layered_get environ env_vars "AI_PROVIDER" "qwen"
    end in
  let provider_name := str_lower unicode_lower provider_name in
  match lookup_provider PROVIDERS provider_name with
  | None => Raise (unknown_provider provider_name)
  | Some k =>
      let api_key :=
        match api_key, api_key_env_map k with
        | None, Some env_key =>
            if PyStr.truthy env_key
            then Some (layered_get environ env_vars env_key "")
            else None
        | _, _ => api_key
        end in
      let prefix := PyStr.upper provider_name in
      let vision_model :=
        match vision_model with
        | Some m => m
        | None => layered_get environ env_vars (prefix ++ "_VISION_MODEL")
                    (fst (DEFAULT_MODELS k))
        end in
      let language_model :=
        match language_model with
        | Some m => m
        | None => layered_get environ env_vars (prefix ++ "_LANGUAGE_MODEL")
                    (snd (DEFAULT_MODELS k))
        end in
      match int_setting environ env_vars "MAX_TOKENS" 4096 with
      | Raise e => Raise e
      | Ret max_tokens =>
      match float_setting environ env_vars "TEMPERATURE" (Finite 0.7) with
      | Raise e => Raise e
      | Ret temperature =>
      match int_setting environ env_vars "MAX_RETRIES" 3 with
      | Raise e => Raise e
      | Ret max_retries =>
      match float_setting environ env_vars "RETRY_DELAY" (Finite 1) with
      | Raise e => Raise e
      | Ret retry_delay =>
          let provider_kwargs (base_url : option string) :=
            {| kw_api_base := kw_api_base kwargs;
               kw_max_tokens := Some (default max_tokens (kw_max_tokens kwargs));
               kw_temperature := Some (default temperature (kw_temperature kwargs));
               kw_top_p := kw_top_p kwargs;
               kw_max_retries := Some (default max_retries (kw_max_retries kwargs));
               kw_retry_delay := Some (default retry_delay (kw_retry_delay kwargs));
               kw_extra := kw_extra kwargs;
               kw_base_url := base_url |} in
          match k with
          | Ollama =>
              let base_url :=
                match environ !! "OLLAMA_BASE_URL" with
                | Some u => Some u
                | None => env_vars !! "OLLAMA_BASE_URL"
                end in
              FACTORY_FUNCTIONS k None vision_model language_model
                (provider_kwargs
                   (match base_url with
                    | Some u =>
                        if PyStr.truthy u then Some u else kw_base_url kwargs
                    | None => kw_base_url kwargs
                    end))
                environ
          | _ =>
              FACTORY_FUNCTIONS k api_key vision_model language_model
                (provider_kwargs (kw_base_url kwargs)) environ
          end
      end end end end
  end.

(** [get_provider(provider_name=None, api_key=None, vision_model=None,
    language_model=None, env_file=None, **kwargs)]: the result and
    [os.environ] after the call. *)
Definition get_provider (provider_name api_key vision_model language_model
                           env_file : option string) (kwargs : Kwargs)
    (environ : gmap string string)
  : result AIProvider * gmap string string :=
  match _load_env_file env_file environ with
  | (Ret env_vars, environ') =>
      (resolve provider_name api_key vision_model language_model kwargs
         env_vars environ', environ')
  | (Raise e, environ') => (Raise e, environ')
  end.

End Factory.

(* ===================================================================== *)
(** * Vocabulary of the statements *)
(* ===================================================================== *)

(** [x] is a number of the closed interval from [lo] to [hi]. *)
Definition in_interval (lo hi : Q) (x : pyfloat) : Prop :=
  exists q, x = Finite q /\ (lo <= q)%Q /\ (q <= hi)%Q.


(** How often the wrapped call was invoked, and how long the loop slept,
    according to a trace. *)
Fixpoint invocations (tr : list event) : nat :=
  match tr with
  | [] => 0
  | EvInvoke :: tr' => Datatypes.S (invocations tr')
  | _ :: tr' => invocations tr'
  end.

Fixpoint sleeps (tr : list event) : list pyfloat :=
  match tr with
  | [] => []
  | EvSleep secs :: tr' => secs :: sleeps tr'
  | _ :: tr' => sleeps tr'
  end.





(** Every request sent from a [_call] closure is the one it was built
    around. *)
Definition sent_from (self : AIProvider) (req : result request)
    (kr : provider_kind * request) : Prop :=
  fst kr = kind self /\ req = Ret (snd kr).

(** [m] occurs in [s]. *)
Definition occurs_in (m s : string) : Prop :=
  exists pre post, s = pre ++ m ++ post.

(** The sixty-four 6-bit values, and the check that each one survives
    [char_of] followed by [index_of] and is not written as padding. *)
Definition sextets : list N := map N.of_nat (seq 0 64).

(** The check for one 6-bit value. *)
Definition sextet_ok (n : N) : bool :=
  match base64.index_of (base64.char_of n) with
  | Some m => N.eqb m n && negb (Ascii.eqb (base64.char_of n) base64.pad)
  | None => false
  end.

(** A part that carries an image. *)
Definition is_image_part (p : part) : bool :=
  match p with
  | TextPart _ => false
  | _ => true
  end.

(** The image parts of the messages of a request. *)
Definition image_parts (r : request) : list part :=
  match r with
  | ChatCompletionsCreate _ msgs _ _ _ | MessagesCreate _ _ msgs _ _ =>
      flat_map (fun m => match content m with
                         | PartsContent ps => filter is_image_part ps
                         | TextContent _ => []
                         end) msgs
  | _ => []
  end.

(** [req] carries [payload] as the base64 text of its one image: in a
    data URL for the given format, or in a base64 image source. *)
Definition embeds_base64 (image_format : string) (req : request)
    (payload : string) : Prop :=
  (exists detail,
     image_parts req = [ImageUrlPart (data_url image_format payload) detail]) \/
  (exists media_type,
     image_parts req = [ImagePart "base64" media_type payload]).

(** The formats a caller is meant to pass. *)
Definition supported_formats : list string :=
  ["png"; "jpg"; "jpeg"; "gif"; "webp"].

(** [s] without the prefix [p], when it starts with it. *)
Fixpoint strip_prefix (p s : string) : option string :=
  match p, s with
  | EmptyString, _ => Some s
  | String a p', String b s' =>
      if Ascii.eqb a b then strip_prefix p' s' else None
  | String _ _, EmptyString => None
  end.

(** The media type a data URL declares: the text between [data:] and the
    first semicolon. *)
Definition data_url_mime (url : string) : option string :=
  match strip_prefix "data:" url with
  | Some rest =>
      match PyStr.split_once ";"%char rest with
      | Some (mime, _) => Some mime
      | None => None
      end
  | None => None
  end.

(** The MIME type a request declares for its image, if it declares one. *)
Definition declared_mime (r : request) : option string :=
  match r with
  | GenerateContent _ (ImageAndPrompt mime _ _) _ => Some mime
  | GenerateContent _ (PromptOnly _) _ => None
  | MakeRequest _ _ => None
  | _ =>
      match image_parts r with
      | ImageUrlPart url _ :: _ => data_url_mime url
      | ImagePart _ media_type _ :: _ => Some media_type
      | _ => None
      end
  end.

(** Providers of class [k] replace every unsupported format by one fixed
    MIME type: whenever they build a request for such a format, that is
    the type it declares. *)
Definition substitutes_default_mime (k : provider_kind) : Prop :=
  exists default_mime,
    forall self image_data prompt image_format req,
      kind self = k ->
      ~ In image_format supported_formats ->
      vision_request self image_data prompt image_format = Ret req ->
      declared_mime req = Some default_mime.

(** Whatever [env_vars] defines, [os.environ] defines too. *)
Definition covered (env_vars environ : gmap string string) : Prop :=
  forall k, environ !! k = None -> env_vars !! k = None.

(** A config as the factory builds it, with a temperature of 1.5. *)
Definition sample_config : ProviderConfig :=
  __post_init__
    (mkProviderConfig "key" "" "" "" 4096 (Finite 1.5) (Finite 0.9) 3
       (Finite 1) ∅).

(** A fresh provider of class [k] on that config. *)
Definition sample_provider (k : provider_kind) : AIProvider :=
  new_provider k sample_config.


(** A config that allows no attempt. *)
Definition zero_retry_config : ProviderConfig :=
  __post_init__
    (mkProviderConfig "key" "" "" "" 4096 (Finite 0.7) (Finite 0.9) 0
       (Finite 1) ∅).

(** The exception of a request that timed out. *)
Definition timed_out : exn := Exn (OtherException "TimeoutError") "timed out".

(** A call that never succeeds; the state counts the invocations. *)
Definition always_failing (s : nat) : result string * nat :=
  (Raise timed_out, Datatypes.S s).


(** An outside world in which every SDK is installed, Ollama answers and
    every request is answered with the same text. *)
Definition answering : Outside unit :=
  {| sdk_importable := fun _ _ => true;
     make_client := fun _ s => (Ret tt, s);
     urlopen_tags := fun _ s => (ProbeStatus 200, s);
     transport := fun _ _ s => (Ret "text", s);
     nanosleep := fun _ _ => Ret tt |}.

(** A clock that sleeps through every timeout it is given. *)
Definition steady {S : Type} : Clock S :=
  {| clock_nanosleep := fun _ _ => Ret tt |}.

(** The world before anything was sent or traced. *)
Definition quiet : World (Wire unit) := mkWorld (mkWire tt []) [].


(* ===================================================================== *)
(** * Further vocabulary: retry *)
(* ===================================================================== *)





(* ===================================================================== *)
(** * base.py and ollama_provider.py: validate *)
(* ===================================================================== *)

(** [AIProvider.validate]: the result and the line it prints, if any. *)
Definition AIProvider_validate (self : AIProvider) : bool * list string :=
  if negb (PyStr.truthy (api_key (config self)))
     && negb (String.eqb (name (kind self)) "ollama")
  then (false, ["Warning: No API key configured for " ++ name (kind self)])
  else (true, []).

Section Validate.

Context {S : Type} `{Outside S}.

(** [OllamaProvider.validate]: the client is initialised anew; a
    [ConnectionError] is caught, printed and answered with [False]. *)
Definition OllamaProvider_validate : Method S (bool * list string) :=
  fun self w =>
    match _initialize_client self w with
    | (Ret _, self1, w1) => (Ret (true, []), self1, w1)
    | (Raise e, self1, w1) =>
        match exn_cls e with
        | ConnectionError =>
            (Ret (false, ["Ollama validation failed: " ++ exn_str e]), self1, w1)
        | _ => (Raise e, self1, w1)
        end
    end.

(** [self.validate()], dispatched on the class of [self]. *)
Definition validate : Method S (bool * list string) :=
  fun self w =>
    match kind self with
    | Ollama => OllamaProvider_validate self w
    | _ => (Ret (AIProvider_validate self), self, w)
    end.

End Validate.

(* ===================================================================== *)
(** * Further vocabulary: requests *)
(* ===================================================================== *)

(** The token limit a request carries. *)
Definition request_max_tokens (r : request) : Z :=
  match r with
  | ChatCompletionsCreate _ _ n _ _ => n
  | MessagesCreate _ n _ _ _ => n
  | GenerateContent _ _ c => gc_max_output_tokens c
  | MakeRequest _ d => oo_num_predict (od_options d)
  end.

(** The URL [OllamaProvider._initialize_client] probes. *)
Definition ollama_base (self : AIProvider) : string :=
  PyStr.rstrip_char "/"%char
    (PyStr.or_else (api_base (config self)) "http://localhost:11434").

(** An outside world without any SDK and without Ollama. *)
Definition bare : Outside unit :=
  {| sdk_importable := fun _ _ => false;
     make_client := fun _ s => (Ret tt, s);
     urlopen_tags := fun _ s => (ProbeURLError "Connection refused", s);
     transport := fun _ _ s => (Ret "text", s);
     nanosleep := fun _ _ => Ret tt |}.

(* ===================================================================== *)
(** * factory.py: the remaining functions *)
(* ===================================================================== *)

(** [list_providers()] *)
Definition list_providers : list string := provider_names.

(** [PROVIDERS[name].__name__] *)
Definition class_name (k : provider_kind) : string :=
  match k with
  | Qwen => "QwenProvider"
  | Gemini => "GeminiProvider"
  | OpenAI => "OpenAIProvider"
  | Anthropic => "AnthropicProvider"
  | Ollama => "OllamaProvider"
  end.

(** The dictionary [get_provider_info] returns. *)
Record ProviderInfo : Type := mkProviderInfo {
  info_name : string;
  info_class : string;
  default_vision_model : string;
  default_language_model : string;
  requires_api_key : bool
}.

(** [get_provider_info(provider_name)]: the name is looked up as given. *)
Definition get_provider_info (provider_name : string) : result ProviderInfo :=
  match lookup_provider PROVIDERS provider_name with
  | None => Raise (Exn ValueError ("Unknown provider: " ++ provider_name))
  | Some k =>
      Ret {| info_name := provider_name;
             info_class := class_name k;
             default_vision_model := fst (DEFAULT_MODELS k);
             default_language_model := snd (DEFAULT_MODELS k);
             requires_api_key := negb (String.eqb provider_name "ollama") |}
  end.

(** [get_default_provider()]: the name as the environment gives it,
    neither lowercased nor checked against the registry. *)
Definition get_default_provider (module_env_paths : list string)
    (fs : string -> option (list string)) (environ : gmap string string)
  : result string * gmap string string :=
  match _load_env_file module_env_paths fs None environ with
  | (Ret env_vars, environ') =>
      (Ret (layered_get environ' env_vars "AI_PROVIDER" "qwen"), environ')
  | (Raise e, environ') => (Raise e, environ')
  end.

(* ===================================================================== *)
(** * Further vocabulary: the factory *)
(* ===================================================================== *)

(** The four shared numeric settings are absent or parse. *)
Definition settings_parse (py_int : string -> Z + string)
    (py_float : string -> pyfloat + string)
    (environ env_vars : gmap string string) : Prop :=
  is_Ret (int_setting py_int environ env_vars "MAX_TOKENS" 4096) = true /\
  is_Ret (float_setting py_float environ env_vars "TEMPERATURE" (Finite 0.7))
  = true /\
  is_Ret (int_setting py_int environ env_vars "MAX_RETRIES" 3) = true /\
  is_Ret (float_setting py_float environ env_vars "RETRY_DELAY" (Finite 1))
  = true.

(** The name under which [get_provider] looks a provider up: the
    argument, or else what the environment says, lowercased. *)
Definition resolved_name (unicode_lower : string -> string)
    (provider_name : option string)
    (environ env_vars : gmap string string) : string :=
  str_lower unicode_lower
    match provider_name with
    | Some n => n
    | None => layered_get environ env_vars "AI_PROVIDER" "qwen"
    end.

(** The model names [get_provider] passes on. *)
Definition resolved_model (explicit : option string)
    (environ env_vars : gmap string string) (var default : string) : string :=
  match explicit with
  | Some m => m
  | None => layered_get environ env_vars var default
  end.

(** The [base_url] keyword [get_provider] passes on: for Ollama the
    variable of the environment when that is set and not empty, and
    otherwise, as for the other providers, the caller's keyword. *)
Definition resolved_base_url (k : provider_kind) (kwargs : Kwargs)
    (environ env_vars : gmap string string) : option string :=
  match k with
  | Ollama =>
      match match environ !! "OLLAMA_BASE_URL" with
            | Some u => Some u
            | None => env_vars !! "OLLAMA_BASE_URL"
            end with
      | Some u => if PyStr.truthy u then Some u else kw_base_url kwargs
      | None => kw_base_url kwargs
      end
  | _ => kw_base_url kwargs
  end.

(** The keyword options [get_provider] passes on, given the four
    settings read from the environment. *)
Definition provider_kwargs (kwargs : Kwargs) (max_tokens : Z)
    (temperature : pyfloat) (max_retries : Z) (retry_delay : pyfloat)
    (base_url : option string) : Kwargs :=
  {| kw_api_base := kw_api_base kwargs;
     kw_max_tokens := Some (default max_tokens (kw_max_tokens kwargs));
     kw_temperature := Some (default temperature (kw_temperature kwargs));
     kw_top_p := kw_top_p kwargs;
     kw_max_retries := Some (default max_retries (kw_max_retries kwargs));
     kw_retry_delay := Some (default retry_delay (kw_retry_delay kwargs));
     kw_extra := kw_extra kwargs;
     kw_base_url := base_url |}.

(** The [api_key] keyword of the factory function; Ollama's is not
    given one. *)
Definition resolved_first_argument (k : provider_kind)
    (api_key : option string) (environ env_vars : gmap string string)
  : option string :=
  match k with
  | Ollama => None
  | _ =>
      match api_key, api_key_env_map k with
      | None, Some env_key =>
          if PyStr.truthy env_key
          then Some (layered_get environ env_vars env_key "")
          else None
      | _, _ => api_key
      end
  end.

(** A parser of decimal integers, for the examples: on the strings it
    refuses, the text of [int]'s error for a word of plain letters. *)
Definition decimal_int (s : string) : Z + string :=
  match NilZero.int_of_string s with
  | Some i => inl (Z.of_int i)
  | None => inr ("invalid literal for int() with base 10: '" ++ s ++ "'")
  end.

(** Conversions that refuse every string, for the examples in which
    none is converted. *)
Definition no_int (s : string) : Z + string := inr "".
Definition no_float (s : string) : pyfloat + string := inr "".

(** A stand-in for Unicode's case tables that changes nothing. *)
Definition no_case (s : string) : string := s.

(** A process environment that names Ollama and sets a malformed
    [MAX_TOKENS]. *)
Definition malformed_environ : gmap string string :=
  <["AI_PROVIDER" := "ollama"]> (<["MAX_TOKENS" := "many"]> ∅).

(* ===================================================================== *)
(** * Further vocabulary: lines of a [.env] file *)
(* ===================================================================== *)

Definition first_char (s : string) : option ascii :=
  match s with
  | EmptyString => None
  | String c _ => Some c
  end.

Fixpoint last_char (s : string) : option ascii :=
  match s with
  | EmptyString => None
  | String c EmptyString => Some c
  | String _ s' => last_char s'
  end.

(** Neither end of [s] is a character that [p] selects: stripping the
    characters of [p] from [s] has nothing to remove. *)
Definition keeps_edges (p : ascii -> bool) (s : string) : Prop :=
  (forall c, first_char s = Some c -> p c = false) /\
  (forall c, last_char s = Some c -> p c = false).

(** [s] starts with a whitespace character, or ends with one. *)
Definition starts_blank (s : string) : bool :=
  existsb (fun w => String.prefix w s) PyStr.whitespace.

Definition ends_blank (s : string) : bool :=
  existsb (fun w => String.prefix (PyStr.rev w) (PyStr.rev s)) PyStr.whitespace.

(** A string of whitespace characters only. *)
Inductive blank : string -> Prop :=
| blank_empty : blank ""
| blank_more (w t : string) :
    In w PyStr.whitespace -> blank t -> blank (w ++ t).

(** A variable name as a [.env] line can carry it: not empty, no equals
    sign, no null, not starting like a comment, no whitespace at either
    end. *)
Definition plain_key (key : string) : Prop :=
  key <> "" /\ has_char "="%char key = false /\ has_char nul key = false /\
  first_char key <> Some "#"%char /\
  starts_blank key = false /\ ends_blank key = false.

(** A value that the loader returns as written: no null, and neither
    whitespace nor a quote at either end. *)
Definition plain_value (value : string) : Prop :=
  has_char nul value = false /\
  starts_blank value = false /\ ends_blank value = false /\
  keeps_edges (Ascii.eqb double_quote) value /\
  keeps_edges (Ascii.eqb single_quote) value.

(** The lines of a [.env] file: blank ones, comments after optional
    whitespace, and definitions of a variable, with the whitespace that
    follows the value, the line end included. *)
Inductive env_line : Type :=
| BlankLine (text : string)
| CommentLine (lead rest : string)
| DefinitionLine (key value trailing : string).

Definition line_text (l : env_line) : string :=
  match l with
  | BlankLine text => text
  | CommentLine lead rest => lead ++ "#" ++ rest
  | DefinitionLine key value trailing => key ++ "=" ++ value ++ trailing
  end.


(** The variables a file defines, in the order of its lines. *)
Fixpoint definitions (file : list env_line) : list (string * string) :=
  match file with
  | [] => []
  | DefinitionLine key value _ :: rest => (key, value) :: definitions rest
  | _ :: rest => definitions rest
  end.


(** What the definitions leave in [os.environ], where the first
    definition of a new variable stays, and in [env_vars], where the last
    one does. *)
Fixpoint after_lines (defs : list (string * string))
    (environ : gmap string string) : gmap string string :=
  match defs with
  | [] => environ
  | (k, v) :: rest =>
      after_lines rest
        match environ !! k with
        | Some _ => environ
        | None => <[k := v]> environ
        end
  end.

Fixpoint vars_of_lines (defs : list (string * string))
    (env_vars : gmap string string) : gmap string string :=
  match defs with
  | [] => env_vars
  | (k, v) :: rest => vars_of_lines rest (<[k := v]> env_vars)
  end.


(* ===================================================================== *)
(** * config.py *)
(* ===================================================================== *)

(** [x == y] on floats: [nan] equals nothing. *)
Definition float_eqb (x y : pyfloat) : bool :=
  match x, y with
  | Finite a, Finite b => Qeq_bool a b
  | PosInf, PosInf | NegInf, NegInf => true
  | _, _ => false
  end.

Module config_py.

Module AIProviderConfig.

Record t : Type := mk {
  provider : string;
  api_key : string;
  vision_model : string;
  language_model : string;
  max_tokens : Z;
  temperature : pyfloat;
  top_p : pyfloat
}.

(** [AIProviderConfig()] before [__post_init__]: the field defaults. *)
Definition defaults : t := mk "" "" "" "" 32768 (Finite 0.7) (Finite 0.9).

(** The dictionary [key_env_map]; it has no entry for Ollama. *)
Definition key_env_map : list (string * string) :=
  [("qwen", "DASHSCOPE_API_KEY"); ("gemini", "GEMINI_API_KEY");
   ("openai", "OPENAI_API_KEY"); ("anthropic", "ANTHROPIC_API_KEY")].

(** [d.get(key)] *)
Fixpoint dict_lookup (d : list (string * string)) (key : string)
  : option string :=
  match d with
  | [] => None
  | (k, v) :: d' => if String.eqb key k then Some v else dict_lookup d' key
  end.

Section PostInit.

Variable py_int : string -> Z + string.
Variable py_float : string -> pyfloat + string.
Variable unicode_lower unicode_upper : string -> string.
Variable environ : gmap string string.

(** [AIProviderConfig.__post_init__]: empty fields are filled from the
    environment; [MAX_TOKENS] and [TEMPERATURE] are read only where the
    field holds 4096 and 0.7. *)
Definition __post_init__ (self : t) : result t :=
  let provider' :=
    if negb (PyStr.truthy (provider self))
    then environ_get environ "AI_PROVIDER" "qwen" else provider self in
  let api_key' :=
    if negb (PyStr.truthy (api_key self)) then
      match dict_lookup key_env_map (str_lower unicode_lower provider') with
      | Some env_key =>
          if PyStr.truthy env_key then environ_get environ env_key ""
          else api_key self
      | None => api_key self
      end
    else api_key self in
  let prefix := str_upper unicode_upper provider' in
  let vision_model' :=
    if negb (PyStr.truthy (vision_model self))
    then environ_get environ (prefix ++ "_VISION_MODEL") ""
    else vision_model self in
  let language_model' :=
    if negb (PyStr.truthy (language_model self))
    then environ_get environ (prefix ++ "_LANGUAGE_MODEL") ""
    else language_model self in
  match
    (if (max_tokens self =? 4096)%Z then
       let s := environ_get environ "MAX_TOKENS" "4096" in
       match py_int s with
       | inl n => Ret n
       | inr text => Raise (Exn ValueError text)
       end
     else Ret (max_tokens self))
  with
  | Raise e => Raise e
  | Ret max_tokens' =>
      match
        (if float_eqb (temperature self) (Finite 0.7) then
           let s := environ_get environ "TEMPERATURE" "0.7" in
           match py_float s with
           | inl x => Ret x
           | inr text => Raise (Exn ValueError text)
           end
         else Ret (temperature self))
      with
      | Raise e => Raise e
      | Ret temperature' =>
          Ret (mk provider' api_key' vision_model' language_model'
                 max_tokens' temperature' (top_p self))
      end
  end.

End PostInit.

End AIProviderConfig.

Module PipelineConfig.

(** The fields of [PipelineConfig] that its methods below read; [paths]
    and [latex] belong to the file system and are left out. *)
Record t : Type := mk {
  ai : AIProviderConfig.t;
  batch_size : Z;
  max_retries : Z;
  retry_delay : pyfloat
}.

(** [x if x else None] *)
Definition non_empty (s : string) : option string :=
  if PyStr.truthy s then Some s else None.

(** [PipelineConfig.get_provider]: the call of the factory with the
    fields of the config as arguments. *)
Definition get_provider (py_int : string -> Z + string)
    (py_float : string -> pyfloat + string)
    (unicode_lower : string -> string) (module_env_paths : list string)
    (fs : string -> option (list string)) (self : t)
    (environ : gmap string string)
  : result AIProvider * gmap string string :=
  get_provider py_int py_float unicode_lower module_env_paths fs
    (Some (AIProviderConfig.provider (ai self)))
    (non_empty (AIProviderConfig.api_key (ai self)))
    (non_empty (AIProviderConfig.vision_model (ai self)))
    (non_empty (AIProviderConfig.language_model (ai self)))
    None
    (mkKwargs None (Some (AIProviderConfig.max_tokens (ai self)))
       (Some (AIProviderConfig.temperature (ai self))) None
       (Some (max_retries self)) (Some (retry_delay self)) None None)
    environ.

End PipelineConfig.

(** [a if a else b] for an optional argument and a field *)
Definition updated (arg : option string) (field : string) : string :=
  match arg with
  | Some s => if PyStr.truthy s then s else field
  | None => field
  end.

(** [load_config(provider, api_key, vision_model, language_model)] on the
    global [config]: the arguments that are given and not empty replace
    the fields; nothing else is recomputed. *)
Definition load_config (provider api_key vision_model language_model
                          : option string) (config : PipelineConfig.t)
  : PipelineConfig.t :=
  let a := PipelineConfig.ai config in
  PipelineConfig.mk
    (AIProviderConfig.mk
       (updated provider (AIProviderConfig.provider a))
       (updated api_key (AIProviderConfig.api_key a))
       (updated vision_model (AIProviderConfig.vision_model a))
       (updated language_model (AIProviderConfig.language_model a))
       (AIProviderConfig.max_tokens a)
       (AIProviderConfig.temperature a)
       (AIProviderConfig.top_p a))
    (PipelineConfig.batch_size config)
    (PipelineConfig.max_retries config)
    (PipelineConfig.retry_delay config).

End config_py.

(** A pipeline config set up for Qwen, with its key and models read. *)
Definition qwen_pipeline_config : config_py.PipelineConfig.t :=
  config_py.PipelineConfig.mk
    (config_py.AIProviderConfig.mk "qwen" "sk-qwen" "qwen-vl-plus" "qwen-max"
       32768 (Finite 0.7) (Finite 0.9))
    5 3 (Finite 1).

(* ===================================================================== *)
(** * modules/pdf_scanner.py: merging scripture texts *)
(* ===================================================================== *)

Module pdf_scanner.

Record PageContent : Type := mkPageContent {
  page_number : Z;
  raw_text : string;
  greek_hebrew_text : option string;
  main_content : string;
  footnotes : list (list (string * string));
  page_type : string
}.

(** The pages are objects the method changes in place, and the lists
    hold references to them: a store maps a reference to its object. *)
Definition Store : Type := nat -> PageContent.

Definition assign (st : Store) (r : nat) (f : PageContent -> PageContent)
  : Store :=
  fun r' => if Nat.eqb r' r then f (st r) else st r'.

(** [page.greek_hebrew_text = text] *)
Definition set_greek_hebrew_text (text : string) (page : PageContent)
  : PageContent :=
  mkPageContent (page_number page) (raw_text page) (Some text)
    (main_content page) (footnotes page) (page_type page).

(** [page.main_content = text] *)
Definition set_main_content (text : string) (page : PageContent)
  : PageContent :=
  mkPageContent (page_number page) (raw_text page) (greek_hebrew_text page)
    text (footnotes page) (page_type page).

(** The truth value of [page.greek_hebrew_text]: [None] and the empty
    string are false. *)
Definition has_scripture (page : PageContent) : bool :=
  match greek_hebrew_text page with
  | Some s => PyStr.truthy s
  | None => false
  end.

(** [str(l)] for a list of [int] *)
Definition repr_pages (l : list Z) : string :=
  "[" ++ PyStr.join ", " (List.map PyStr.of_Z l) ++ "]".

Section Merge.

(** [str.strip] on text that need not be ASCII. *)
Variable py_strip : string -> string.

(** The local variables of the loop, with the store. *)
Record Loop : Type := mkLoop {
  store : Store;
  merged : list nat;
  pending_scripture : string;
  pending_pages : list Z
}.

(** One turn of [for page in pages]. *)
Definition merge_page (l : Loop) (page : nat) : Loop :=
  if has_scripture (store l page) then
    mkLoop (store l) (merged l)
      (pending_scripture l ++ " "
       ++ default "" (greek_hebrew_text (store l page)))
      (pending_pages l ++ [page_number (store l page)])%list
  else if PyStr.truthy (pending_scripture l)
          && negb (Nat.eqb (length (pending_pages l)) 0) then
    let text := py_strip (pending_scripture l) in
    let st1 := assign (store l) page (set_greek_hebrew_text text) in
    let st2 :=
      assign st1 page
        (fun p =>
           set_main_content
             ("[Scripture from pages " ++ repr_pages (pending_pages l) ++ "]"
              ++ newline ++ default "" (greek_hebrew_text p)
              ++ newline ++ newline ++ main_content p) p) in
    mkLoop st2 (merged l ++ [page])%list "" []
  else
    mkLoop (store l) (merged l ++ [page])%list (pending_scripture l)
      (pending_pages l).

(** [PDFScanner.merge_scripture_texts]: the store after the call and
    the list it returns. *)
Definition merge_scripture_texts (st : Store) (pages : list nat)
  : Store * list nat :=
  let l := fold_left merge_page pages (mkLoop st [] "" []) in
  match PyStr.truthy (pending_scripture l), List.rev (merged l) with
  | true, last :: _ =>
      (assign (store l) last
         (set_greek_hebrew_text (py_strip (pending_scripture l))),
       merged l)
  | _, _ => (store l, merged l)
  end.

End Merge.

End pdf_scanner.

(** Three pages: two of scripture, then one of commentary. *)
Definition sample_pages : pdf_scanner.Store :=
  fun r =>
    match r with
    | 0%nat => pdf_scanner.mkPageContent 1 "" (Some "En arche") "" [] "content"
    | 1%nat => pdf_scanner.mkPageContent 2 "" (Some "en ho logos") "" [] "content"
    | _ => pdf_scanner.mkPageContent 3 "" None "In the beginning" [] "content"
    end.

(** What each provider puts in its request for a format. *)
Definition format_as_sent (k : provider_kind) (image_data : list Byte.byte)
    (image_format : string) (req : request) : Prop :=
  match k with
  | Anthropic =>
      ~ In (PyStr.lower image_format) supported_formats ->
      declared_mime req = Some "image/png"
  | Qwen | OpenAI =>
      exists detail,
        image_parts req
        = [ImageUrlPart ("data:image/" ++ image_format ++ ";base64,"
                         ++ base64.standard_b64encode image_data) detail]
  | Gemini => declared_mime req = Some ("image/" ++ image_format)
  | Ollama => declared_mime req = None
  end.



(** Tactics for concrete [.env] files. *)
Ltac in_whitespace :=
  solve [vm_compute; repeat first [left; reflexivity | right]].

Ltac blank_text :=
  repeat first
    [ exact blank_empty
    | apply (blank_more (String _ "")); [in_whitespace|]
    | apply (blank_more (String _ (String _ ""))); [in_whitespace|]
    | apply (blank_more (String _ (String _ (String _ ""))));
      [in_whitespace|] ].

Ltac plain_text :=
  repeat split;
  first [ reflexivity | discriminate
        | intros c E; inversion E; reflexivity ].


(* ===================================================================== *)
(** * Sample inputs *)
(* ===================================================================== *)

(** A [.env] file for Gemini: a comment, a vision model, a blank line,
    a key and a number. *)
Definition gemini_dotenv : list env_line :=
  [CommentLine "" (" models" ++ newline);
   DefinitionLine "GEMINI_VISION_MODEL" "gemini-1.5-pro" newline;
   BlankLine newline;
   DefinitionLine "GEMINI_API_KEY" "from-file" newline;
   DefinitionLine "MAX_RETRIES" "5" (" " ++ newline)].

Definition gemini_fs (path : string) : option (list string) :=
  if String.eqb path ".env"
  then Some (map line_text gemini_dotenv) else None.


(** A file system whose [.env] file has a line without a name. *)
Definition nameless_fs (path : string) : option (list string) :=
  if String.eqb path ".env" then Some ["=x" ++ newline] else None.

(** A file system with one [.env] file in the working directory. *)
Definition dotenv_fs (path : string) : option (list string) :=
  if String.eqb path ".env"
  then Some ["# keys"; "OPENAI_API_KEY=sk-file"; "MAX_RETRIES=5 "]
  else None.

(** A process environment with an OpenAI key of its own. *)
Definition openai_environ : gmap string string :=
  <["OPENAI_API_KEY" := "sk-process"]> ∅.

(** That environment after the [.env] file is loaded, and the variables
    the file defines. *)
Definition loaded_environ : gmap string string :=
  <["MAX_RETRIES" := "5"]> openai_environ.

Definition dotenv_vars : gmap string string :=
  <["MAX_RETRIES" := "5"]> (<["OPENAI_API_KEY" := "sk-file"]> ∅).

(** A process environment that points Ollama at another host. *)
Definition ollama_environ : gmap string string :=
  <["OLLAMA_BASE_URL" := "http://gpu-host:11434"]> ∅.

(** The keyword [base_url] alone. *)
Definition base_url_kwargs : Kwargs :=
  mkKwargs None None None None None None None (Some "http://x").

(** A no-break space and a line end. *)
Definition no_break_space_line_end : string :=
  PyStr.bytes [194%N; 160%N] ++ newline.

(** A process environment that names a provider nobody registered. *)
Definition unregistered_environ : gmap string string :=
  <["AI_PROVIDER" := "Mistral"]> ∅.

(** An [AIProviderConfig] before [__post_init__], for OpenAI, with a
    temperature of its own. *)
Definition openai_ai_config : config_py.AIProviderConfig.t :=
  config_py.AIProviderConfig.mk "openai" "" "" "" 32768 (Finite 0.5)
    (Finite 0.9).

(* ===================================================================== *)
(** * Properties of ProviderConfig *)
(* ===================================================================== *)

Lemma float_between_spec (lo hi : Q) (x : pyfloat) :
  float_between (Finite lo) x (Finite hi) = true <-> in_interval lo hi x.
Proof.
  unfold float_between, in_interval. split.
  - destruct x as [q| | |]; simpl; try discriminate.
    + intros E. apply andb_prop in E as [E1 E2].
      exists q. repeat split; apply Qle_bool_iff; assumption.
  - intros (q & -> & H1 & H2). simpl.
    apply andb_true_intro. split; apply Qle_bool_iff; assumption.
Qed.

Lemma float_between_false (lo hi : Q) (x : pyfloat) :
  float_between (Finite lo) x (Finite hi) = false <-> ~ in_interval lo hi x.
Proof.
  rewrite <- float_between_spec.
  destruct (float_between (Finite lo) x (Finite hi)); split; intro E;
    congruence || (exfalso; apply E; reflexivity).
Qed.

Lemma post_init_temperature (c : ProviderConfig) :
  temperature (__post_init__ c) =
    if float_between (Finite 0) (temperature c) (Finite 2)
    then temperature c else Finite 0.7.
Proof.
  unfold __post_init__. simpl.
  destruct (float_between (Finite 0) (temperature c) (Finite 2)); reflexivity.
Qed.

Lemma post_init_top_p (c : ProviderConfig) :
  top_p (__post_init__ c) =
    if float_between (Finite 0) (top_p c) (Finite 1)
    then top_p c else Finite 0.9.
Proof.
  unfold __post_init__. simpl.
  destruct (float_between (Finite 0) (top_p c) (Finite 1)); reflexivity.
Qed.

Lemma post_init_max_tokens (c : ProviderConfig) :
  max_tokens (__post_init__ c) =
    if (max_tokens c <? 1)%Z then 4096%Z else max_tokens c.
Proof. reflexivity. Qed.

Lemma post_init_max_retries (c : ProviderConfig) :
  max_retries (__post_init__ c) = max_retries c.
Proof. reflexivity. Qed.

Lemma post_init_retry_delay (c : ProviderConfig) :
  retry_delay (__post_init__ c) = retry_delay c.
Proof. reflexivity. Qed.

(** C3. Constructing a [ProviderConfig] always returns a config, whatever
    the field values.  In it a temperature outside the interval from 0 to
    2 has become 0.7, a top_p outside the interval from 0 to 1 has become
    0.9 and a max_tokens below 1 has become 4096; a value in range is the
    one that was passed. *)
Theorem ProviderConfig_never_rejects (a : ConfigArgs) :
  exists c, new_ProviderConfig a = Ret c /\
    (forall t, arg_temperature a = Some t ->
       (~ in_interval 0 2 t -> temperature c = Finite 0.7) /\
       (in_interval 0 2 t -> temperature c = t)) /\
    (forall p, arg_top_p a = Some p ->
       (~ in_interval 0 1 p -> top_p c = Finite 0.9) /\
       (in_interval 0 1 p -> top_p c = p)) /\
    (forall n, arg_max_tokens a = Some n ->
       ((n < 1)%Z -> max_tokens c = 4096%Z) /\
       ((1 <= n)%Z -> max_tokens c = n)).
Proof.
  eexists. split; [reflexivity|].
  split; [|split].
  - intros t Ht. rewrite post_init_temperature. simpl. rewrite Ht. simpl.
    split; intros Hr.
    + apply float_between_false in Hr. rewrite Hr. reflexivity.
    + apply float_between_spec in Hr. rewrite Hr. reflexivity.
  - intros p Hp. rewrite post_init_top_p. simpl. rewrite Hp. simpl.
    split; intros Hr.
    + apply float_between_false in Hr. rewrite Hr. reflexivity.
    + apply float_between_spec in Hr. rewrite Hr. reflexivity.
  - intros n Hn. rewrite post_init_max_tokens. simpl. rewrite Hn. simpl.
    split; intros Hr.
    + apply Z.ltb_lt in Hr. rewrite Hr. reflexivity.
    + apply Z.ltb_ge in Hr. rewrite Hr. reflexivity.
Qed.

(* ===================================================================== *)
(** * Properties of the retry loop *)
(* ===================================================================== *)










Lemma invocations_app (a b : list event) :
  invocations (a ++ b) = (invocations a + invocations b)%nat.
Proof.
  induction a as [|[| |] a IH]; simpl; rewrite ?IH; reflexivity.
Qed.

Lemma sleeps_app (a b : list event) :
  sleeps (a ++ b) = (sleeps a ++ sleeps b)%list.
Proof.
  induction a as [|[| |] a IH]; simpl; rewrite ?IH; reflexivity.
Qed.


Section SleepFacts.

Context {S : Type} {clock : Clock S}.


(** [time.sleep] never touches the outside state, and adds at most
    one sleep to the trace. *)
Lemma time_sleep_effect (secs : pyfloat) (w : World S) :
  ext (snd (time_sleep secs w)) = ext w /\
  (trace (snd (time_sleep secs w)) = trace w \/
   (fst (time_sleep secs w) = Ret tt /\
    trace (snd (time_sleep secs w)) = (trace w ++ [EvSleep secs])%list)).
Proof.
  unfold time_sleep, raise, emit.
  destruct secs as [q| | |]; cbn [fst snd ext trace]; try (split; [reflexivity | left; reflexivity]).
  destruct (negb _); [split; [reflexivity | left; reflexivity]|].
  destruct (negb _); [split; [reflexivity | left; reflexivity]|].
  destruct (clock_nanosleep q (ext w)) as [[]|e]; cbn [fst snd ext trace].
  - split; [reflexivity|]. right. split; reflexivity.
  - split; [reflexivity | left; reflexivity].
Qed.


End SleepFacts.


Section RetryFacts.

Context {S A : Type} {clock : Clock S}.
Variable cfg : ProviderConfig.
Variable self_name : string.
Variable func : S -> result A * S.





Lemma on_exception_final attempt e (w : World S) :
  (max_retries cfg - 1 <= attempt)%Z ->
  on_exception cfg attempt e w = (Ret tt, w).
Proof.
  intros Hge. unfold on_exception.
  apply Z.ltb_ge in Hge. rewrite Hge. reflexivity.
Qed.

(** The handler never touches the outside state; it adds no invocation
    to the trace and at most one sleep. *)
Lemma on_exception_effect attempt e (w : World S) :
  ext (snd (on_exception cfg attempt e w)) = ext w /\
  exists new,
    trace (snd (on_exception cfg attempt e w)) = (trace w ++ new)%list /\
    invocations new = 0%nat /\ (length (sleeps new) <= 1)%nat /\
    (sleeps new <> [] -> fst (on_exception cfg attempt e w) = Ret tt).
Proof.
  unfold on_exception.
  destruct (attempt <? max_retries cfg - 1)%Z.
  2:{ split; [reflexivity|]. exists []. cbn.
      rewrite app_nil_r. repeat split; try lia; congruence. }
  unfold bind, lift_result.
  destruct (float_mul_pow2 (retry_delay cfg) attempt) as [wait|e0].
  2:{ split; [reflexivity|]. exists []. cbn.
      rewrite app_nil_r. repeat split; try lia; congruence. }
  set (w1 := mkWorld (ext w)
               (trace w ++ [EvPrintRetry (attempt + 1) (max_retries cfg) wait
                              (PyStr.take 50 (exn_str e))])).
  change (emit (EvPrintRetry (attempt + 1) (max_retries cfg) wait
                  (PyStr.take 50 (exn_str e))) w) with (Ret tt, w1).
  cbv iota beta.
  destruct (time_sleep_effect wait w1) as [Hext Htr].
  destruct (time_sleep wait w1) as [r w2]. cbn [fst snd] in *.
  split; [exact Hext|].
  destruct Htr as [Htr|[Hr Htr]]; rewrite Htr; unfold w1; cbn [trace].
  - eexists. split; [reflexivity|]. cbn.
    repeat split; try lia; congruence.
  - eexists. split; [rewrite <- app_assoc; reflexivity|]. cbn.
    repeat split; try lia; intros _; exact Hr.
Qed.

(** With no attempt to make, the method raises at once and leaves the
    world as it is. *)
Lemma retry_without_attempts (w : World S) :
  (max_retries cfg <= 0)%Z ->
  _retry_with_backoff cfg self_name func w
  = (Raise (all_retries_failed cfg self_name None), w).
Proof.
  intros Hle. unfold _retry_with_backoff, bind.
  replace (Z.to_nat (max_retries cfg)) with 0%nat by lia.
  reflexivity.
Qed.



End RetryFacts.





(* ===================================================================== *)
(** * What a provider puts on the wire *)
(* ===================================================================== *)

Section WireFacts.

Context {S : Type} `{Outside S}.

(** The handler of the retry loop never touches the external state. *)
Lemma on_exception_ext (cfg : ProviderConfig) attempt e (w : World (Wire S)) r w' :
  on_exception cfg attempt e w = (r, w') -> ext w' = ext w.
Proof.
  intros E. pose proof (proj1 (on_exception_effect cfg attempt e w)) as Hx.
  rewrite E in Hx. exact Hx.
Qed.

Lemma call_sent (self : AIProvider) (req : result request) (n : Wire S) r n' :
  _call self req n = (r, n') ->
  exists new, sent n' = (sent n ++ new)%list /\ Forall (sent_from self req) new.
Proof.
  unfold _call. destruct req as [q|e].
  - unfold send. destruct (transport self q (vendor n)) as [r0 s'].
    intros E. inversion E. subst. simpl.
    exists [(kind self, q)]. split; [reflexivity|].
    constructor; [split; reflexivity | constructor].
  - intros E. inversion E. subst.
    exists []. split; [rewrite app_nil_r; reflexivity | constructor].
Qed.

Lemma attempts_sent (cfg : ProviderConfig) (self : AIProvider)
    (req : result request) (n : nat) :
  forall attempt last (w : World (Wire S)) r w',
    attempts cfg (_call self req) n attempt last w = (r, w') ->
    exists new,
      sent (ext w') = (sent (ext w) ++ new)%list /\
      Forall (sent_from self req) new.
Proof.
  induction n as [|n IH]; intros attempt last w r w'.
  - simpl. unfold ret. intros E. inversion E. subst.
    exists []. split; [rewrite app_nil_r; reflexivity | constructor].
  - simpl. unfold bind at 1, emit, outside. simpl.
    destruct (_call self req (ext w)) as [r0 n0] eqn:Hcall.
    apply call_sent in Hcall as (new0 & Hsent0 & Hall0).
    destruct r0 as [v|e].
    + intros E. inversion E. subst. simpl. exists new0. split; assumption.
    + destruct (is_Exception e).
      * unfold bind.
        destruct (on_exception cfg attempt e
                    (mkWorld n0 (trace w ++ [EvInvoke])%list)) as [r1 w1] eqn:Hh.
        apply on_exception_ext in Hh. simpl in Hh.
        destruct r1 as [u|e1].
        -- intros E. apply IH in E as (new1 & Hsent1 & Hall1).
           exists (new0 ++ new1)%list. split.
           ++ rewrite Hsent1, Hh, Hsent0, app_assoc. reflexivity.
           ++ apply Forall_app. split; assumption.
        -- intros E. inversion E. subst. exists new0. split; assumption.
      * intros E. inversion E. subst. simpl. exists new0. split; assumption.
Qed.

Lemma retry_sent (self : AIProvider) (req : result request)
    (w : World (Wire S)) r self' w' :
  call_with_retry req self w = (r, self', w') ->
  self' = self /\
  exists new,
    sent (ext w') = (sent (ext w) ++ new)%list /\
    Forall (sent_from self req) new.
Proof.
  unfold call_with_retry, _retry_with_backoff, bind.
  destruct (attempts (config self) (_call self req)
              (Z.to_nat (max_retries (config self))) 0 None w)
    as [out w1] eqn:Hat.
  apply attempts_sent in Hat.
  destruct out as [[v|last]|e]; unfold ret, raise;
    intros E; inversion E; subst; split; try reflexivity; assumption.
Qed.

(** Initialising the client changes neither the class nor the config of
    the provider, and sends no request. *)
Lemma ensure_client_keeps (self : AIProvider) (w : World (Wire S)) r self1 w1 :
  ensure_client self w = (r, self1, w1) ->
  kind self1 = kind self /\ config self1 = config self /\
  sent (ext w1) = sent (ext w).
Proof.
  unfold ensure_client. destruct (_client self).
  - intros E. inversion E. subst. repeat split.
  - unfold _initialize_client, _initialize_sdk_client, _initialize_ollama,
      on_vendor, outside.
    destruct (kind self) eqn:K;
      try (destruct (sdk_importable _ (vendor (ext w)));
           [destruct (make_client self (vendor (ext w))) as [[u|e] s'] |];
           intros E; inversion E; subst; simpl; repeat split; assumption).
    destruct (urlopen_tags _ (vendor (ext w))) as [[status|e|e] s'];
      [destruct (status =? 200)%Z | |];
      intros E; inversion E; subst; simpl; repeat split; assumption.
Qed.

Lemma vision_sent image_data prompt image_format (self : AIProvider)
    (w : World (Wire S)) r self' w' :
  vision image_data prompt image_format self w = (r, self', w') ->
  kind self' = kind self /\ config self' = config self /\
  exists new,
    sent (ext w') = (sent (ext w) ++ new)%list /\
    Forall (sent_from self'
              (vision_request self' image_data prompt image_format)) new.
Proof.
  unfold vision.
  destruct (ensure_client self w) as [[r0 self1] w1] eqn:Hinit.
  apply ensure_client_keeps in Hinit as (Hk & Hc & Hs).
  destruct r0 as [u|e].
  - intros E. apply retry_sent in E as (-> & new & Hsent & Hall).
    repeat split; try assumption.
    exists new. rewrite Hsent, Hs. split; [reflexivity | assumption].
  - intros E. inversion E. subst. repeat split; try assumption.
    exists []. rewrite app_nil_r. split; [assumption | constructor].
Qed.

Lemma chat_sent prompt system_prompt (self : AIProvider)
    (w : World (Wire S)) r self' w' :
  chat prompt system_prompt self w = (r, self', w') ->
  kind self' = kind self /\ config self' = config self /\
  exists new,
    sent (ext w') = (sent (ext w) ++ new)%list /\
    Forall (sent_from self' (chat_request self' prompt system_prompt)) new.
Proof.
  unfold chat.
  destruct (ensure_client self w) as [[r0 self1] w1] eqn:Hinit.
  apply ensure_client_keeps in Hinit as (Hk & Hc & Hs).
  destruct r0 as [u|e].
  - intros E. apply retry_sent in E as (-> & new & Hsent & Hall).
    repeat split; try assumption.
    exists new. rewrite Hsent, Hs. split; [reflexivity | assumption].
  - intros E. inversion E. subst. repeat split; try assumption.
    exists []. rewrite app_nil_r. split; [assumption | constructor].
Qed.

(** The first iteration of the loop around a request puts it on the
    wire. *)
Lemma attempts_first (cfg : ProviderConfig) (self : AIProvider)
    (req : request) (n : nat) attempt last (w : World (Wire S)) out w' :
  attempts cfg (_call self (Ret req)) (Datatypes.S n) attempt last w
  = (out, w') ->
  exists rest, sent (ext w') = (sent (ext w) ++ (kind self, req) :: rest)%list.
Proof.
  simpl. unfold bind at 1, emit, outside, send. simpl.
  destruct (transport self req (vendor (ext w))) as [[v|e] s'].
  - intros E. inversion E. subst. simpl. exists []. reflexivity.
  - destruct (is_Exception e).
    + unfold bind.
      destruct (on_exception cfg attempt e _) as [r1 w1] eqn:Hh.
      apply on_exception_ext in Hh. simpl in Hh.
      destruct r1 as [u|e1].
      * intros E.
        apply (attempts_sent cfg self (Ret req) n) in E as (new1 & Hsent1 & _).
        exists new1. rewrite Hsent1, Hh. simpl.
        rewrite <- app_assoc. reflexivity.
      * intros E. inversion E. subst. rewrite Hh. simpl.
        exists []. reflexivity.
    + intros E. inversion E. subst. simpl. exists []. reflexivity.
Qed.

(** A loop that returns a value got it from an invocation. *)
Lemma attempts_returned {A : Type} (cfg : ProviderConfig)
    (func : Wire S -> result A * Wire S) (n : nat) :
  forall attempt last (w : World (Wire S)) v w',
    attempts cfg func n attempt last w = (Ret (Returned v), w') ->
    exists s s', func s = (Ret v, s').
Proof.
  induction n as [|n IH]; intros attempt last w v w'.
  - simpl. unfold ret. discriminate.
  - simpl. unfold bind at 1, emit, outside. simpl.
    destruct (func (ext w)) as [[v0|e] s'] eqn:Hf.
    + intros E. inversion E. subst. eauto.
    + destruct (is_Exception e); [|discriminate].
      unfold bind. destruct (on_exception cfg attempt e _) as [[u|e1] w1];
        [|discriminate].
      intros E. eapply IH. exact E.
Qed.

(** When the loop has an attempt to make, a request that could be
    built goes out. *)
Lemma retry_goes_out (self : AIProvider) (req : request)
    (w : World (Wire S)) :
  (1 <= max_retries (config self))%Z ->
  exists rest,
    sent (ext (snd (call_with_retry (Ret req) self w)))
    = (sent (ext w) ++ (kind self, req) :: rest)%list.
Proof.
  intros Hmax. unfold call_with_retry, _retry_with_backoff, bind.
  destruct (Z.to_nat (max_retries (config self))) as [|n] eqn:Hn; [lia|].
  destruct (attempts (config self) (_call self (Ret req)) (Datatypes.S n) 0
              None w) as [out w1] eqn:Hat.
  apply attempts_first in Hat as [rest Hrest].
  exists rest. destruct out as [[v|last]|e]; exact Hrest.
Qed.

(** A call that returns a value has put its request on the wire. *)
Lemma retry_returned_sent (self : AIProvider) (req : result request)
    (w : World (Wire S)) v self' w' :
  call_with_retry req self w = (Ret v, self', w') ->
  exists r rest,
    req = Ret r /\
    sent (ext w') = (sent (ext w) ++ (kind self, r) :: rest)%list.
Proof.
  unfold call_with_retry, _retry_with_backoff, bind.
  generalize (Z.to_nat (max_retries (config self))). intros n.
  destruct (attempts (config self) (_call self req) n 0 None w)
    as [out w1] eqn:Hat.
  destruct out as [[v0|last]|e]; unfold ret, raise; intros E;
    inversion E; subst.
  pose proof Hat as Hret. apply attempts_returned in Hret as (s & s' & Hs).
  destruct req as [r|e]; [|discriminate Hs].
  destruct n as [|n]; [discriminate Hat|].
  apply attempts_first in Hat as [rest Hrest].
  exists r, rest. split; [reflexivity | exact Hrest].
Qed.

(** After the first successful initialisation of its client a provider
    can build its requests. *)
Lemma initialised_builds (self : AIProvider) (w : World (Wire S)) self1 w1
    image_data prompt image_format :
  _client self = false ->
  ensure_client self w = (Ret tt, self1, w1) ->
  is_Ret (vision_request self1 image_data prompt image_format) = true.
Proof.
  intros Hc. unfold ensure_client. rewrite Hc.
  unfold _initialize_client, _initialize_sdk_client, _initialize_ollama,
    on_vendor, outside, vision_request.
  destruct (kind self) eqn:K;
    try (destruct (sdk_importable _ (vendor (ext w)));
         [destruct (make_client self (vendor (ext w))) as [[u|e] s'] |];
         intros E; inversion E; subst; cbn; rewrite ?K; reflexivity).
  destruct (urlopen_tags _ (vendor (ext w))) as [[status|e|e] s'];
    [destruct (status =? 200)%Z | |];
    intros E; inversion E; subst; cbn; rewrite ?K; reflexivity.
Qed.

(** What [vision] puts on the wire, and when it puts something there:
    always when it returns a value, and always when the client of a
    fresh provider initialises and the loop has an attempt to make. *)
Lemma vision_goes_out image_data prompt image_format (self : AIProvider)
    (w : World (Wire S)) :
  exists new,
    sent (ext (snd (vision image_data prompt image_format self w)))
    = (sent (ext w) ++ new)%list /\
    Forall (fun kr =>
              fst kr = kind self /\
              exists self1,
                kind self1 = kind self /\ config self1 = config self /\
                vision_request self1 image_data prompt image_format
                = Ret (snd kr)) new /\
    (is_Ret (fst (fst (vision image_data prompt image_format self w))) = true ->
     new <> []) /\
    (_client self = false ->
     is_Ret (fst (fst (ensure_client self w))) = true ->
     (1 <= max_retries (config self))%Z ->
     new <> []).
Proof.
  destruct (vision image_data prompt image_format self w)
    as [[r self'] w'] eqn:Hv.
  pose proof Hv as Hsentv.
  apply vision_sent in Hsentv as (Hk & Hc & new & Hsent & Hall).
  exists new. cbn [fst snd]. split; [exact Hsent|]. split.
  { eapply Forall_impl; [exact Hall|].
    intros kr [Hfst Hreq]. split; [congruence|].
    exists self'. repeat split; assumption. }
  unfold vision in Hv.
  destruct (ensure_client self w) as [[r0 self1] w1] eqn:Hinit.
  pose proof Hinit as Hkeep.
  apply ensure_client_keeps in Hkeep as (Hk1 & Hc1 & Hs1).
  split.
  - intros Hret. destruct r0 as [[]|e0].
    + destruct r as [v|e]; [|discriminate Hret].
      apply retry_returned_sent in Hv as (q & rest & _ & Hrest).
      rewrite Hrest, Hs1 in Hsent. apply app_inv_head in Hsent.
      intros ->. discriminate Hsent.
    + inversion Hv. subst. discriminate Hret.
  - intros Hfresh Hready Hmax. cbn [fst] in Hready.
    destruct r0 as [[]|e0]; [|discriminate Hready].
    pose proof (initialised_builds self w self1 w1 image_data prompt
                  image_format Hfresh Hinit) as Hbuilt.
    destruct (vision_request self1 image_data prompt image_format)
      as [q|e] eqn:Hq; [|discriminate Hbuilt].
    destruct (retry_goes_out self1 q w1) as [rest Hrest];
      [rewrite Hc1; exact Hmax|].
    rewrite Hv in Hrest. cbn [snd] in Hrest.
    rewrite Hrest, Hs1 in Hsent. apply app_inv_head in Hsent.
    intros ->. discriminate Hsent.
Qed.

(** [vision] sends nothing exactly when the client cannot be
    initialised, the request cannot be built, or the loop has no attempt
    to make. *)
Lemma vision_silent image_data prompt image_format (self : AIProvider)
    (w : World (Wire S)) :
  sent (ext (snd (vision image_data prompt image_format self w)))
  = sent (ext w)
  <-> match ensure_client self w with
      | (Ret _, self1, _) =>
          is_Ret (vision_request self1 image_data prompt image_format) = false
          \/ (max_retries (config self) <= 0)%Z
      | (Raise _, _, _) => True
      end.
Proof.
  unfold vision.
  destruct (ensure_client self w) as [[r0 self1] w1] eqn:Hinit.
  pose proof Hinit as Hkeep.
  apply ensure_client_keeps in Hkeep as (Hk1 & Hc1 & Hs1).
  destruct r0 as [u|e0]; [|cbn [snd]; tauto].
  destruct (vision_request self1 image_data prompt image_format)
    as [q|e] eqn:Hq.
  - destruct (Z_le_gt_dec (max_retries (config self)) 0) as [Hle|Hgt].
    + split; [intros _; right; exact Hle|]. intros _.
      unfold call_with_retry, _retry_with_backoff, bind. rewrite Hc1.
      replace (Z.to_nat (max_retries (config self))) with 0%nat by lia.
      cbn. exact Hs1.
    + split.
      * intros Hsame. exfalso.
        destruct (retry_goes_out self1 q w1) as [rest Hrest];
          [rewrite Hc1; lia|].
        rewrite Hrest, Hs1 in Hsame.
        apply (f_equal (@length _)) in Hsame.
        rewrite length_app in Hsame. cbn [length] in Hsame. lia.
      * intros [F|F]; [discriminate F | lia].
  - split; [intros _; left; reflexivity|]. intros _.
    destruct (call_with_retry (Raise e) self1 w1) as [[r s2] w2] eqn:Hcall.
    apply retry_sent in Hcall as (_ & new & Hsent & Hall). cbn [snd].
    destruct new as [|kr new].
    + rewrite app_nil_r in Hsent. congruence.
    + inversion Hall as [|? ? [_ F] _]. discriminate F.
Qed.

End WireFacts.

(** Every vision request is built with the temperature [0.1]. *)
Lemma vision_request_temperature (self : AIProvider) image_data prompt
    image_format req :
  vision_request self image_data prompt image_format = Ret req ->
  request_temperature req = Finite 0.1.
Proof.
  unfold vision_request.
  destruct (kind self); cbv beta delta [QwenProvider.vision_request
    GeminiProvider.vision_request OpenAIProvider.vision_request
    AnthropicProvider.vision_request OllamaProvider.vision_request
    OllamaProvider._make_request] zeta.
  - intros E. inversion E. reflexivity.
  - destruct (_vision_model self); intros E; inversion E. reflexivity.
  - intros E. inversion E. reflexivity.
  - intros E. inversion E. reflexivity.
  - destruct (_base_url self); intros E; inversion E. reflexivity.
Qed.

(** C4. Whatever the provider, its configured temperature and the state
    of the world, [vision] issues its requests with the sampling
    temperature [0.1]: every request it puts on the wire carries that
    temperature.  It does put one there whenever it returns a value, and
    whenever the client of a provider that has none yet is initialised
    and [max_retries] allows an attempt; it puts none there only when
    the client cannot be initialised, the request cannot be built, or
    [max_retries] allows no attempt. *)
Theorem vision_temperature_is_fixed {S : Type} `{Outside S}
    (self : AIProvider) (image_data : list Byte.byte)
    (prompt image_format : string) (w : World (Wire S)) :
  exists new,
    sent (ext (snd (vision image_data prompt image_format self w)))
    = (sent (ext w) ++ new)%list /\
    Forall (fun kr => fst kr = kind self /\
                      request_temperature (snd kr) = Finite 0.1) new /\
    (is_Ret (fst (fst (vision image_data prompt image_format self w))) = true ->
     new <> []) /\
    (_client self = false ->
     is_Ret (fst (fst (ensure_client self w))) = true ->
     (1 <= max_retries (config self))%Z ->
     new <> []) /\
    (new = [] ->
     is_Ret (fst (fst (ensure_client self w))) = false \/
     is_Ret (vision_request (snd (fst (ensure_client self w))) image_data
               prompt image_format) = false \/
     (max_retries (config self) <= 0)%Z).
Proof.
  destruct (vision_goes_out image_data prompt image_format self w)
    as (new & Hsent & Hall & Hret & Hout).
  exists new. split; [exact Hsent|]. split; [|split; [|split]];
    try assumption.
  - eapply Forall_impl; [exact Hall|].
    intros kr (Hfst & self1 & _ & _ & Hreq). split; [exact Hfst|].
    eapply vision_request_temperature. exact Hreq.
  - intros ->. rewrite app_nil_r in Hsent.
    apply vision_silent in Hsent.
    destruct (ensure_client self w) as [[[u|e] self1] w1]; cbn [fst snd].
    + destruct Hsent as [Hb|Hm]; [right; left; exact Hb | right; right; exact Hm].
    + left. reflexivity.
Qed.

(* ===================================================================== *)
(** * A provider that is given no attempt *)
(* ===================================================================== *)

(** C10. Constructing a [ProviderConfig] keeps the [max_retries] it is
    given, zero and negative values included.  For a provider whose
    [max_retries] is at most zero, [_retry_with_backoff] raises its
    error, whose text ends with [None], without invoking the wrapped
    function and without any other effect; so every [chat] and every
    [vision] call on it raises, and sends no request. *)
Theorem no_attempt_always_fails {S : Type} `{Outside S} (self : AIProvider) :
  (max_retries (config self) <= 0)%Z ->
  (forall a n, arg_max_retries a = Some n ->
     exists c, new_ProviderConfig a = Ret c /\ max_retries c = n) /\
  (forall (S' A : Type) (clock : Clock S') (func : S' -> result A * S')
          (w : World S'),
     _retry_with_backoff (config self) (name (kind self)) func w
     = (Raise (Exn RuntimeError
                 ("All " ++ PyStr.of_Z (max_retries (config self))
                  ++ " retries failed for " ++ name (kind self) ++ ": None")),
        w)) /\
  (forall prompt system_prompt (w : World (Wire S)),
     exists e self' w',
       chat prompt system_prompt self w = (Raise e, self', w') /\
       sent (ext w') = sent (ext w)) /\
  (forall image_data prompt image_format (w : World (Wire S)),
     exists e self' w',
       vision image_data prompt image_format self w = (Raise e, self', w') /\
       sent (ext w') = sent (ext w)).
Proof.
  intros Hle. split; [|split; [|split]].
  - intros a n Ha. eexists. split; [reflexivity|].
    rewrite post_init_max_retries. simpl. rewrite Ha. reflexivity.
  - intros S' A clock func w. apply retry_without_attempts. exact Hle.
  - intros prompt system_prompt w. unfold chat.
    destruct (ensure_client self w) as [[r0 self1] w1] eqn:Hinit.
    apply ensure_client_keeps in Hinit as (Hk & Hc & Hs).
    destruct r0 as [u|e].
    + unfold call_with_retry.
      rewrite retry_without_attempts by (rewrite Hc; exact Hle).
      eexists _, _, _. split; [reflexivity | exact Hs].
    + eexists _, _, _. split; [reflexivity | exact Hs].
  - intros image_data prompt image_format w. unfold vision.
    destruct (ensure_client self w) as [[r0 self1] w1] eqn:Hinit.
    apply ensure_client_keeps in Hinit as (Hk & Hc & Hs).
    destruct r0 as [u|e].
    + unfold call_with_retry.
      rewrite retry_without_attempts by (rewrite Hc; exact Hle).
      eexists _, _, _. split; [reflexivity | exact Hs].
    + eexists _, _, _. split; [reflexivity | exact Hs].
Qed.

(* ===================================================================== *)
(** * Substring search and [supports_vision] *)
(* ===================================================================== *)

Lemma prefix_spec (m s : string) :
  String.prefix m s = true <-> exists post, s = m ++ post.
Proof.
  revert m. induction s as [|b s IH]; intros [|a m]; simpl.
  - split; [intros _; exists ""; reflexivity | reflexivity].
  - split; [discriminate | intros [post E]; discriminate].
  - split; [intros _; eexists; reflexivity | reflexivity].
  - destruct (ascii_dec a b) as [->|Hne].
    + rewrite IH. split.
      * intros [post ->]. exists post. reflexivity.
      * intros [post E]. inversion E. exists post. reflexivity.
    + split; [discriminate|]. intros [post E]. inversion E. congruence.
Qed.

Lemma contains_spec (m s : string) :
  PyStr.contains m s = true <-> occurs_in m s.
Proof.
  unfold occurs_in. induction s as [|b s IH].
  - cbn [PyStr.contains]. rewrite orb_false_r, prefix_spec. split.
    + intros [post E]. exists "", post. exact E.
    + intros (pre & post & E). destruct pre as [|c pre]; [|discriminate].
      exists post. exact E.
  - cbn [PyStr.contains]. rewrite orb_true_iff, prefix_spec, IH. split.
    + intros [[post E]|(pre & post & E)].
      * exists "", post. exact E.
      * exists (String b pre), post. simpl. rewrite E. reflexivity.
    + intros (pre & post & E). destruct pre as [|c pre].
      * left. exists post. exact E.
      * right. simpl in E. inversion E. exists pre, post. reflexivity.
Qed.

(** C7. [OllamaProvider.supports_vision] is true exactly when the
    lowercased [vision_model] contains one of the names [llava],
    [bakllava], [moondream]; so it is true for [llava] written in any
    letter case and false for [llama3]. *)
Theorem ollama_supports_vision_iff (self : AIProvider) :
  (OllamaProvider.supports_vision self = true <->
   exists m, In m ["llava"; "bakllava"; "moondream"] /\
             occurs_in m (PyStr.lower (vision_model (config self)))) /\
  (PyStr.lower (vision_model (config self)) = "llava" ->
   OllamaProvider.supports_vision self = true) /\
  (vision_model (config self) = "llama3" ->
   OllamaProvider.supports_vision self = false).
Proof.
  unfold OllamaProvider.supports_vision, OllamaProvider.vision_models.
  split; [|split].
  - rewrite existsb_exists. split.
    + intros (m & Hin & Hc). exists m. split; [exact Hin|].
      apply contains_spec. exact Hc.
    + intros (m & Hin & Hc). exists m. split; [exact Hin|].
      apply contains_spec. exact Hc.
  - intros ->. reflexivity.
  - intros ->. reflexivity.
Qed.

(* ===================================================================== *)
(** * base64: decoding undoes encoding *)
(* ===================================================================== *)

Module base64_facts.

Import base64.

Ltac Zify.zify_post_hook ::= Z.to_euclidean_division_equations.

Lemma sextets_ok : forallb sextet_ok sextets = true.
Proof. vm_compute. reflexivity. Qed.

Lemma sextet_in (n : N) : (n < 64)%N -> In n sextets.
Proof.
  intros Hn. unfold sextets. apply in_map_iff.
  exists (N.to_nat n). split; [apply N2Nat.id|].
  apply in_seq. lia.
Qed.

Lemma index_of_char_of (n : N) :
  (n < 64)%N -> index_of (char_of n) = Some n.
Proof.
  intros Hn. pose proof sextets_ok as Hall.
  rewrite forallb_forall in Hall. specialize (Hall n (sextet_in n Hn)).
  unfold sextet_ok in Hall.
  destruct (index_of (char_of n)) as [m|]; [|discriminate].
  apply andb_prop in Hall as [Hm _]. apply N.eqb_eq in Hm. congruence.
Qed.

Lemma char_of_not_pad (n : N) :
  (n < 64)%N -> Ascii.eqb (char_of n) pad = false.
Proof.
  intros Hn. pose proof sextets_ok as Hall.
  rewrite forallb_forall in Hall. specialize (Hall n (sextet_in n Hn)).
  unfold sextet_ok in Hall.
  destruct (index_of (char_of n)) as [m|]; [|discriminate].
  apply andb_prop in Hall as [_ Hp]. apply negb_true_iff in Hp. exact Hp.
Qed.

Lemma byte_of_N_to_N (b : Byte.byte) (n : N) :
  n = Byte.to_N b -> byte_of_N n = b.
Proof.
  intros ->. unfold byte_of_N.
  pose proof (Byte.to_N_bounded b) as Hb.
  rewrite N.mod_small by lia. rewrite Byte.of_to_N. reflexivity.
Qed.

(** Stepping through a list three elements at a time. *)
Lemma list_ind3 {A : Type} (P : list A -> Prop) :
  P [] -> (forall a, P [a]) -> (forall a b, P [a; b]) ->
  (forall a b c l, P l -> P (a :: b :: c :: l)) ->
  forall l, P l.
Proof.
  intros H0 H1 H2 H3 l.
  assert (P l /\ (forall a, P (a :: l)) /\ (forall a b, P (a :: b :: l)))
    as [Hl _]; [|exact Hl].
  induction l as [|x l (IH0 & IH1 & IH2)].
  - repeat split; auto.
  - repeat split; auto.
Qed.

Lemma append_String (c : ascii) (s r : string) :
  String c s ++ r = String c (s ++ r).
Proof. reflexivity. Qed.

Lemma append_empty (r : string) : "" ++ r = r.
Proof. reflexivity. Qed.

Lemma decode_group (a b c : Byte.byte) (rest : string) :
  b64decode (standard_b64encode [a; b; c] ++ rest)
  = match b64decode rest with
    | Some tail => Some (a :: b :: c :: tail)
    | None => None
    end.
Proof.
  pose proof (Byte.to_N_bounded a) as Ha.
  pose proof (Byte.to_N_bounded b) as Hb.
  pose proof (Byte.to_N_bounded c) as Hc.
  cbn [standard_b64encode]. rewrite !append_String, append_empty.
  cbn [b64decode].
  set (x := Byte.to_N a) in *. set (y := Byte.to_N b) in *.
  set (z := Byte.to_N c) in *.
  rewrite !index_of_char_of by lia.
  rewrite !char_of_not_pad by lia.
  rewrite (byte_of_N_to_N a) by (subst x y; lia).
  rewrite (byte_of_N_to_N b) by (subst x y z; lia).
  rewrite (byte_of_N_to_N c) by (subst y z; lia).
  reflexivity.
Qed.

Lemma decode_last_one (a : Byte.byte) :
  b64decode (standard_b64encode [a]) = Some [a].
Proof.
  pose proof (Byte.to_N_bounded a) as Ha.
  cbn [standard_b64encode b64decode].
  set (x := Byte.to_N a) in *.
  rewrite !index_of_char_of by lia.
  rewrite Ascii.eqb_refl. cbn [PyStr.truthy negb andb].
  rewrite (byte_of_N_to_N a) by (subst x; lia).
  reflexivity.
Qed.

Lemma decode_last_two (a b : Byte.byte) :
  b64decode (standard_b64encode [a; b]) = Some [a; b].
Proof.
  pose proof (Byte.to_N_bounded a) as Ha.
  pose proof (Byte.to_N_bounded b) as Hb.
  cbn [standard_b64encode b64decode].
  set (x := Byte.to_N a) in *. set (y := Byte.to_N b) in *.
  rewrite !index_of_char_of by lia.
  rewrite !char_of_not_pad by lia.
  rewrite Ascii.eqb_refl. cbn [PyStr.truthy negb].
  rewrite (byte_of_N_to_N a) by (subst x y; lia).
  rewrite (byte_of_N_to_N b) by (subst x y; lia).
  reflexivity.
Qed.

Lemma encode_cons3 (a b c : Byte.byte) (l : list Byte.byte) :
  standard_b64encode (a :: b :: c :: l)
  = standard_b64encode [a; b; c] ++ standard_b64encode l.
Proof. reflexivity. Qed.

(** Decoding the encoding of [bs] gives [bs] back. *)
Lemma b64decode_b64encode (bs : list Byte.byte) :
  b64decode (standard_b64encode bs) = Some bs.
Proof.
  induction bs as [|a|a b|a b c l IH] using list_ind3.
  - reflexivity.
  - apply decode_last_one.
  - apply decode_last_two.
  - rewrite encode_cons3, decode_group, IH. reflexivity.
Qed.

End base64_facts.

(* ===================================================================== *)
(** * The image inside a vision request *)
(* ===================================================================== *)

(** C9. For the OpenAI, Anthropic and Qwen providers and every byte
    string, [vision] builds a request whose embedded base64 text decodes
    to exactly the image bytes, and every request it sends is of that
    kind. *)
Theorem vision_base64_round_trip {S : Type} `{Outside S}
    (self : AIProvider) (image_data : list Byte.byte)
    (prompt image_format : string) (w : World (Wire S)) :
  kind self = OpenAI \/ kind self = Anthropic \/ kind self = Qwen ->
  (exists req payload,
     vision_request self image_data prompt image_format = Ret req /\
     embeds_base64 image_format req payload /\
     base64.b64decode payload = Some image_data) /\
  (exists new,
     sent (ext (snd (vision image_data prompt image_format self w)))
     = (sent (ext w) ++ new)%list /\
     Forall (fun kr => exists payload,
                 embeds_base64 image_format (snd kr) payload /\
                 base64.b64decode payload = Some image_data) new).
Proof.
  intros Hkind.
  assert (Hreq : forall self0 req,
             kind self0 = kind self ->
             vision_request self0 image_data prompt image_format = Ret req ->
             embeds_base64 image_format req
               (base64.standard_b64encode image_data)).
  { intros self0 req Hk. unfold vision_request. rewrite Hk.
    destruct Hkind as [K|[K|K]]; rewrite K;
      intros E; inversion E; subst; unfold embeds_base64; simpl.
    - left. eexists. reflexivity.
    - right. eexists. reflexivity.
    - left. eexists. reflexivity. }
  split.
  - assert (exists req,
               vision_request self image_data prompt image_format = Ret req)
      as [req Hr].
    { unfold vision_request.
      destruct Hkind as [K|[K|K]]; rewrite K; eexists; reflexivity. }
    exists req, (base64.standard_b64encode image_data).
    split; [exact Hr|]. split; [apply (Hreq self); [reflexivity | exact Hr]|].
    apply base64_facts.b64decode_b64encode.
  - destruct (vision image_data prompt image_format self w)
      as [[r self'] w'] eqn:Hv.
    apply vision_sent in Hv as (Hk & Hc & new & Hsent & Hall).
    exists new. split; [exact Hsent|].
    eapply Forall_impl; [exact Hall|].
    intros kr [_ Hr]. exists (base64.standard_b64encode image_data).
    split; [apply (Hreq self'); [exact Hk | exact Hr]|].
    apply base64_facts.b64decode_b64encode.
Qed.

(* ===================================================================== *)
(** * The MIME type of the image *)
(* ===================================================================== *)

Lemma dict_get_missing (d : list (string * string)) (key default : string) :
  ~ In key (map fst d) -> AnthropicProvider.dict_get d key default = default.
Proof.
  induction d as [|[k v] d IH]; simpl; intros Hnot; [reflexivity|].
  destruct (String.eqb key k) eqn:E.
  - apply String.eqb_eq in E. exfalso. apply Hnot. left. congruence.
  - apply IH. intros Hin. apply Hnot. right. exact Hin.
Qed.

(** C8, as stated, fails: the OpenAI provider sends [bmp] as
    [image/bmp] and [tiff] as [image/tiff], so it substitutes no default
    MIME type. *)
Lemma openai_passes_format_through :
  ~ (forall k, substitutes_default_mime k).
Proof.
  intros Hall. destruct (Hall OpenAI) as [default_mime Hd].
  assert (Hbmp : ~ In "bmp" supported_formats).
  { simpl. intros [F|[F|[F|[F|[F|[]]]]]]; discriminate F. }
  assert (Htiff : ~ In "tiff" supported_formats).
  { simpl. intros [F|[F|[F|[F|[F|[]]]]]]; discriminate F. }
  pose proof (Hd (sample_provider OpenAI) [] "read" "bmp" _
                eq_refl Hbmp eq_refl) as M1.
  pose proof (Hd (sample_provider OpenAI) [] "read" "tiff" _
                eq_refl Htiff eq_refl) as M2.
  change (declared_mime _) with (Some "image/bmp") in M1.
  change (declared_mime _) with (Some "image/tiff") in M2.
  congruence.
Qed.

(** No provider looks at the format before it builds the request. *)
Lemma vision_request_builds_alike (self : AIProvider)
    (image_data : list Byte.byte) (prompt image_format : string) :
  is_Ret (vision_request self image_data prompt image_format)
  = is_Ret (vision_request self image_data prompt "png").
Proof.
  unfold vision_request.
  destruct (kind self);
    cbv beta delta [GeminiProvider.vision_request
      OllamaProvider.vision_request OllamaProvider._make_request] zeta;
    try destruct (_vision_model self); try destruct (_base_url self);
    reflexivity.
Qed.

Lemma vision_request_mime (self : AIProvider)
    (image_data : list Byte.byte) (prompt image_format : string) req :
  vision_request self image_data prompt image_format = Ret req ->
  format_as_sent (kind self) image_data image_format req.
Proof.
  unfold vision_request, format_as_sent. destruct (kind self).
  - intros E. inversion E. eexists. reflexivity.
  - unfold GeminiProvider.vision_request.
    destruct (_vision_model self); intros E; inversion E. reflexivity.
  - intros E. inversion E. eexists. reflexivity.
  - intros E Hnot. unfold AnthropicProvider.vision_request in E.
    rewrite dict_get_missing in E by exact Hnot.
    inversion E. reflexivity.
  - unfold OllamaProvider.vision_request, OllamaProvider._make_request.
    destruct (_base_url self); intros E; inversion E. reflexivity.
Qed.

(** C8, amended. For every provider, every format and every state of
    the world, [vision] checks the format nowhere: it puts a request on
    the wire exactly when it does for [png], and it does put one there
    whenever it returns a value, and whenever the client of a provider
    that has none yet is initialised and [max_retries] allows an
    attempt; what the vendor answers to the request is the vendor's.  In
    every request it sends, the Anthropic provider declares the type
    [image/png] for a format whose lowercase form is not a supported
    one; Qwen and OpenAI put the format as given in the data URL; Gemini
    declares [image/] followed by the format as given; Ollama's request
    declares no MIME type. *)
Theorem vision_mime_by_provider {S : Type} `{Outside S}
    (self : AIProvider) (image_data : list Byte.byte)
    (prompt image_format : string) (w : World (Wire S)) :
  exists new,
    sent (ext (snd (vision image_data prompt image_format self w)))
    = (sent (ext w) ++ new)%list /\
    (new = [] <->
     sent (ext (snd (vision image_data prompt "png" self w))) = sent (ext w)) /\
    Forall (fun kr =>
              fst kr = kind self /\
              match kind self with
              | Anthropic =>
                  ~ In (PyStr.lower image_format) supported_formats ->
                  declared_mime (snd kr) = Some "image/png"
              | Qwen | OpenAI =>
                  exists detail,
                    image_parts (snd kr)
                    = [ImageUrlPart
                         ("data:image/" ++ image_format ++ ";base64,"
                          ++ base64.standard_b64encode image_data) detail]
              | Gemini =>
                  declared_mime (snd kr) = Some ("image/" ++ image_format)
              | Ollama => declared_mime (snd kr) = None
              end) new /\
    (is_Ret (fst (fst (vision image_data prompt image_format self w))) = true ->
     new <> []) /\
    (_client self = false ->
     is_Ret (fst (fst (ensure_client self w))) = true ->
     (1 <= max_retries (config self))%Z ->
     new <> []).
Proof.
  destruct (vision_goes_out image_data prompt image_format self w)
    as (new & Hsent & Hall & Hret & Hout).
  exists new. split; [exact Hsent|]. split; [|split; [|split; assumption]].
  - transitivity
      (sent (ext (snd (vision image_data prompt image_format self w)))
       = sent (ext w)).
    + rewrite Hsent. split.
      * intros ->. apply app_nil_r.
      * intros E. rewrite <- (app_nil_r (sent (ext w))) in E at 2.
        apply app_inv_head in E. exact E.
    + rewrite !vision_silent.
      destruct (ensure_client self w) as [[[u|e] self1] w1]; [|tauto].
      rewrite (vision_request_builds_alike self1 image_data prompt
                 image_format).
      tauto.
  - eapply Forall_impl; [exact Hall|].
    intros kr (Hfst & self1 & Hk & _ & Hreq). split; [exact Hfst|].
    apply vision_request_mime in Hreq. rewrite Hk in Hreq. exact Hreq.
Qed.

(* ===================================================================== *)
(** * Stripping whitespace *)
(* ===================================================================== *)

Lemma string_app_assoc (a b c : string) : (a ++ b) ++ c = a ++ (b ++ c).
Proof.
  induction a as [|x a IH]; [reflexivity|].
  change (String x ((a ++ b) ++ c) = String x (a ++ (b ++ c))).
  rewrite IH. reflexivity.
Qed.

Lemma string_app_empty (a : string) : a ++ "" = a.
Proof.
  induction a as [|x a IH]; [reflexivity|].
  change (String x (a ++ "") = String x a). rewrite IH. reflexivity.
Qed.

Lemma rev_app (a b : string) : PyStr.rev (a ++ b) = PyStr.rev b ++ PyStr.rev a.
Proof.
  induction a as [|x a IH].
  - change ("" ++ b) with b. cbn [PyStr.rev]. rewrite string_app_empty.
    reflexivity.
  - change (String x a ++ b) with (String x (a ++ b)). cbn [PyStr.rev].
    rewrite IH, string_app_assoc. reflexivity.
Qed.

Lemma rev_involutive (s : string) : PyStr.rev (PyStr.rev s) = s.
Proof.
  induction s as [|x s IH]; [reflexivity|].
  cbn [PyStr.rev]. rewrite rev_app, IH. reflexivity.
Qed.

Lemma prefix_refl_app (w r : string) : String.prefix w (w ++ r) = true.
Proof. apply prefix_spec. exists r. reflexivity. Qed.

(** A prefix without the character [c] of a string that reaches [c]
    after [a] is a prefix of [a]. *)
Lemma prefix_before (c : ascii) (w a b : string) :
  has_char c w = false ->
  String.prefix w (a ++ String c b) = true -> String.prefix w a = true.
Proof.
  revert w. induction a as [|a0 a IH]; intros [|d w] Hno; try reflexivity.
  - change ("" ++ String c b) with (String c b).
    cbn [has_char] in Hno. apply orb_false_elim in Hno as [Hd _].
    cbn [String.prefix]. destruct (ascii_dec d c) as [->|Hne]; [|discriminate].
    rewrite Ascii.eqb_refl in Hd. discriminate Hd.
  - change (String a0 a ++ String c b) with (String a0 (a ++ String c b)).
    cbn [has_char] in Hno. apply orb_false_elim in Hno as [_ Hw].
    cbn [String.prefix]. destruct (ascii_dec d a0); [|discriminate].
    apply IH. exact Hw.
Qed.

(** No whitespace character holds an equals sign, read in either
    direction. *)
Lemma whitespace_without_equals :
  forallb (fun w => negb (has_char "="%char w)
                    && negb (has_char "="%char (PyStr.rev w)))
    PyStr.whitespace = true.
Proof. vm_compute. reflexivity. Qed.

Lemma is_whitespace_In (w : string) :
  PyStr.is_whitespace w = true <-> In w PyStr.whitespace.
Proof.
  unfold PyStr.is_whitespace. rewrite existsb_exists. split.
  - intros (x & Hin & E). apply String.eqb_eq in E. subst. exact Hin.
  - intros Hin. exists w. split; [exact Hin | apply String.eqb_refl].
Qed.

Lemma starts_blank_false (s : string) :
  starts_blank s = false <->
  forall w, In w PyStr.whitespace -> String.prefix w s = false.
Proof.
  unfold starts_blank. split.
  - intros E w Hin. destruct (String.prefix w s) eqn:P; [|reflexivity].
    assert (existsb (fun w => String.prefix w s) PyStr.whitespace = true)
      by (apply existsb_exists; eauto).
    congruence.
  - intros Hall.
    destruct (existsb _ PyStr.whitespace) eqn:E; [|reflexivity].
    apply existsb_exists in E as (w & Hin & P).
    rewrite (Hall w Hin) in P. discriminate P.
Qed.

Lemma ends_blank_false (s : string) :
  ends_blank s = false <->
  forall w, In w PyStr.whitespace ->
            String.prefix (PyStr.rev w) (PyStr.rev s) = false.
Proof.
  unfold ends_blank. split.
  - intros E w Hin.
    destruct (String.prefix (PyStr.rev w) (PyStr.rev s)) eqn:P; [|reflexivity].
    assert (existsb (fun w => String.prefix (PyStr.rev w) (PyStr.rev s))
              PyStr.whitespace = true)
      by (apply existsb_exists; eauto).
    congruence.
  - intros Hall.
    destruct (existsb _ PyStr.whitespace) eqn:E; [|reflexivity].
    apply existsb_exists in E as (w & Hin & P).
    rewrite (Hall w Hin) in P. discriminate P.
Qed.

(** What starts without whitespace still does when an equals sign and
    more follow, and likewise at the end. *)
Lemma starts_blank_before (a b : string) :
  starts_blank a = false -> starts_blank (a ++ String "="%char b) = false.
Proof.
  rewrite !starts_blank_false. intros Ha w Hin.
  destruct (String.prefix w (a ++ String "="%char b)) eqn:P; [|reflexivity].
  pose proof whitespace_without_equals as Hno.
  rewrite forallb_forall in Hno. specialize (Hno w Hin).
  apply andb_prop in Hno as [Hno _]. apply negb_true_iff in Hno.
  specialize (Ha w Hin).
  rewrite (prefix_before _ _ _ _ Hno P) in Ha. discriminate Ha.
Qed.

Lemma ends_blank_after (a b : string) :
  ends_blank b = false -> ends_blank (a ++ String "="%char b) = false.
Proof.
  rewrite !ends_blank_false. intros Hb w Hin.
  rewrite rev_app. cbn [PyStr.rev]. rewrite string_app_assoc.
  change (String "="%char "" ++ PyStr.rev a)
    with (String "="%char (PyStr.rev a)).
  destruct (String.prefix (PyStr.rev w) _) eqn:P; [|reflexivity].
  pose proof whitespace_without_equals as Hno.
  rewrite forallb_forall in Hno. specialize (Hno w Hin).
  apply andb_prop in Hno as [_ Hno]. apply negb_true_iff in Hno.
  specialize (Hb w Hin).
  rewrite (prefix_before _ _ _ _ Hno P) in Hb. discriminate Hb.
Qed.

(** Nothing is dropped from a string that starts with none of the
    selected characters. *)
Lemma lstrip_chars_keeps (ws : string -> bool) (s : string) :
  (forall w, ws w = true -> String.prefix w s = false) ->
  PyStr.lstrip_chars ws s = s.
Proof.
  intros Hall.
  assert (Hno : forall w r, s = w ++ r -> ws w = false).
  { intros w r ->. destruct (ws w) eqn:E; [|reflexivity].
    pose proof (prefix_refl_app w r) as P.
    rewrite (Hall w E) in P. discriminate P. }
  destruct s as [|c1 [|c2 [|c3 r3]]]; cbn [PyStr.lstrip_chars];
    rewrite ?(Hno (String c1 "") _ eq_refl),
            ?(Hno (String c1 (String c2 "")) _ eq_refl),
            ?(Hno (String c1 (String c2 (String c3 ""))) _ eq_refl);
    reflexivity.
Qed.


Lemma lstrip_reversed_whitespace (w x : string) :
  In w PyStr.whitespace ->
  PyStr.lstrip_chars (fun v => PyStr.is_whitespace (PyStr.rev v))
    (PyStr.rev w ++ x)
  = PyStr.lstrip_chars (fun v => PyStr.is_whitespace (PyStr.rev v)) x.
Proof.
  intros Hin. unfold PyStr.whitespace in Hin. cbn [map PyStr.bytes fold_right] in Hin.
  repeat (destruct Hin as [<-|Hin]; [reflexivity|]). contradiction.
Qed.

Lemma lstrip_keeps (s : string) : starts_blank s = false -> PyStr.lstrip s = s.
Proof.
  intros Hs. apply lstrip_chars_keeps. intros w Hw.
  apply is_whitespace_In in Hw. rewrite starts_blank_false in Hs. auto.
Qed.

Lemma rstrip_keeps (s : string) : ends_blank s = false -> PyStr.rstrip s = s.
Proof.
  intros Hs. unfold PyStr.rstrip.
  rewrite lstrip_chars_keeps; [apply rev_involutive|].
  intros w Hw. apply is_whitespace_In in Hw.
  rewrite ends_blank_false in Hs. specialize (Hs _ Hw).
  rewrite rev_involutive in Hs. exact Hs.
Qed.

Lemma rstrip_blank (t : string) :
  blank t -> forall s, PyStr.rstrip (s ++ t) = PyStr.rstrip s.
Proof.
  induction 1 as [|w t Hin Hblank IH]; intros s.
  - rewrite string_app_empty. reflexivity.
  - rewrite <- string_app_assoc, IH. unfold PyStr.rstrip.
    rewrite rev_app, lstrip_reversed_whitespace by exact Hin. reflexivity.
Qed.

Lemma strip_keeps (s : string) :
  starts_blank s = false -> ends_blank s = false -> PyStr.strip s = s.
Proof.
  intros Hs He. unfold PyStr.strip.
  rewrite lstrip_keeps by exact Hs. apply rstrip_keeps. exact He.
Qed.

(** [strip] on a line that defines a variable removes what follows the
    value. *)
Lemma strip_definition (key value trailing : string) :
  starts_blank key = false -> ends_blank value = false -> blank trailing ->
  PyStr.strip (key ++ "=" ++ value ++ trailing) = key ++ "=" ++ value.
Proof.
  intros Hk Hv Ht. unfold PyStr.strip.
  change ("=" ++ value ++ trailing) with (String "="%char (value ++ trailing)).
  rewrite lstrip_keeps by (apply starts_blank_before; exact Hk).
  change (String "="%char (value ++ trailing)) with ("=" ++ value ++ trailing).
  replace (key ++ "=" ++ value ++ trailing)
    with ((key ++ "=" ++ value) ++ trailing)
    by (rewrite !string_app_assoc; reflexivity).
  rewrite rstrip_blank by exact Ht.
  apply rstrip_keeps.
  change ("=" ++ value) with (String "="%char value).
  apply ends_blank_after. exact Hv.
Qed.

Lemma lstrip_by_keeps (p : ascii -> bool) (s : string) :
  (forall c, first_char s = Some c -> p c = false) ->
  PyStr.lstrip_by p s = s.
Proof.
  destruct s as [|c s]; [reflexivity|].
  intros Hf. cbn [PyStr.lstrip_by]. rewrite (Hf c eq_refl). reflexivity.
Qed.

Lemma rstrip_by_keeps (p : ascii -> bool) (s : string) :
  (forall c, last_char s = Some c -> p c = false) ->
  PyStr.rstrip_by p s = s.
Proof.
  induction s as [|c s IH]; [reflexivity|].
  intros Hl. cbn [PyStr.rstrip_by].
  destruct s as [|d s].
  - cbn [PyStr.rstrip_by]. rewrite (Hl c eq_refl). reflexivity.
  - rewrite IH; [reflexivity|]. intros x Hx. apply Hl. exact Hx.
Qed.

Lemma strip_by_keeps (p : ascii -> bool) (s : string) :
  keeps_edges p s -> PyStr.strip_by p s = s.
Proof.
  intros [Hf Hl]. unfold PyStr.strip_by.
  rewrite lstrip_by_keeps by exact Hf. apply rstrip_by_keeps. exact Hl.
Qed.

Lemma split_once_app (c : ascii) (k rest : string) :
  has_char c k = false ->
  PyStr.split_once c (k ++ String c rest) = Some (k, rest).
Proof.
  induction k as [|d k IH]; intros Hno.
  - change ("" ++ String c rest) with (String c rest).
    cbn [PyStr.split_once]. rewrite Ascii.eqb_refl. reflexivity.
  - change (String d k ++ String c rest) with (String d (k ++ String c rest)).
    cbn [has_char] in Hno. apply orb_false_elim in Hno as [Hd Hk].
    cbn [PyStr.split_once]. rewrite Hd, (IH Hk). reflexivity.
Qed.








(** One line that defines a variable, as [_load_env_file] reads it. *)
Lemma load_definition_line (key value trailing : string)
    (env_vars environ : gmap string string) :
  plain_key key -> plain_value value -> blank trailing ->
  load_line (key ++ "=" ++ value ++ trailing) (env_vars, environ)
  = (Ret (<[key := value]> env_vars),
     match environ !! key with
     | Some _ => environ
     | None => <[key := value]> environ
     end).
Proof.
  intros (Hne & Heq & Hnul & Hhash & Hks & Hke)
         (Hvnul & Hvs & Hve & Hvdq & Hvsq) Htrail.
  unfold load_line.
  rewrite strip_definition by assumption.
  destruct key as [|k0 key]; [congruence|].
  change (String k0 key ++ "=" ++ value)
    with (String k0 (key ++ String "="%char value)).
  cbn [PyStr.truthy negb orb PyStr.startswith_char].
  destruct (Ascii.eqb "#" k0) eqn:Hk0.
  { apply Ascii.eqb_eq in Hk0. subst k0. exfalso. apply Hhash. reflexivity. }
  change (String k0 (key ++ String "="%char value))
    with (String k0 key ++ String "="%char value).
  rewrite split_once_app by exact Heq.
  rewrite (strip_keeps _ Hks Hke), (strip_keeps _ Hvs Hve).
  unfold PyStr.strip_char.
  rewrite (strip_by_keeps _ _ Hvdq), (strip_by_keeps _ _ Hvsq).
  unfold environ_setdefault.
  destruct (environ !! String k0 key) as [old|]; [reflexivity|].
  rewrite Hnul, Hvnul. reflexivity.
Qed.

(* ===================================================================== *)
(** * Properties of the factory *)
(* ===================================================================== *)

Lemma lookup_provider_None (reg : list (string * provider_kind)) (n : string) :
  ~ In n (map fst reg) -> lookup_provider reg n = None.
Proof.
  induction reg as [|[k v] reg IH]; simpl; intros Hnot; [reflexivity|].
  destruct (String.eqb n k) eqn:E.
  - apply String.eqb_eq in E. exfalso. apply Hnot. left. congruence.
  - apply IH. intros Hin. apply Hnot. right. exact Hin.
Qed.

Lemma setdefault_keeps (key value k v : string)
    (environ environ' : gmap string string) :
  environ_setdefault key value environ = Ret environ' ->
  environ !! k = Some v -> environ' !! k = Some v.
Proof.
  unfold environ_setdefault. destruct (environ !! key) eqn:Hkey.
  - intros E. inversion E. subst. auto.
  - destruct (has_char nul key || has_char nul value); [discriminate|].
    destruct (negb (PyStr.truthy key)); [discriminate|].
    intros E Hk. inversion E. subst.
    rewrite lookup_insert_ne; [exact Hk | congruence].
Qed.

Lemma setdefault_defines (key value : string)
    (environ environ' : gmap string string) :
  environ_setdefault key value environ = Ret environ' ->
  environ' !! key <> None.
Proof.
  unfold environ_setdefault. destruct (environ !! key) eqn:Hkey.
  - intros E. inversion E. subst. congruence.
  - destruct (has_char nul key || has_char nul value); [discriminate|].
    destruct (negb (PyStr.truthy key)); [discriminate|].
    intros E. inversion E. rewrite lookup_insert_eq. discriminate.
Qed.

Section FactoryFacts.

Variable module_env_paths : list string.
Variable fs : string -> option (list string).

Lemma load_line_keeps line env_vars environ r environ' k v :
  load_line line (env_vars, environ) = (r, environ') ->
  environ !! k = Some v -> environ' !! k = Some v.
Proof.
  unfold load_line.
  destruct (negb (PyStr.truthy (PyStr.strip line))
            || PyStr.startswith_char "#" (PyStr.strip line)).
  - intros E. inversion E. subst. auto.
  - destruct (PyStr.split_once "=" (PyStr.strip line)) as [[key value]|].
    + destruct (environ_setdefault _ _ environ) as [en|e] eqn:Hset.
      * intros E. inversion E. subst. eapply setdefault_keeps; eassumption.
      * intros E. inversion E. subst. auto.
    + intros E. inversion E. subst. auto.
Qed.

Lemma load_line_covered line env_vars environ env_vars' environ' :
  load_line line (env_vars, environ) = (Ret env_vars', environ') ->
  covered env_vars environ -> covered env_vars' environ'.
Proof.
  unfold load_line.
  destruct (negb (PyStr.truthy (PyStr.strip line))
            || PyStr.startswith_char "#" (PyStr.strip line)).
  - intros E. inversion E. subst. auto.
  - destruct (PyStr.split_once "=" (PyStr.strip line)) as [[key value]|].
    + destruct (environ_setdefault _ _ environ) as [en|e] eqn:Hset.
      * intros E Hcov k Hk. inversion E. subst.
        destruct (decide (k = PyStr.strip key)) as [->|Hne].
        -- exfalso. eapply setdefault_defines; eassumption.
        -- rewrite lookup_insert_ne by congruence. apply Hcov.
           destruct (environ !! k) as [v|] eqn:Hv; [|reflexivity].
           rewrite (setdefault_keeps _ _ _ _ _ _ Hset Hv) in Hk.
           discriminate.
      * discriminate.
    + intros E. inversion E. subst. auto.
Qed.

Lemma load_lines_keeps lines :
  forall env_vars environ r environ' k v,
    load_lines lines env_vars environ = (r, environ') ->
    environ !! k = Some v -> environ' !! k = Some v.
Proof.
  induction lines as [|line lines IH]; cbn [load_lines];
    intros env_vars environ r environ' k v.
  - intros E. inversion E. subst. auto.
  - destruct (load_line line (env_vars, environ)) as [[ev|e] en] eqn:Hl.
    + intros E Hk. eapply IH; [exact E|].
      eapply load_line_keeps; eassumption.
    + intros E Hk. inversion E. subst.
      eapply load_line_keeps; eassumption.
Qed.

Lemma load_lines_covered lines :
  forall env_vars environ env_vars' environ',
    load_lines lines env_vars environ = (Ret env_vars', environ') ->
    covered env_vars environ -> covered env_vars' environ'.
Proof.
  induction lines as [|line lines IH]; cbn [load_lines];
    intros env_vars environ env_vars' environ'.
  - intros E. inversion E. subst. auto.
  - destruct (load_line line (env_vars, environ)) as [[ev|e] en] eqn:Hl.
    + intros E Hcov. eapply IH; [exact E|].
      eapply load_line_covered; eassumption.
    + discriminate.
Qed.

(** Loading the [.env] file never changes a variable the process
    environment already has. *)
Lemma load_env_file_keeps env_path environ r environ' k v :
  _load_env_file module_env_paths fs env_path environ = (r, environ') ->
  environ !! k = Some v -> environ' !! k = Some v.
Proof.
  unfold _load_env_file.
  destruct (find_env_file fs (search_paths module_env_paths env_path)).
  - apply load_lines_keeps.
  - intros E. inversion E. subst. auto.
Qed.

Lemma load_env_file_covered env_path environ env_vars environ' :
  _load_env_file module_env_paths fs env_path environ = (Ret env_vars, environ') ->
  covered env_vars environ'.
Proof.
  unfold _load_env_file.
  destruct (find_env_file fs (search_paths module_env_paths env_path)).
  - intros E. eapply load_lines_covered; [exact E|].
    intros k _. apply lookup_empty.
  - intros E. inversion E. subst. intros k _. apply lookup_empty.
Qed.

(** After a load, the layered lookup is a lookup in [os.environ]. *)
Lemma layered_get_covered environ env_vars key default :
  covered env_vars environ ->
  layered_get environ env_vars key default = environ_get environ key default.
Proof.
  intros Hcov. unfold layered_get, environ_get.
  destruct (environ !! key) eqn:E; [reflexivity|].
  rewrite (Hcov key E). reflexivity.
Qed.




End FactoryFacts.

(** [str.lower] is computed on ASCII text. *)
Lemma str_lower_ascii (unicode_lower : string -> string) (s : string) :
  PyStr.is_ascii s = true -> str_lower unicode_lower s = PyStr.lower s.
Proof. intros E. unfold str_lower. rewrite E. reflexivity. Qed.

(** The text of the error for an unknown provider lists the five names. *)
Lemma unknown_provider_message (n : string) :
  unknown_provider n
  = Exn ValueError
      ("Unknown provider: " ++ n
       ++ ". Available providers: qwen, gemini, openai, anthropic, ollama").
Proof. reflexivity. Qed.

(** C5, as stated, fails: [QWEN] is not one of the five registered names,
    yet resolving it constructs a Qwen provider; and with a [.env] file
    that has a line without a variable name, resolving [unknownvendor]
    raises the [OSError] of [os.environ.setdefault], whose text lists no
    provider. *)
Lemma uppercase_name_is_resolved :
  (~ In "QWEN" provider_names /\
   exists p,
     fst (get_provider no_int no_float no_case [] (fun _ => None)
            (Some "QWEN") None None None None no_kwargs ∅) = Ret p /\
     kind p = Qwen) /\
  (~ In "unknownvendor" provider_names /\
   fst (get_provider no_int no_float no_case [] nameless_fs
          (Some "unknownvendor") None None None None no_kwargs ∅)
   = Raise (Exn OSError "[Errno 22] Invalid argument")).
Proof.
  split; split.
  - simpl. intros [F|[F|[F|[F|[F|[]]]]]]; discriminate F.
  - eexists. split; [vm_compute; reflexivity | reflexivity].
  - simpl. intros [F|[F|[F|[F|[F|[]]]]]]; discriminate F.
  - vm_compute. reflexivity.
Qed.

(** C5, amended. Resolving a provider name whose lowercase form is not
    one of the five registered names constructs no provider.  The name
    is looked up after the [.env] file is loaded: when the load returns,
    the call raises the error for an unknown provider, whose text gives
    the lowercase name and lists the five valid names; when the load
    raises, that error leaves the call. *)
Theorem unknown_provider_is_rejected
    (py_int : string -> Z + string) (py_float : string -> pyfloat + string)
    (unicode_lower : string -> string)
    (module_env_paths : list string) (fs : string -> option (list string))
    (provider_name : string)
    (api_key vision_model language_model env_file : option string)
    (kwargs : Kwargs) (environ : gmap string string) :
  ~ In (str_lower unicode_lower provider_name) provider_names ->
  is_Ret (fst (get_provider py_int py_float unicode_lower module_env_paths fs
                 (Some provider_name) api_key vision_model language_model
                 env_file kwargs environ)) = false /\
  (forall env_vars environ',
     _load_env_file module_env_paths fs env_file environ
     = (Ret env_vars, environ') ->
     get_provider py_int py_float unicode_lower module_env_paths fs
       (Some provider_name) api_key vision_model language_model
       env_file kwargs environ
     = (Raise (Exn ValueError
                 ("Unknown provider: " ++ str_lower unicode_lower provider_name
                  ++ ". Available providers: "
                  ++ "qwen, gemini, openai, anthropic, ollama")),
        environ')) /\
  (forall e environ',
     _load_env_file module_env_paths fs env_file environ
     = (Raise e, environ') ->
     get_provider py_int py_float unicode_lower module_env_paths fs
       (Some provider_name) api_key vision_model language_model
       env_file kwargs environ
     = (Raise e, environ')).
Proof.
  intros Hnot. unfold get_provider, resolve.
  rewrite (lookup_provider_None PROVIDERS _ Hnot).
  destruct (_load_env_file module_env_paths fs env_file environ)
    as [[ev|e] en].
  - split; [reflexivity|]. split.
    + intros env_vars environ' E. inversion E. subst. reflexivity.
    + intros e environ' E. discriminate E.
  - split; [reflexivity|]. split.
    + intros env_vars environ' E. discriminate E.
    + intros e' environ' E. inversion E. subst. reflexivity.
Qed.

Section SettingsFacts.

Variable py_int : string -> Z + string.
Variable py_float : string -> pyfloat + string.



End SettingsFacts.



(* ===================================================================== *)
(** * The theorems at concrete inputs *)
(* ===================================================================== *)

Lemma ProviderConfig_never_rejects_witness :
  exists c,
    new_ProviderConfig
      (mkConfigArgs None None None None (Some 0%Z) (Some (Finite 2.5))
         (Some NaN) None None None) = Ret c /\
    temperature c = Finite 0.7 /\ top_p c = Finite 0.9 /\
    max_tokens c = 4096%Z.
Proof.
  destruct (ProviderConfig_never_rejects
              (mkConfigArgs None None None None (Some 0%Z) (Some (Finite 2.5))
                 (Some NaN) None None None))
    as (c & E & Ht & Hp & Hn).
  exists c. split; [exact E|]. split; [|split].
  - apply (proj1 (Ht (Finite 2.5) eq_refl)).
    intros (q & Eq & _ & Hhi). inversion Eq. subst q.
    unfold Qle in Hhi. simpl in Hhi. lia.
  - apply (proj1 (Hp NaN eq_refl)).
    intros (q & Eq & _). discriminate Eq.
  - apply (proj1 (Hn 0%Z eq_refl)). lia.
Defined.



Lemma vision_temperature_is_fixed_witness :
  exists new,
    sent (ext (snd (@vision unit answering [Byte.x01] "read" "png"
                      (sample_provider OpenAI) quiet)))
    = ([] ++ new)%list /\
    new <> [] /\
    Forall (fun kr => fst kr = OpenAI /\
                      request_temperature (snd kr) = Finite 0.1) new.
Proof.
  destruct (@vision_temperature_is_fixed unit answering
              (sample_provider OpenAI) [Byte.x01] "read" "png" quiet)
    as (new & Hsent & Hall & _ & Hout & _).
  exists new. split; [exact Hsent|]. split; [|exact Hall].
  apply Hout; [reflexivity | reflexivity | simpl; lia].
Defined.

Lemma no_attempt_always_fails_witness :
  exists e self' w',
    @chat unit answering "hello" None
      (new_provider OpenAI zero_retry_config) quiet
    = (Raise e, self', w') /\
    sent (ext w') = [].
Proof.
  assert (Hle : (max_retries (config (new_provider OpenAI zero_retry_config))
                 <= 0)%Z) by (simpl; lia).
  destruct (@no_attempt_always_fails unit answering
              (new_provider OpenAI zero_retry_config) Hle)
    as (_ & _ & Hchat & _).
  exact (Hchat "hello" None quiet).
Defined.

Lemma ollama_supports_vision_iff_witness :
  OllamaProvider.supports_vision
    (new_provider Ollama
       (mkProviderConfig "" "" "LLaVA" "" 4096 (Finite 0.7) (Finite 0.9) 3
          (Finite 1) ∅)) = true /\
  OllamaProvider.supports_vision
    (new_provider Ollama
       (mkProviderConfig "" "" "llama3" "" 4096 (Finite 0.7) (Finite 0.9) 3
          (Finite 1) ∅)) = false.
Proof.
  split.
  - apply (proj1 (proj2 (ollama_supports_vision_iff _))). reflexivity.
  - apply (proj2 (proj2 (ollama_supports_vision_iff _))). reflexivity.
Defined.

Lemma vision_mime_by_provider_witness :
  exists new,
    sent (ext (snd (@vision unit answering [] "read" "bmp"
                      (sample_provider Anthropic) quiet)))
    = ([] ++ new)%list /\
    new <> [] /\
    Forall (fun kr => declared_mime (snd kr) = Some "image/png") new.
Proof.
  destruct (@vision_mime_by_provider unit answering
              (sample_provider Anthropic) [] "read" "bmp" quiet)
    as (new & Hsent & _ & Hall & _ & Hout).
  exists new. split; [exact Hsent|]. split.
  - apply Hout; [reflexivity | reflexivity | simpl; lia].
  - eapply Forall_impl; [exact Hall|].
    intros kr [_ Hm]. apply Hm.
    simpl. intros [F|[F|[F|[F|[F|[]]]]]]; discriminate F.
Defined.

Lemma vision_base64_round_trip_witness :
  exists req payload,
    vision_request (sample_provider OpenAI) [Byte.x01; Byte.x02; Byte.x03; Byte.xff]
      "read" "png" = Ret req /\
    embeds_base64 "png" req payload /\
    base64.b64decode payload = Some [Byte.x01; Byte.x02; Byte.x03; Byte.xff].
Proof.
  exact (proj1 (@vision_base64_round_trip unit answering
                  (sample_provider OpenAI)
                  [Byte.x01; Byte.x02; Byte.x03; Byte.xff] "read" "png" quiet
                  (or_introl eq_refl))).
Defined.

Lemma unknown_provider_is_rejected_witness :
  get_provider no_int no_float no_case [] gemini_fs
    (Some "UnknownVendor") None None None None no_kwargs ∅
  = (Raise (Exn ValueError
              ("Unknown provider: " ++ "unknownvendor"
               ++ ". Available providers: "
               ++ "qwen, gemini, openai, anthropic, ollama")),
     after_lines (definitions gemini_dotenv) ∅).
Proof.
  assert (Hnot : ~ In (str_lower no_case "UnknownVendor") provider_names).
  { simpl. intros [F|[F|[F|[F|[F|[]]]]]]; discriminate F. }
  apply (proj1 (proj2 (unknown_provider_is_rejected no_int no_float no_case
                         [] gemini_fs "UnknownVendor" None None None None
                         no_kwargs ∅ Hnot))
           (vars_of_lines (definitions gemini_dotenv) ∅)).
  vm_compute. reflexivity.
Defined.


(** The request [vision] sends for a provider configured with the
    temperature 1.5: one request, with the temperature [0.1]. *)
Example openai_vision_request_sent :
  temperature (config (sample_provider OpenAI)) = Finite 1.5 /\
  sent (ext (snd (@vision unit answering [Byte.x01] "read" "png"
                    (sample_provider OpenAI) quiet)))
  = [(OpenAI,
      ChatCompletionsCreate "gpt-4o"
        [mkMessage "user"
           (PartsContent [ImageUrlPart "data:image/png;base64,AQ==" (Some "high");
                          TextPart "read"])]
        4096 (Finite 0.1) None)].
Proof. split; reflexivity. Qed.

(** With a negative [retry_delay] the first sleep is refused, and the
    error of [time.sleep] leaves the loop after one invocation. *)
Example negative_delay_stops_retrying :
  @_retry_with_backoff nat string steady
    (mkProviderConfig "" "" "" "" 4096 (Finite 0.7) (Finite 0.9) 3
       (Finite (-1)) ∅)
    "qwen" always_failing (mkWorld 0%nat [])
  = (Raise (Exn ValueError "sleep length must be non-negative"),
     mkWorld 1%nat [EvInvoke; EvPrintRetry 1 3 (Finite (-1)) "timed out"]).
Proof. reflexivity. Qed.
(* ===================================================================== *)
(** * More on the retry loop *)
(* ===================================================================== *)

Section RetryMore.

Context {S A : Type} {clock : Clock S}.
Variable cfg : ProviderConfig.
Variable self_name : string.
Variable func : S -> result A * S.


(** Whatever the call and [time.sleep] do, an iteration of the loop adds
    to the trace at most one invocation, and a sleep only when another
    iteration follows. *)
Lemma attempts_bounded (n : nat) :
  forall attempt last (w : World S),
    (attempt + Z.of_nat n = max_retries cfg)%Z ->
    exists new,
      trace (snd (attempts cfg func n attempt last w))
      = (trace w ++ new)%list /\
      (invocations new <= n)%nat /\
      (length (sleeps new) <= n - 1)%nat /\
      (length (sleeps new) <= invocations new)%nat.
Proof.
  induction n as [|n IH]; intros attempt last w Hsum.
  - exists []. cbn. rewrite app_nil_r. repeat split; lia.
  - cbn [attempts]. unfold bind at 1, emit, outside. cbn [ext trace].
    destruct (func (ext w)) as [[v|e] s'].
    + exists [EvInvoke]. cbn. repeat split; lia.
    + destruct (is_Exception e).
      * unfold bind at 1.
        assert (Hstep : exists step,
                   trace (snd (on_exception cfg attempt e
                                 (mkWorld s' (trace w ++ [EvInvoke])%list)))
                   = ((trace w ++ [EvInvoke]) ++ step)%list /\
                   invocations step = 0%nat /\
                   (length (sleeps step) <= 1)%nat /\
                   (n = 0%nat -> sleeps step = [])).
        { destruct (Z_lt_ge_dec attempt (max_retries cfg - 1)) as [Hlt|Hge].
          - destruct (on_exception_effect cfg attempt e
                        (mkWorld s' (trace w ++ [EvInvoke])%list))
              as (_ & step & Ht & Hi0 & Hs1 & _).
            exists step. cbn [trace] in Ht.
            repeat split; try assumption. lia.
          - rewrite on_exception_final by lia.
            exists []. cbn. rewrite app_nil_r. repeat split; lia. }
        destruct (on_exception cfg attempt e
                    (mkWorld s' (trace w ++ [EvInvoke])%list))
          as [r1 w1] eqn:Hh.
        cbn [snd] in Hstep.
        destruct Hstep as (step & Ht & Hi0 & Hs1 & Hlast).
        destruct r1 as [u|e1].
        -- destruct (IH (attempt + 1)%Z (Some e) w1 ltac:(lia))
             as (new & Hnew & Hin & Hsl & Hle).
           exists ([EvInvoke] ++ step ++ new)%list.
           rewrite Hnew, Ht, <- !app_assoc. split; [reflexivity|].
           rewrite !invocations_app, !sleeps_app, !length_app. cbn.
           destruct n as [|n].
           ++ rewrite (Hlast eq_refl). cbn. repeat split; lia.
           ++ repeat split; lia.
        -- cbn [snd]. exists ([EvInvoke] ++ step)%list.
           rewrite Ht, <- !app_assoc. split; [reflexivity|].
           rewrite !invocations_app, !sleeps_app, !length_app. cbn.
           destruct n as [|n].
           ++ rewrite (Hlast eq_refl). cbn. repeat split; lia.
           ++ repeat split; lia.
      * exists [EvInvoke]. cbn. repeat split; lia.
Qed.

End RetryMore.



(** X3. Whatever the wrapped call does, [_retry_with_backoff] invokes it
    at most [max_retries] times (never, when that is not positive) and
    sleeps at most once per invocation but the last. *)
Theorem retry_never_exceeds_max_retries {S A : Type} {clock : Clock S}
    (self : AIProvider) (func : S -> result A * S) (w : World S) :
  exists new,
    trace (snd (_retry_with_backoff (config self) (name (kind self)) func w))
    = (trace w ++ new)%list /\
    (invocations new <= Z.to_nat (max_retries (config self)))%nat /\
    (length (sleeps new) <= Z.to_nat (max_retries (config self)) - 1)%nat /\
    (length (sleeps new) <= invocations new)%nat.
Proof.
  destruct (Z_le_gt_dec (max_retries (config self)) 0) as [Hle|Hgt].
  - rewrite retry_without_attempts by exact Hle.
    exists []. cbn. rewrite app_nil_r. repeat split; lia.
  - destruct (attempts_bounded (config self) func
                (Z.to_nat (max_retries (config self))) 0%Z None w
                ltac:(lia)) as (new & Hnew & Hb).
    exists new. split; [|exact Hb].
    rewrite <- Hnew. unfold _retry_with_backoff, bind.
    destruct (attempts (config self) func
                (Z.to_nat (max_retries (config self))) 0 None w)
      as [[[v|last]|e] w1]; reflexivity.
Qed.



(* ===================================================================== *)
(** * More on the providers *)
(* ===================================================================== *)

Lemma post_init_temperature_range (c : ProviderConfig) :
  in_interval 0 2 (temperature (__post_init__ c)).
Proof.
  rewrite post_init_temperature.
  destruct (float_between (Finite 0) (temperature c) (Finite 2)) eqn:E.
  - apply float_between_spec. exact E.
  - exists 0.7%Q. split; [reflexivity|].
    split; unfold Qle; simpl; lia.
Qed.

Lemma post_init_top_p_range (c : ProviderConfig) :
  in_interval 0 1 (top_p (__post_init__ c)).
Proof.
  rewrite post_init_top_p.
  destruct (float_between (Finite 0) (top_p c) (Finite 1)) eqn:E.
  - apply float_between_spec. exact E.
  - exists 0.9%Q. split; [reflexivity|].
    split; unfold Qle; simpl; lia.
Qed.

Lemma post_init_max_tokens_range (c : ProviderConfig) :
  (1 <= max_tokens (__post_init__ c))%Z.
Proof.
  rewrite post_init_max_tokens.
  destruct (max_tokens c <? 1)%Z eqn:E; [lia|].
  apply Z.ltb_ge in E. exact E.
Qed.

(** What a chat request carries comes from the config. *)
Lemma chat_request_parameters (self : AIProvider) prompt system_prompt req :
  chat_request self prompt system_prompt = Ret req ->
  request_temperature req = temperature (config self) /\
  request_max_tokens req = max_tokens (config self).
Proof.
  unfold chat_request.
  destruct (kind self); cbv beta delta [QwenProvider.chat_request
    GeminiProvider.chat_request OpenAIProvider.chat_request
    AnthropicProvider.chat_request OllamaProvider.chat_request
    OllamaProvider._make_request] zeta.
  - intros E. inversion E. split; reflexivity.
  - destruct (_language_model self); intros E; inversion E. split; reflexivity.
  - intros E. inversion E. split; reflexivity.
  - intros E. inversion E. split; reflexivity.
  - destruct (_base_url self); intros E; inversion E. split; reflexivity.
Qed.

Lemma vision_request_max_tokens (self : AIProvider) image_data prompt
    image_format req :
  vision_request self image_data prompt image_format = Ret req ->
  request_max_tokens req = max_tokens (config self).
Proof.
  unfold vision_request.
  destruct (kind self); cbv beta delta [QwenProvider.vision_request
    GeminiProvider.vision_request OpenAIProvider.vision_request
    AnthropicProvider.vision_request OllamaProvider.vision_request
    OllamaProvider._make_request] zeta.
  - intros E. inversion E. reflexivity.
  - destruct (_vision_model self); intros E; inversion E. reflexivity.
  - intros E. inversion E. reflexivity.
  - intros E. inversion E. reflexivity.
  - destruct (_base_url self); intros E; inversion E. reflexivity.
Qed.

(** X6. A provider whose config came out of the [ProviderConfig]
    constructor never sends an out-of-range parameter: every chat request
    carries the configured temperature, which lies between 0 and 2, and
    every chat and vision request carries the configured [max_tokens],
    which is at least 1. *)
Theorem constructed_config_bounds_requests {S : Type} `{Outside S}
    (a : ConfigArgs) (self : AIProvider) (prompt : string)
    (system_prompt : option string) (image_data : list Byte.byte)
    (image_format : string) (w : World (Wire S)) :
  new_ProviderConfig a = Ret (config self) ->
  (exists new,
     sent (ext (snd (chat prompt system_prompt self w)))
     = (sent (ext w) ++ new)%list /\
     Forall (fun kr =>
               request_temperature (snd kr) = temperature (config self) /\
               in_interval 0 2 (request_temperature (snd kr)) /\
               request_max_tokens (snd kr) = max_tokens (config self) /\
               (1 <= request_max_tokens (snd kr))%Z) new) /\
  (exists new,
     sent (ext (snd (vision image_data prompt image_format self w)))
     = (sent (ext w) ++ new)%list /\
     Forall (fun kr =>
               request_max_tokens (snd kr) = max_tokens (config self) /\
               (1 <= request_max_tokens (snd kr))%Z) new).
Proof.
  intros Hc. unfold new_ProviderConfig in Hc. inversion Hc as [Hcfg].
  split.
  - destruct (chat prompt system_prompt self w) as [[r self'] w'] eqn:Hv.
    apply chat_sent in Hv as (Hk & Hcs & new & Hsent & Hall).
    exists new. split; [exact Hsent|].
    eapply Forall_impl; [exact Hall|].
    intros kr [_ Hreq]. apply chat_request_parameters in Hreq as [Ht Hm].
    rewrite Ht, Hm, Hcs, <- Hcfg.
    repeat split.
    + apply post_init_temperature_range.
    + apply post_init_max_tokens_range.
  - destruct (vision image_data prompt image_format self w)
      as [[r self'] w'] eqn:Hv.
    apply vision_sent in Hv as (Hk & Hcs & new & Hsent & Hall).
    exists new. split; [exact Hsent|].
    eapply Forall_impl; [exact Hall|].
    intros kr [_ Hreq]. apply vision_request_max_tokens in Hreq.
    rewrite Hreq, Hcs, <- Hcfg.
    split; [reflexivity | apply post_init_max_tokens_range].
Qed.

Lemma chat_request_empty_system (self : AIProvider) (prompt : string) :
  chat_request self prompt (Some "") = chat_request self prompt None.
Proof.
  unfold chat_request. destruct (kind self); reflexivity.
Qed.

(** X7. For all five providers an empty system prompt is no system
    prompt: [chat] does with it exactly what it does without one. *)
Theorem chat_empty_system_prompt_is_none {S : Type} `{Outside S}
    (self : AIProvider) (prompt : string) (w : World (Wire S)) :
  chat prompt (Some "") self w = chat prompt None self w.
Proof.
  unfold chat.
  destruct (ensure_client self w) as [[[u|e] self1] w1]; [|reflexivity].
  rewrite chat_request_empty_system. reflexivity.
Qed.

(** X8. The Qwen, OpenAI, Anthropic and Ollama providers initialise
    their client once: after an initialisation that succeeded [_client]
    is set, and the check that precedes every call neither imports,
    constructs nor probes again. *)
Theorem client_is_initialised_once {S : Type} `{Outside S}
    (self self1 : AIProvider) (w w1 : World (Wire S)) :
  kind self <> Gemini ->
  ensure_client self w = (Ret tt, self1, w1) ->
  _client self1 = true /\
  forall w2 : World (Wire S), ensure_client self1 w2 = (Ret tt, self1, w2).
Proof.
  intros Hk Hinit.
  assert (Hset : _client self1 = true).
  { revert Hinit. unfold ensure_client.
    destruct (_client self) eqn:Hc.
    - intros E. inversion E. subst. exact Hc.
    - unfold _initialize_client, _initialize_sdk_client, _initialize_ollama,
        on_vendor, outside.
      destruct (kind self) eqn:K; try congruence;
        try (destruct (sdk_importable _ (vendor (ext w)));
             [destruct (make_client self (vendor (ext w))) as [[u|e] s'] |];
             intros E; inversion E; subst; reflexivity).
      destruct (urlopen_tags _ (vendor (ext w))) as [[status|e|e] s'];
        [destruct (status =? 200)%Z | |];
        intros E; inversion E; subst; reflexivity. }
  split; [exact Hset|].
  intros w2. unfold ensure_client. rewrite Hset. reflexivity.
Qed.

(** X9. The Gemini provider never sets [_client]: whatever a [chat] or
    [vision] call does, the attribute is afterwards what it was before,
    so a Gemini provider initialises its client again on every call. *)
Theorem gemini_never_marks_client {S : Type} `{Outside S}
    (self : AIProvider) (prompt : string) (system_prompt : option string)
    (image_data : list Byte.byte) (image_format : string)
    (w : World (Wire S)) :
  kind self = Gemini ->
  _client (snd (fst (chat prompt system_prompt self w))) = _client self /\
  _client (snd (fst (vision image_data prompt image_format self w)))
  = _client self.
Proof.
  intros K.
  assert (Hinit : forall r self1 w1,
             ensure_client self w = (r, self1, w1) ->
             _client self1 = _client self).
  { intros r self1 w1. unfold ensure_client.
    destruct (_client self) eqn:Hc.
    - intros E. inversion E. subst. exact Hc.
    - unfold _initialize_client, _initialize_sdk_client, on_vendor, outside.
      rewrite K.
      destruct (sdk_importable _ (vendor (ext w)));
        [destruct (make_client self (vendor (ext w))) as [[u|e] s'] |];
        intros E; inversion E; subst; simpl; congruence. }
  split.
  - unfold chat.
    destruct (ensure_client self w) as [[[u|e] self1] w1] eqn:E.
    + unfold call_with_retry.
      destruct (_retry_with_backoff _ _ _ w1) as [r w']. simpl.
      apply (Hinit _ _ _ eq_refl).
    + simpl. apply (Hinit _ _ _ eq_refl).
  - unfold vision.
    destruct (ensure_client self w) as [[[u|e] self1] w1] eqn:E.
    + unfold call_with_retry.
      destruct (_retry_with_backoff _ _ _ w1) as [r w']. simpl.
      apply (Hinit _ _ _ eq_refl).
    + simpl. apply (Hinit _ _ _ eq_refl).
Qed.

(** X10. A missing SDK is not retried: on a Qwen, Gemini, OpenAI or
    Anthropic provider without a client, when the package cannot be
    imported, [chat] and [vision] raise the [ImportError] with the install
    hint and leave the provider and the world as they were. *)
Theorem missing_sdk_is_not_retried {S : Type} `{Outside S}
    (self : AIProvider) (prompt : string) (system_prompt : option string)
    (image_data : list Byte.byte) (image_format : string)
    (w : World (Wire S)) :
  kind self <> Ollama ->
  _client self = false ->
  sdk_importable (kind self) (vendor (ext w)) = false ->
  chat prompt system_prompt self w = (Raise (import_error (kind self)), self, w) /\
  vision image_data prompt image_format self w
  = (Raise (import_error (kind self)), self, w) /\
  exn_cls (import_error (kind self)) = ImportError /\
  occurs_in "Install with: pip install" (exn_str (import_error (kind self))).
Proof.
  intros Hk Hc Himp.
  assert (Hinit : ensure_client self w
                  = (Raise (import_error (kind self)), self, w)).
  { unfold ensure_client. rewrite Hc.
    unfold _initialize_client, _initialize_sdk_client.
    destruct (kind self) eqn:K; try congruence; rewrite Himp; reflexivity. }
  unfold chat, vision. rewrite Hinit.
  split; [reflexivity|]. split; [reflexivity|]. split; [reflexivity|].
  apply contains_spec.
  destruct (kind self); try congruence; reflexivity.
Qed.

(** X11. An Ollama server that cannot be reached is not retried: on an
    Ollama provider without a client, when the probe of [/api/tags] ends
    in a [URLError], [chat] and [vision] raise a [ConnectionError] that
    names the endpoint, send nothing, trace nothing and leave [_client]
    unset. *)
Theorem unreachable_ollama_is_not_retried {S : Type} `{Outside S}
    (self : AIProvider) (prompt : string) (system_prompt : option string)
    (image_data : list Byte.byte) (image_format : string)
    (w : World (Wire S)) (reason : string) (s' : S) :
  kind self = Ollama ->
  _client self = false ->
  urlopen_tags (ollama_base self ++ "/api/tags") (vendor (ext w))
  = (ProbeURLError reason, s') ->
  let failure :=
    (Raise (Exn ConnectionError
              ("Cannot connect to Ollama at " ++ ollama_base self ++ ". "
               ++ "Make sure Ollama is running: ollama serve" ++ newline
               ++ "Error: " ++ reason)),
     set_base_url (ollama_base self) self,
     mkWorld (mkWire s' (sent (ext w))) (trace w)) in
  chat prompt system_prompt self w = failure /\
  vision image_data prompt image_format self w = failure /\
  _client (set_base_url (ollama_base self) self) = false.
Proof.
  intros K Hc Hprobe failure.
  assert (Hinit : ensure_client self w
                  = (Raise (Exn ConnectionError
                              ("Cannot connect to Ollama at "
                               ++ ollama_base self ++ ". "
                               ++ "Make sure Ollama is running: ollama serve"
                               ++ newline ++ "Error: " ++ reason)),
                     set_base_url (ollama_base self) self,
                     mkWorld (mkWire s' (sent (ext w))) (trace w))).
  { unfold ensure_client. rewrite Hc.
    unfold _initialize_client. rewrite K.
    unfold _initialize_ollama, outside. fold (ollama_base self).
    rewrite Hprobe. reflexivity. }
  unfold chat, vision. rewrite Hinit. unfold failure.
  split; [reflexivity|]. split; [reflexivity|]. exact Hc.
Qed.

(** X12. [OpenAIProvider.supports_vision] is true exactly when the
    lowercased [vision_model] contains [gpt-4o], [gpt-4-turbo] or
    [gpt-4-vision]. *)
Theorem openai_supports_vision_iff (self : AIProvider) :
  OpenAIProvider.supports_vision self = true <->
  exists m, In m ["gpt-4o"; "gpt-4-turbo"; "gpt-4-vision"] /\
            occurs_in m (PyStr.lower (vision_model (config self))).
Proof.
  unfold OpenAIProvider.supports_vision, OpenAIProvider.vision_models.
  rewrite existsb_exists. split.
  - intros (m & Hin & Hc). exists m. split; [exact Hin|].
    apply contains_spec. exact Hc.
  - intros (m & Hin & Hc). exists m. split; [exact Hin|].
    apply contains_spec. exact Hc.
Qed.

Section SendCount.

Context {S : Type} `{Outside S}.

Lemma call_sent_count (self : AIProvider) (req : result request) (n : Wire S) :
  exists new,
    sent (snd (_call self req n)) = (sent n ++ new)%list /\
    (length new <= 1)%nat.
Proof.
  unfold _call. destruct req as [q|e].
  - unfold send. destruct (transport self q (vendor n)) as [r0 s'].
    exists [(kind self, q)]. split; [reflexivity | simpl; lia].
  - exists []. simpl. rewrite app_nil_r. split; [reflexivity | lia].
Qed.

(** An iteration of the loop puts at most one request on the wire. *)
Lemma attempts_sent_count (cfg : ProviderConfig) (self : AIProvider)
    (req : result request) (n : nat) :
  forall attempt last (w : World (Wire S)),
    exists new,
      sent (ext (snd (attempts cfg (_call self req) n attempt last w)))
      = (sent (ext w) ++ new)%list /\
      (length new <= n)%nat.
Proof.
  induction n as [|n IH]; intros attempt last w.
  - exists []. simpl. rewrite app_nil_r. split; [reflexivity | lia].
  - cbn [attempts]. unfold bind at 1, emit, outside. cbn [ext trace].
    destruct (call_sent_count self req (ext w)) as (new0 & Hs0 & Hl0).
    destruct (_call self req (ext w)) as [[v|e] n0]; cbn [snd] in Hs0.
    + exists new0. cbn. split; [exact Hs0 | lia].
    + destruct (is_Exception e).
      * unfold bind.
        destruct (on_exception cfg attempt e
                    (mkWorld n0 (trace w ++ [EvInvoke])%list)) as [r1 w1] eqn:Hh.
        apply on_exception_ext in Hh. cbn [ext] in Hh.
        destruct r1 as [u|e1].
        -- destruct (IH (attempt + 1)%Z (Some e) w1) as (new1 & Hs1 & Hl1).
           exists (new0 ++ new1)%list. rewrite Hs1, Hh, Hs0, app_assoc.
           split; [reflexivity|]. rewrite length_app. lia.
        -- cbn [snd]. rewrite Hh. exists new0. split; [exact Hs0 | lia].
      * cbn. exists new0. split; [exact Hs0 | lia].
Qed.

Lemma retry_sent_count (self : AIProvider) (req : result request)
    (w : World (Wire S)) :
  exists new,
    sent (ext (snd (call_with_retry req self w))) = (sent (ext w) ++ new)%list /\
    (length new <= Z.to_nat (max_retries (config self)))%nat.
Proof.
  unfold call_with_retry, _retry_with_backoff, bind.
  destruct (attempts_sent_count (config self) self req
              (Z.to_nat (max_retries (config self))) 0%Z None w)
    as (new & Hs & Hl).
  destruct (attempts (config self) (_call self req)
              (Z.to_nat (max_retries (config self))) 0 None w)
    as [[[v|last]|e] w1]; exists new; split; assumption.
Qed.

End SendCount.

(** X13. One [chat] or [vision] call puts at most [max_retries] requests
    on the wire, and they are all the same request. *)
Theorem call_repeats_one_request {S : Type} `{Outside S}
    (self : AIProvider) (prompt : string) (system_prompt : option string)
    (image_data : list Byte.byte) (image_format : string)
    (w : World (Wire S)) :
  (exists new,
     sent (ext (snd (chat prompt system_prompt self w)))
     = (sent (ext w) ++ new)%list /\
     (length new <= Z.to_nat (max_retries (config self)))%nat /\
     forall x y, In x new -> In y new -> x = y) /\
  (exists new,
     sent (ext (snd (vision image_data prompt image_format self w)))
     = (sent (ext w) ++ new)%list /\
     (length new <= Z.to_nat (max_retries (config self)))%nat /\
     forall x y, In x new -> In y new -> x = y).
Proof.
  assert (Hsame : forall (self' : AIProvider) (req : result request) new,
             Forall (sent_from self' req) new ->
             forall x y, In x new -> In y new -> x = y).
  { intros self' req new Hall x y Hx Hy.
    rewrite Forall_forall in Hall.
    destruct (Hall x (proj2 (list_elem_of_In _ _) Hx)) as [Hx1 Hx2].
    destruct (Hall y (proj2 (list_elem_of_In _ _) Hy)) as [Hy1 Hy2].
    destruct x as [kx rx], y as [ky ry]. simpl in *.
    f_equal; congruence. }
  split.
  - destruct (chat prompt system_prompt self w) as [[r self'] w'] eqn:Hv.
    pose proof Hv as Hv2.
    apply chat_sent in Hv as (Hk & Hcs & new & Hsent & Hall).
    exists new. split; [exact Hsent|]. split; [|eapply Hsame; exact Hall].
    revert Hv2. unfold chat.
    destruct (ensure_client self w) as [[[u|e] self1] w1] eqn:Hinit.
    + intros E.
      destruct (retry_sent_count self1
                  (chat_request self1 prompt system_prompt) w1)
        as (new1 & Hs1 & Hl1).
      rewrite E in Hs1. cbn [snd] in Hs1.
      apply ensure_client_keeps in Hinit as (_ & Hc1 & Hsw).
      rewrite Hsw in Hs1. rewrite Hsent in Hs1.
      apply app_inv_head in Hs1. subst new1. rewrite <- Hc1. exact Hl1.
    + intros E. inversion E. subst.
      apply ensure_client_keeps in Hinit as (_ & _ & Hsw).
      rewrite Hsw in Hsent.
      assert (new = []) as ->.
      { apply (app_inv_head (sent (ext w))). rewrite app_nil_r.
        symmetry. exact Hsent. }
      simpl. lia.
  - destruct (vision image_data prompt image_format self w)
      as [[r self'] w'] eqn:Hv.
    pose proof Hv as Hv2.
    apply vision_sent in Hv as (Hk & Hcs & new & Hsent & Hall).
    exists new. split; [exact Hsent|]. split; [|eapply Hsame; exact Hall].
    revert Hv2. unfold vision.
    destruct (ensure_client self w) as [[[u|e] self1] w1] eqn:Hinit.
    + intros E.
      destruct (retry_sent_count self1
                  (vision_request self1 image_data prompt image_format) w1)
        as (new1 & Hs1 & Hl1).
      rewrite E in Hs1. cbn [snd] in Hs1.
      apply ensure_client_keeps in Hinit as (_ & Hc1 & Hsw).
      rewrite Hsw in Hs1. rewrite Hsent in Hs1.
      apply app_inv_head in Hs1. subst new1. rewrite <- Hc1. exact Hl1.
    + intros E. inversion E. subst.
      apply ensure_client_keeps in Hinit as (_ & _ & Hsw).
      rewrite Hsw in Hsent.
      assert (new = []) as ->.
      { apply (app_inv_head (sent (ext w))). rewrite app_nil_r.
        symmetry. exact Hsent. }
      simpl. lia.
Qed.

(** X14. [OllamaProvider.validate] never raises a [ConnectionError]: it
    answers [False] instead.  It answers [True] exactly when the server
    answered the probe with status 200, whether or not the client was
    initialised before, and then [_client] is set. *)
Theorem ollama_validate_reports_the_probe {S : Type} `{Outside S}
    (self : AIProvider) (w : World (Wire S)) :
  kind self = Ollama ->
  (forall e, fst (fst (validate self w)) = Raise e ->
             exn_cls e <> ConnectionError) /\
  (fst (fst (validate self w)) = Ret (true, []) <->
   fst (urlopen_tags (ollama_base self ++ "/api/tags") (vendor (ext w)))
   = ProbeStatus 200) /\
  (fst (fst (validate self w)) = Ret (true, []) ->
   _client (snd (fst (validate self w))) = true).
Proof.
  intros K. unfold validate. rewrite K.
  unfold OllamaProvider_validate, _initialize_client. rewrite K.
  unfold _initialize_ollama, outside. fold (ollama_base self).
  destruct (urlopen_tags (ollama_base self ++ "/api/tags") (vendor (ext w)))
    as [[status|reason|e] s']; cbn [fst snd exn_cls].
  - destruct (status =? 200)%Z eqn:E; cbn [fst snd exn_cls].
    + apply Z.eqb_eq in E. subst status.
      split; [discriminate|]. split; [split; reflexivity | reflexivity].
    + apply Z.eqb_neq in E.
      split; [discriminate|]. split; [|discriminate].
      split; [discriminate | intros F; inversion F; congruence].
  - split; [discriminate|]. split; [|discriminate].
    split; discriminate.
  - destruct (exn_cls e) eqn:C; cbn [fst snd];
      (split; [intros e0 E0; inversion E0; congruence || discriminate |]);
      (split; [split; discriminate | discriminate]).
Qed.

(* ===================================================================== *)
(** * More on the factory *)
(* ===================================================================== *)

(** [get_provider] after the load, for a known provider and settings
    that parse: one call of the provider's factory function. *)
Lemma resolve_known (py_int : string -> Z + string)
    (py_float : string -> pyfloat + string)
    (unicode_lower : string -> string)
    (provider_name api_key vision_arg language_arg : option string)
    (kwargs : Kwargs) (env_vars environ : gmap string string)
    (k : provider_kind) (mt : Z) (temp : pyfloat) (mr : Z) (rd : pyfloat) :
  lookup_provider PROVIDERS
    (resolved_name unicode_lower provider_name environ env_vars)
  = Some k ->
  int_setting py_int environ env_vars "MAX_TOKENS" 4096 = Ret mt ->
  float_setting py_float environ env_vars "TEMPERATURE" (Finite 0.7) = Ret temp ->
  int_setting py_int environ env_vars "MAX_RETRIES" 3 = Ret mr ->
  float_setting py_float environ env_vars "RETRY_DELAY" (Finite 1) = Ret rd ->
  resolve py_int py_float unicode_lower provider_name api_key vision_arg
    language_arg kwargs env_vars environ
  = FACTORY_FUNCTIONS k
      (resolved_first_argument k api_key environ env_vars)
      (resolved_model vision_arg environ env_vars
         (PyStr.upper
            (resolved_name unicode_lower provider_name environ env_vars)
          ++ "_VISION_MODEL") (fst (DEFAULT_MODELS k)))
      (resolved_model language_arg environ env_vars
         (PyStr.upper
            (resolved_name unicode_lower provider_name environ env_vars)
          ++ "_LANGUAGE_MODEL") (snd (DEFAULT_MODELS k)))
      (provider_kwargs kwargs mt temp mr rd
         (resolved_base_url k kwargs environ env_vars)) environ.
Proof.
  intros Hk Hmt Htemp Hmr Hrd.
  unfold resolve.
  fold (resolved_name unicode_lower provider_name environ env_vars).
  rewrite Hk, Hmt, Htemp, Hmr, Hrd.
  destruct k; reflexivity.
Qed.

Lemma lookup_provider_name (k : provider_kind) :
  lookup_provider PROVIDERS (name k) = Some k.
Proof. destruct k; reflexivity. Qed.

Lemma lookup_provider_Some (n : string) (k : provider_kind) :
  lookup_provider PROVIDERS n = Some k -> n = name k.
Proof.
  unfold PROVIDERS. cbn [lookup_provider].
  repeat match goal with
         | |- context [String.eqb n ?s] =>
             let E := fresh "E" in
             destruct (String.eqb n s) eqn:E;
             [apply String.eqb_eq in E; intros F; inversion F; subst;
              reflexivity|]
         end.
  discriminate.
Qed.

Lemma lookup_provider_In (n : string) :
  is_Some (lookup_provider PROVIDERS n) <-> In n provider_names.
Proof.
  split.
  - intros [k Hk]. apply lookup_provider_Some in Hk. subst n.
    destruct k; simpl; tauto.
  - intros Hin. simpl in Hin.
    destruct Hin as [<-|[<-|[<-|[<-|[<-|[]]]]]]; eexists; reflexivity.
Qed.

(** What a factory function returns, when it returns. *)
Lemma factory_function_builds (k : provider_kind) (first : option string)
    (vision language : string) (kwargs : Kwargs)
    (environ : gmap string string) (p : AIProvider) :
  FACTORY_FUNCTIONS k first vision language kwargs environ = Ret p ->
  kind p = k /\ _client p = false /\
  exists c0,
    config p = __post_init__ c0 /\
    vision_model c0 = vision /\ language_model c0 = language /\
    max_tokens c0 = default DEFAULT_MAX_TOKENS (kw_max_tokens kwargs) /\
    temperature c0 = default DEFAULT_TEMPERATURE (kw_temperature kwargs) /\
    top_p c0 = default DEFAULT_TOP_P (kw_top_p kwargs) /\
    max_retries c0 = default DEFAULT_MAX_RETRIES (kw_max_retries kwargs) /\
    retry_delay c0 = default DEFAULT_RETRY_DELAY (kw_retry_delay kwargs) /\
    api_key c0
    = match k, api_key_env_map k with
      | Ollama, _ | _, None => ""
      | _, Some var => key_or_environ first var environ
      end /\
    api_base c0
    = match k with
      | Qwen => "https://dashscope.aliyuncs.com/compatible-mode/v1"
      | Ollama =>
          PyStr.or_else
            (default "http://localhost:11434" (kw_base_url kwargs))
            (environ_get environ "OLLAMA_BASE_URL" "http://localhost:11434")
      | _ => default "" (kw_api_base kwargs)
      end.
Proof.
  destruct k; cbn [FACTORY_FUNCTIONS api_key_env_map];
    unfold create_qwen_provider, create_gemini_provider,
      create_openai_provider, create_anthropic_provider,
      create_ollama_provider, config_from, new_ProviderConfig, result_map,
      without_base_url;
    cbn [kw_api_base kw_base_url kw_max_tokens kw_temperature kw_top_p
         kw_max_retries kw_retry_delay kw_extra];
    destruct (kw_api_base kwargs) as [b|] eqn:Hb;
    destruct (kw_base_url kwargs) as [u|] eqn:Hu;
    try discriminate;
    intros E; inversion E; subst; cbn [kind _client config new_provider];
    (split; [reflexivity|]); (split; [reflexivity|]);
    eexists; (split; [reflexivity|]); cbn; rewrite ?Hb; repeat split.
Qed.

Lemma resolve_builds (py_int : string -> Z + string)
    (py_float : string -> pyfloat + string)
    (unicode_lower : string -> string)
    (provider_name api_key vision_arg language_arg : option string)
    (kwargs : Kwargs) (env_vars environ : gmap string string)
    (p : AIProvider) :
  resolve py_int py_float unicode_lower provider_name api_key vision_arg
    language_arg kwargs env_vars environ = Ret p ->
  exists mt temp mr rd,
    lookup_provider PROVIDERS
      (resolved_name unicode_lower provider_name environ env_vars)
    = Some (kind p) /\
    int_setting py_int environ env_vars "MAX_TOKENS" 4096 = Ret mt /\
    float_setting py_float environ env_vars "TEMPERATURE" (Finite 0.7)
    = Ret temp /\
    int_setting py_int environ env_vars "MAX_RETRIES" 3 = Ret mr /\
    float_setting py_float environ env_vars "RETRY_DELAY" (Finite 1) = Ret rd.
Proof.
  intros E.
  destruct (lookup_provider PROVIDERS
              (resolved_name unicode_lower provider_name environ env_vars))
    as [k|] eqn:Hk.
  2:{ unfold resolve in E.
      fold (resolved_name unicode_lower provider_name environ env_vars) in E.
      rewrite Hk in E. discriminate. }
  destruct (int_setting py_int environ env_vars "MAX_TOKENS" 4096)
    as [mt|e1] eqn:H1.
  2:{ unfold resolve in E.
      fold (resolved_name unicode_lower provider_name environ env_vars) in E.
      rewrite Hk, H1 in E. discriminate. }
  destruct (float_setting py_float environ env_vars "TEMPERATURE" (Finite 0.7))
    as [temp|e2] eqn:H2.
  2:{ unfold resolve in E.
      fold (resolved_name unicode_lower provider_name environ env_vars) in E.
      rewrite Hk, H1, H2 in E. discriminate. }
  destruct (int_setting py_int environ env_vars "MAX_RETRIES" 3)
    as [mr|e3] eqn:H3.
  2:{ unfold resolve in E.
      fold (resolved_name unicode_lower provider_name environ env_vars) in E.
      rewrite Hk, H1, H2, H3 in E. discriminate. }
  destruct (float_setting py_float environ env_vars "RETRY_DELAY" (Finite 1))
    as [rd|e4] eqn:H4.
  2:{ unfold resolve in E.
      fold (resolved_name unicode_lower provider_name environ env_vars) in E.
      rewrite Hk, H1, H2, H3, H4 in E. discriminate. }
  rewrite (resolve_known _ _ _ _ _ _ _ _ _ _ k mt temp mr rd Hk H1 H2 H3 H4)
    in E.
  apply factory_function_builds in E as (Hkind & _).
  exists mt, temp, mr, rd. rewrite Hkind. repeat split.
Qed.

(** X15. Every provider [get_provider] returns is fresh and has a
    normalised config: no client is constructed yet, the temperature lies
    between 0 and 2, top_p between 0 and 1, max_tokens is at least 1;
    and its name is the requested name in lowercase. *)
Theorem get_provider_returns_normalised
    (py_int : string -> Z + string) (py_float : string -> pyfloat + string)
    (unicode_lower : string -> string)
    (module_env_paths : list string) (fs : string -> option (list string))
    (provider_name api_key vision_arg language_arg env_file : option string)
    (kwargs : Kwargs) (environ : gmap string string) (p : AIProvider) :
  fst (get_provider py_int py_float unicode_lower module_env_paths fs
         provider_name api_key vision_arg language_arg env_file kwargs
         environ) = Ret p ->
  _client p = false /\
  in_interval 0 2 (temperature (config p)) /\
  in_interval 0 1 (top_p (config p)) /\
  (1 <= max_tokens (config p))%Z /\
  (forall n, provider_name = Some n ->
             name (kind p) = str_lower unicode_lower n).
Proof.
  unfold get_provider.
  destruct (_load_env_file module_env_paths fs env_file environ)
    as [[ev|e] en]; [|discriminate].
  cbn [fst]. intros E.
  pose proof E as E2.
  apply resolve_builds in E2 as (mt & temp & mr & rd & Hk & H1 & H2 & H3 & H4).
  rewrite (resolve_known _ _ _ _ _ _ _ _ _ _ _ mt temp mr rd Hk H1 H2 H3 H4)
    in E.
  apply factory_function_builds in E as (_ & Hc & c0 & Hcfg & _).
  split; [exact Hc|]. rewrite Hcfg.
  split; [apply post_init_temperature_range|].
  split; [apply post_init_top_p_range|].
  split; [apply post_init_max_tokens_range|].
  intros n ->. apply lookup_provider_Some in Hk. symmetry. exact Hk.
Qed.

Lemma is_Ret_true {A : Type} (r : result A) :
  is_Ret r = true -> exists a, r = Ret a.
Proof. destruct r as [a|e]; [eexists; reflexivity | discriminate]. Qed.

(** A factory function returns unless [api_base] is given twice or a
    [base_url] reaches [ProviderConfig]. *)
Lemma factory_function_returns (k : provider_kind) (first : option string)
    (vision language : string) (kwargs : Kwargs)
    (environ : gmap string string) :
  kw_api_base kwargs = None \/ (k <> Qwen /\ k <> Ollama) ->
  kw_base_url kwargs = None \/ k = Ollama ->
  exists p, FACTORY_FUNCTIONS k first vision language kwargs environ = Ret p.
Proof.
  intros Hbase Hurl.
  destruct k; cbn [FACTORY_FUNCTIONS];
    unfold create_qwen_provider, create_gemini_provider,
      create_openai_provider, create_anthropic_provider,
      create_ollama_provider, config_from, new_ProviderConfig, result_map,
      without_base_url;
    cbn [kw_api_base kw_base_url];
    destruct (kw_api_base kwargs) as [b|] eqn:Hb;
    destruct (kw_base_url kwargs) as [u|] eqn:Hu;
    try (eexists; reflexivity);
    try (destruct Hbase as [F|[F1 F2]]; congruence);
    destruct Hurl as [F|F]; congruence.
Qed.

(** [get_provider] for a known provider, a file that loads and settings
    that parse: the provider the factory function builds. *)
Lemma get_provider_known
    (py_int : string -> Z + string) (py_float : string -> pyfloat + string)
    (unicode_lower : string -> string)
    (module_env_paths : list string) (fs : string -> option (list string))
    (provider_name api_key_arg vision_arg language_arg env_file : option string)
    (kwargs : Kwargs) (environ env_vars environ' : gmap string string)
    (k : provider_kind) (mt : Z) (temp : pyfloat) (mr : Z) (rd : pyfloat) :
  _load_env_file module_env_paths fs env_file environ = (Ret env_vars, environ') ->
  lookup_provider PROVIDERS
    (resolved_name unicode_lower provider_name environ' env_vars)
  = Some k ->
  int_setting py_int environ' env_vars "MAX_TOKENS" 4096 = Ret mt ->
  float_setting py_float environ' env_vars "TEMPERATURE" (Finite 0.7)
  = Ret temp ->
  int_setting py_int environ' env_vars "MAX_RETRIES" 3 = Ret mr ->
  float_setting py_float environ' env_vars "RETRY_DELAY" (Finite 1) = Ret rd ->
  kw_api_base kwargs = None \/ (k <> Qwen /\ k <> Ollama) ->
  kw_base_url kwargs = None \/ k = Ollama ->
  exists p c0,
    get_provider py_int py_float unicode_lower module_env_paths fs
      provider_name api_key_arg vision_arg language_arg env_file kwargs
      environ = (Ret p, environ') /\
    kind p = k /\ config p = __post_init__ c0 /\
    max_tokens c0 = default mt (kw_max_tokens kwargs) /\
    temperature c0 = default temp (kw_temperature kwargs) /\
    top_p c0 = default DEFAULT_TOP_P (kw_top_p kwargs) /\
    max_retries c0 = default mr (kw_max_retries kwargs) /\
    retry_delay c0 = default rd (kw_retry_delay kwargs) /\
    api_key c0
    = match k, api_key_env_map k with
      | Ollama, _ | _, None => ""
      | _, Some var =>
          key_or_environ (resolved_first_argument k api_key_arg environ' env_vars)
            var environ'
      end /\
    api_base c0
    = match k with
      | Qwen => "https://dashscope.aliyuncs.com/compatible-mode/v1"
      | Ollama =>
          PyStr.or_else
            (default "http://localhost:11434"
               (resolved_base_url k kwargs environ' env_vars))
            (environ_get environ' "OLLAMA_BASE_URL" "http://localhost:11434")
      | _ => default "" (kw_api_base kwargs)
      end.
Proof.
  intros Hload Hk H1 H2 H3 H4 Hbase Hurl.
  unfold get_provider. rewrite Hload.
  rewrite (resolve_known _ _ _ _ _ _ _ _ _ _ k mt temp mr rd Hk H1 H2 H3 H4).
  destruct (factory_function_returns k
              (resolved_first_argument k api_key_arg environ' env_vars)
              (resolved_model vision_arg environ' env_vars
                 (PyStr.upper
                    (resolved_name unicode_lower provider_name environ'
                       env_vars)
                  ++ "_VISION_MODEL") (fst (DEFAULT_MODELS k)))
              (resolved_model language_arg environ' env_vars
                 (PyStr.upper
                    (resolved_name unicode_lower provider_name environ'
                       env_vars)
                  ++ "_LANGUAGE_MODEL") (snd (DEFAULT_MODELS k)))
              (provider_kwargs kwargs mt temp mr rd
                 (resolved_base_url k kwargs environ' env_vars))
              environ' Hbase)
    as [p Hp].
  { destruct Hurl as [Hu | ->]; [|right; reflexivity].
    destruct k; [left; exact Hu | left; exact Hu | left; exact Hu
                | left; exact Hu | right; reflexivity]. }
  rewrite Hp.
  apply factory_function_builds in Hp
    as (Hkind & _ & c0 & Hcfg & _ & _ & Hmt & Ht & Htp & Hmr & Hrd & Hkey & Hb).
  exists p, c0. split; [reflexivity|]. split; [exact Hkind|].
  split; [exact Hcfg|].
  cbn [provider_kwargs kw_max_tokens kw_temperature kw_top_p kw_max_retries
       kw_retry_delay kw_api_base kw_base_url default]
    in Hmt, Ht, Htp, Hmr, Hrd, Hb.
  repeat split; assumption.
Qed.

Lemma or_else_same (s : string) : PyStr.or_else s s = s.
Proof. destruct s; reflexivity. Qed.

(** X16. For the Qwen, Gemini, OpenAI and Anthropic providers, called
    without the keywords [api_base] and [base_url], the API key of the
    provider [get_provider] returns is the explicit argument if that is
    not empty, and otherwise the provider's own variable in the
    environment after the load (a process variable before a [.env]
    value), or the empty string; [validate] on the provider answers
    whether that key is non-empty. *)
Theorem api_key_resolution
    (py_int : string -> Z + string) (py_float : string -> pyfloat + string)
    (unicode_lower : string -> string)
    (module_env_paths : list string) (fs : string -> option (list string))
    (n : string) (k : provider_kind) (var : string)
    (api_key_arg vision_arg language_arg env_file : option string)
    (kwargs : Kwargs) (environ env_vars environ' : gmap string string) :
  str_lower unicode_lower n = name k ->
  api_key_env_map k = Some var ->
  kw_api_base kwargs = None ->
  kw_base_url kwargs = None ->
  _load_env_file module_env_paths fs env_file environ = (Ret env_vars, environ') ->
  settings_parse py_int py_float environ' env_vars ->
  exists p,
    get_provider py_int py_float unicode_lower module_env_paths fs (Some n)
      api_key_arg vision_arg language_arg env_file kwargs environ
    = (Ret p, environ') /\
    kind p = k /\
    api_key (config p)
    = match api_key_arg with
      | Some (String c s) => String c s
      | _ => environ_get environ' var ""
      end /\
    (forall v, environ !! var = Some v -> environ_get environ' var "" = v) /\
    fst (AIProvider_validate p) = PyStr.truthy (api_key (config p)).
Proof.
  intros Hn Hvar Hbase Hurl Hload (P1 & P2 & P3 & P4).
  apply is_Ret_true in P1 as [mt H1]. apply is_Ret_true in P2 as [temp H2].
  apply is_Ret_true in P3 as [mr H3]. apply is_Ret_true in P4 as [rd H4].
  pose proof (load_env_file_covered _ _ _ _ _ _ Hload) as Hcov.
  assert (Hk : lookup_provider PROVIDERS
                 (resolved_name unicode_lower (Some n) environ' env_vars)
               = Some k).
  { unfold resolved_name. rewrite Hn. apply lookup_provider_name. }
  destruct (get_provider_known py_int py_float unicode_lower module_env_paths
              fs (Some n) api_key_arg vision_arg language_arg env_file kwargs
              environ env_vars environ' k mt temp mr rd Hload Hk H1 H2 H3 H4
              (or_introl Hbase) (or_introl Hurl))
    as (p & c0 & E & Hkind & Hcfg & _ & _ & _ & _ & _ & Hkey & _).
  exists p. split; [exact E|]. split; [exact Hkind|].
  assert (Hapi : api_key (config p)
                 = match api_key_arg with
                   | Some (String c s) => String c s
                   | _ => environ_get environ' var ""
                   end).
  { rewrite Hcfg. cbn [__post_init__ api_key]. rewrite Hkey.
    unfold resolved_first_argument, key_or_environ.
    destruct k; cbn in Hvar; try discriminate; inversion Hvar; subst var;
      cbn [api_key_env_map PyStr.truthy];
      rewrite ?layered_get_covered by exact Hcov;
      destruct api_key_arg as [[|c s]|]; cbn [default];
      try reflexivity; apply or_else_same. }
  split; [exact Hapi|]. split.
  - intros v Hv. unfold environ_get.
    rewrite (load_env_file_keeps _ _ _ _ _ _ _ _ Hload Hv). reflexivity.
  - unfold AIProvider_validate. rewrite Hkind.
    destruct (PyStr.truthy (api_key (config p))); [reflexivity|].
    destruct k; try discriminate; reflexivity.
Qed.

(** X17. For the Ollama provider, called without the keyword
    [api_base], [get_provider] ignores the [api_key] argument: the key
    of the provider is empty.  Its [api_base] is the value of
    [OLLAMA_BASE_URL] after the load when that is set and not empty;
    otherwise the keyword [base_url] when that is passed and not empty;
    otherwise the local endpoint, except that an empty [base_url]
    keyword together with a variable set to the empty string gives the
    empty string. *)
Theorem ollama_resolution
    (py_int : string -> Z + string) (py_float : string -> pyfloat + string)
    (unicode_lower : string -> string)
    (module_env_paths : list string) (fs : string -> option (list string))
    (n : string)
    (api_key_arg vision_arg language_arg env_file : option string)
    (kwargs : Kwargs) (environ env_vars environ' : gmap string string) :
  str_lower unicode_lower n = "ollama" ->
  kw_api_base kwargs = None ->
  _load_env_file module_env_paths fs env_file environ = (Ret env_vars, environ') ->
  settings_parse py_int py_float environ' env_vars ->
  exists p,
    get_provider py_int py_float unicode_lower module_env_paths fs (Some n)
      api_key_arg vision_arg language_arg env_file kwargs environ
    = (Ret p, environ') /\
    kind p = Ollama /\
    api_key (config p) = "" /\
    api_base (config p)
    = match environ' !! "OLLAMA_BASE_URL", kw_base_url kwargs with
      | Some (String c s), _ => String c s
      | _, Some (String c s) => String c s
      | Some "", Some "" => ""
      | _, _ => "http://localhost:11434"
      end.
Proof.
  intros Hn Hbase Hload (P1 & P2 & P3 & P4).
  apply is_Ret_true in P1 as [mt H1]. apply is_Ret_true in P2 as [temp H2].
  apply is_Ret_true in P3 as [mr H3]. apply is_Ret_true in P4 as [rd H4].
  pose proof (load_env_file_covered _ _ _ _ _ _ Hload) as Hcov.
  assert (Hk : lookup_provider PROVIDERS
                 (resolved_name unicode_lower (Some n) environ' env_vars)
               = Some Ollama).
  { unfold resolved_name. rewrite Hn. reflexivity. }
  destruct (get_provider_known py_int py_float unicode_lower module_env_paths
              fs (Some n) api_key_arg vision_arg language_arg env_file kwargs
              environ env_vars environ' Ollama mt temp mr rd Hload Hk H1 H2 H3
              H4 (or_introl Hbase) (or_intror eq_refl))
    as (p & c0 & E & Hkind & Hcfg & _ & _ & _ & _ & _ & Hkey & Hb).
  exists p. split; [exact E|]. split; [exact Hkind|].
  rewrite Hcfg. cbn [__post_init__ api_key api_base].
  split; [exact Hkey|]. rewrite Hb.
  unfold resolved_base_url, environ_get.
  destruct (environ' !! "OLLAMA_BASE_URL") as [[|c s]|] eqn:Hu;
    rewrite ?(Hcov _ Hu);
    destruct (kw_base_url kwargs) as [[|c' s']|]; reflexivity.
Qed.

(** X18. A numeric keyword passed to [get_provider] wins over the
    shared variable of the environment: the provider has the
    [max_retries] and [retry_delay] of the keywords where they are given
    and those of the environment (3 and 1.0 when unset) where they are
    not, and neither is checked against any range.  The call passes no
    [api_base] keyword and, for a provider other than Ollama, no
    [base_url]. *)
Theorem keywords_override_environment
    (py_int : string -> Z + string) (py_float : string -> pyfloat + string)
    (unicode_lower : string -> string)
    (module_env_paths : list string) (fs : string -> option (list string))
    (n : string) (k : provider_kind)
    (api_key_arg vision_arg language_arg env_file : option string)
    (kwargs : Kwargs) (environ env_vars environ' : gmap string string)
    (mt : Z) (temp : pyfloat) (mr : Z) (rd : pyfloat) :
  str_lower unicode_lower n = name k ->
  kw_api_base kwargs = None ->
  kw_base_url kwargs = None \/ k = Ollama ->
  _load_env_file module_env_paths fs env_file environ = (Ret env_vars, environ') ->
  int_setting py_int environ' env_vars "MAX_TOKENS" 4096 = Ret mt ->
  float_setting py_float environ' env_vars "TEMPERATURE" (Finite 0.7)
  = Ret temp ->
  int_setting py_int environ' env_vars "MAX_RETRIES" 3 = Ret mr ->
  float_setting py_float environ' env_vars "RETRY_DELAY" (Finite 1) = Ret rd ->
  exists p,
    get_provider py_int py_float unicode_lower module_env_paths fs (Some n)
      api_key_arg vision_arg language_arg env_file kwargs environ
    = (Ret p, environ') /\
    max_retries (config p) = default mr (kw_max_retries kwargs) /\
    retry_delay (config p) = default rd (kw_retry_delay kwargs) /\
    (environ' !! "MAX_RETRIES" = None -> mr = 3%Z) /\
    (environ' !! "RETRY_DELAY" = None -> rd = Finite 1).
Proof.
  intros Hn Hbase Hurl Hload H1 H2 H3 H4.
  pose proof (load_env_file_covered _ _ _ _ _ _ Hload) as Hcov.
  assert (Hk : lookup_provider PROVIDERS
                 (resolved_name unicode_lower (Some n) environ' env_vars)
               = Some k).
  { unfold resolved_name. rewrite Hn. apply lookup_provider_name. }
  destruct (get_provider_known py_int py_float unicode_lower module_env_paths
              fs (Some n) api_key_arg vision_arg language_arg env_file kwargs
              environ env_vars environ' k mt temp mr rd Hload Hk H1 H2 H3 H4
              (or_introl Hbase) Hurl)
    as (p & c0 & E & Hkind & Hcfg & _ & _ & _ & Hmr & Hrd & _).
  exists p. split; [exact E|]. rewrite Hcfg.
  rewrite post_init_max_retries, post_init_retry_delay.
  split; [exact Hmr|]. split; [exact Hrd|]. split.
  - intros Hnone. unfold int_setting in H3.
    rewrite Hnone, (Hcov _ Hnone) in H3. congruence.
  - intros Hnone. unfold float_setting in H4.
    rewrite Hnone, (Hcov _ Hnone) in H4. congruence.
Qed.

(** X19. A shared numeric variable that does not parse makes
    [get_provider] raise the [ValueError] of [int] for every known
    provider, also when the same setting is passed as a keyword: the
    variable is converted before the keywords are looked at. *)
Theorem malformed_setting_raises
    (py_int : string -> Z + string) (py_float : string -> pyfloat + string)
    (unicode_lower : string -> string)
    (module_env_paths : list string) (fs : string -> option (list string))
    (provider_name api_key_arg vision_arg language_arg env_file : option string)
    (kwargs : Kwargs) (environ env_vars environ' : gmap string string)
    (s text : string) :
  _load_env_file module_env_paths fs env_file environ = (Ret env_vars, environ') ->
  In (resolved_name unicode_lower provider_name environ' env_vars)
    provider_names ->
  environ' !! "MAX_TOKENS" = Some s ->
  py_int s = inr text ->
  get_provider py_int py_float unicode_lower module_env_paths fs provider_name
    api_key_arg vision_arg language_arg env_file kwargs environ
  = (Raise (Exn ValueError text), environ').
Proof.
  intros Hload Hin Hs Hbad.
  apply lookup_provider_In in Hin as [k Hk].
  unfold get_provider. rewrite Hload. unfold resolve.
  fold (resolved_name unicode_lower provider_name environ' env_vars).
  rewrite Hk.
  unfold int_setting at 1. rewrite Hs, Hbad. reflexivity.
Qed.

(* ===================================================================== *)
(** * More on the [.env] file *)
(* ===================================================================== *)

Lemma setdefault_present (key value : string) (X : gmap string string) :
  is_Some (X !! key) -> environ_setdefault key value X = Ret X.
Proof.
  intros [v Hv]. unfold environ_setdefault. rewrite Hv. reflexivity.
Qed.

Section EnvFileMore.

Variable module_env_paths : list string.
Variable fs : string -> option (list string).

Lemma load_line_again line env_vars environ env_vars' environ'
    (X : gmap string string) :
  load_line line (env_vars, environ) = (Ret env_vars', environ') ->
  (forall k, is_Some (environ' !! k) -> is_Some (X !! k)) ->
  load_line line (env_vars, X) = (Ret env_vars', X).
Proof.
  unfold load_line.
  destruct (negb (PyStr.truthy (PyStr.strip line))
            || PyStr.startswith_char "#" (PyStr.strip line)).
  - intros E _. inversion E. reflexivity.
  - destruct (PyStr.split_once "=" (PyStr.strip line)) as [[key value]|].
    + destruct (environ_setdefault _ _ environ) as [en|e] eqn:Hset;
        [|discriminate].
      intros E HX. inversion E. subst.
      rewrite setdefault_present; [reflexivity|].
      apply HX. apply setdefault_defines in Hset.
      destruct (environ' !! PyStr.strip key); [eexists; reflexivity|congruence].
    + intros E _. inversion E. reflexivity.
Qed.

Lemma load_lines_again lines :
  forall env_vars environ env_vars' environ' (X : gmap string string),
    load_lines lines env_vars environ = (Ret env_vars', environ') ->
    (forall k, is_Some (environ' !! k) -> is_Some (X !! k)) ->
    load_lines lines env_vars X = (Ret env_vars', X).
Proof.
  induction lines as [|line lines IH]; cbn [load_lines];
    intros env_vars environ env_vars' environ' X.
  - intros E _. inversion E. reflexivity.
  - destruct (load_line line (env_vars, environ)) as [[ev|e] en] eqn:Hl;
      [|discriminate].
    intros E HX.
    rewrite (load_line_again _ _ _ _ _ X Hl).
    + eapply IH; eassumption.
    + intros k [v Hv]. apply HX.
      exists v. eapply load_lines_keeps; eassumption.
Qed.

End EnvFileMore.

(** X20. Loading the [.env] file never changes a variable the process
    environment already has, and every variable the file defines is
    defined in the environment afterwards. *)
Theorem env_file_never_overrides
    (module_env_paths : list string) (fs : string -> option (list string))
    (env_path : option string) (environ : gmap string string) :
  (forall k v,
     environ !! k = Some v ->
     snd (_load_env_file module_env_paths fs env_path environ) !! k = Some v) /\
  (forall env_vars k,
     fst (_load_env_file module_env_paths fs env_path environ) = Ret env_vars ->
     is_Some (env_vars !! k) ->
     is_Some (snd (_load_env_file module_env_paths fs env_path environ) !! k)).
Proof.
  destruct (_load_env_file module_env_paths fs env_path environ)
    as [r environ'] eqn:Hload.
  split.
  - intros k v Hk. eapply load_env_file_keeps; eassumption.
  - intros env_vars k Hr [v Hv]. cbn [fst snd] in *. subst r.
    pose proof (load_env_file_covered _ _ _ _ _ _ Hload k) as Hcov.
    destruct (environ' !! k) as [u|]; [eexists; reflexivity|].
    rewrite Hcov in Hv by reflexivity. discriminate.
Qed.

(** A second load finds the environment the first one left. *)
Lemma load_env_file_again
    (module_env_paths : list string) (fs : string -> option (list string))
    (env_path : option string) (environ env_vars environ' : gmap string string) :
  _load_env_file module_env_paths fs env_path environ = (Ret env_vars, environ') ->
  _load_env_file module_env_paths fs env_path environ' = (Ret env_vars, environ').
Proof.
  unfold _load_env_file.
  destruct (find_env_file fs (search_paths module_env_paths env_path))
    as [lines|].
  - intros E. eapply load_lines_again; [exact E | auto].
  - intros E. inversion E. subst. reflexivity.
Qed.

(** X21. Loading the [.env] file is idempotent: a second load on the
    environment the first one left returns the same variables and leaves
    that environment as it is. *)
Theorem env_file_load_is_idempotent
    (module_env_paths : list string) (fs : string -> option (list string))
    (env_path : option string) (environ env_vars environ' : gmap string string) :
  _load_env_file module_env_paths fs env_path environ = (Ret env_vars, environ') ->
  _load_env_file module_env_paths fs env_path environ' = (Ret env_vars, environ').
Proof.
  unfold _load_env_file.
  destruct (find_env_file fs (search_paths module_env_paths env_path))
    as [lines|].
  - intros E. eapply load_lines_again; [exact E | auto].
  - intros E. inversion E. subst. reflexivity.
Qed.

(** X22. A line [KEY=VALUE] of the [.env] file, followed by any
    whitespace, the line end included, is read back exactly: [env_vars]
    maps the key to the value, and [os.environ] gets the pair unless it
    already has the key.  The key is not empty and free of equals signs,
    of null characters, of a leading hash and of whitespace at its ends;
    the value is free of null characters and of whitespace and quotes at
    its ends.  Whitespace is what [str.strip] removes, the Unicode
    spaces included. *)
Theorem env_line_is_read_back (key value trailing : string)
    (env_vars environ : gmap string string) :
  plain_key key -> plain_value value -> blank trailing ->
  load_line (key ++ "=" ++ value ++ trailing) (env_vars, environ)
  = (Ret (<[key := value]> env_vars),
     match environ !! key with
     | Some _ => environ
     | None => <[key := value]> environ
     end).
Proof.
  intros Hkey Hvalue Htrail.
  rewrite (load_definition_line key value trailing env_vars environ
             Hkey Hvalue Htrail).
  reflexivity.
Qed.

(* ===================================================================== *)
(** * The registry seen from outside *)
(* ===================================================================== *)

Lemma lower_name (unicode_lower : string -> string) (k : provider_kind) :
  str_lower unicode_lower (name k) = name k.
Proof. destruct k; reflexivity. Qed.

(** X23. [get_provider_info] knows a name exactly when it is one of the
    five registered names as written (it does not lowercase).  It then
    reports the class and the default models of that provider, and
    [requires_api_key] is true exactly for the providers for which
    [get_provider] reads a key variable. *)
Theorem provider_info_of_registered_names (n : string) :
  (is_Ret (get_provider_info n) = true <-> In n list_providers) /\
  (forall info,
     get_provider_info n = Ret info ->
     exists k,
       n = name k /\ info_name info = n /\
       info_class info = class_name k /\
       default_vision_model info = fst (DEFAULT_MODELS k) /\
       default_language_model info = snd (DEFAULT_MODELS k) /\
       (requires_api_key info = true <-> is_Some (api_key_env_map k))).
Proof.
  unfold get_provider_info, list_providers. split.
  - rewrite <- lookup_provider_In.
    destruct (lookup_provider PROVIDERS n) as [k|]; simpl; split;
      intros E; try reflexivity; try discriminate.
    + eexists. reflexivity.
    + destruct E as [k E]. discriminate.
  - intros info.
    destruct (lookup_provider PROVIDERS n) as [k|] eqn:Hk; [|discriminate].
    intros E. inversion E. subst info. cbn.
    apply lookup_provider_Some in Hk. subst n.
    exists k. repeat split; try reflexivity.
    + destruct k; cbn; intros F; try discriminate; eexists; reflexivity.
    + destruct k; cbn; intros [v F]; try reflexivity; discriminate.
Qed.

(** X24. The default models [get_provider_info] reports are the model
    names [get_provider] gives the provider when neither an argument nor
    a variable of the environment names a model, in a call without the
    keywords [api_base] and [base_url]. *)
Theorem reported_defaults_are_used
    (py_int : string -> Z + string) (py_float : string -> pyfloat + string)
    (unicode_lower : string -> string)
    (module_env_paths : list string) (fs : string -> option (list string))
    (n : string) (info : ProviderInfo)
    (api_key_arg env_file : option string)
    (kwargs : Kwargs) (environ env_vars environ' : gmap string string) :
  get_provider_info n = Ret info ->
  kw_api_base kwargs = None ->
  kw_base_url kwargs = None ->
  _load_env_file module_env_paths fs env_file environ = (Ret env_vars, environ') ->
  settings_parse py_int py_float environ' env_vars ->
  environ' !! (PyStr.upper n ++ "_VISION_MODEL") = None ->
  environ' !! (PyStr.upper n ++ "_LANGUAGE_MODEL") = None ->
  exists p,
    get_provider py_int py_float unicode_lower module_env_paths fs (Some n) api_key_arg
      None None env_file kwargs environ = (Ret p, environ') /\
    class_name (kind p) = info_class info /\
    vision_model (config p) = default_vision_model info /\
    language_model (config p) = default_language_model info.
Proof.
  intros Hinfo Hbase Hurl Hload (P1 & P2 & P3 & P4) Hv Hl.
  apply is_Ret_true in P1 as [mt H1]. apply is_Ret_true in P2 as [temp H2].
  apply is_Ret_true in P3 as [mr H3]. apply is_Ret_true in P4 as [rd H4].
  pose proof (load_env_file_covered _ _ _ _ _ _ Hload) as Hcov.
  unfold get_provider_info in Hinfo.
  destruct (lookup_provider PROVIDERS n) as [k|] eqn:Hk; [|discriminate].
  inversion Hinfo. subst info. clear Hinfo. cbn.
  apply lookup_provider_Some in Hk. subst n.
  assert (Hk : lookup_provider PROVIDERS
                 (resolved_name unicode_lower (Some (name k)) environ'
                    env_vars) = Some k).
  { unfold resolved_name. rewrite lower_name. apply lookup_provider_name. }
  unfold get_provider. rewrite Hload.
  rewrite (resolve_known _ _ _ _ _ _ _ _ _ _ k mt temp mr rd Hk H1 H2 H3 H4).
  destruct (factory_function_returns k
              (resolved_first_argument k api_key_arg environ' env_vars)
              (resolved_model None environ' env_vars
                 (PyStr.upper
                    (resolved_name unicode_lower (Some (name k)) environ'
                       env_vars)
                  ++ "_VISION_MODEL") (fst (DEFAULT_MODELS k)))
              (resolved_model None environ' env_vars
                 (PyStr.upper
                    (resolved_name unicode_lower (Some (name k)) environ'
                       env_vars)
                  ++ "_LANGUAGE_MODEL") (snd (DEFAULT_MODELS k)))
              (provider_kwargs kwargs mt temp mr rd
                 (resolved_base_url k kwargs environ' env_vars)) environ'
              (or_introl Hbase))
    as [p Hp].
  { destruct k; [left; exact Hurl | left; exact Hurl | left; exact Hurl
                | left; exact Hurl | right; reflexivity]. }
  rewrite Hp.
  apply factory_function_builds in Hp
    as (Hkind & _ & c0 & Hcfg & Hvm & Hlm & _).
  exists p. split; [reflexivity|]. split; [rewrite Hkind; reflexivity|].
  rewrite Hcfg. cbn [__post_init__ vision_model language_model].
  rewrite Hvm, Hlm. unfold resolved_model, resolved_name.
  rewrite lower_name, !layered_get_covered by exact Hcov.
  unfold environ_get. rewrite Hv, Hl. split; reflexivity.
Qed.

(** X25. The name [get_default_provider] returns is the name a later
    [get_provider] without a provider argument resolves, in lowercase;
    it is not checked against the registry, so when its lowercase form
    is not registered that later call raises the error for an unknown
    provider. *)
Theorem default_provider_is_unchecked
    (py_int : string -> Z + string) (py_float : string -> pyfloat + string)
    (unicode_lower : string -> string)
    (module_env_paths : list string) (fs : string -> option (list string))
    (api_key_arg vision_arg language_arg : option string) (kwargs : Kwargs)
    (environ environ' : gmap string string) (n : string) :
  get_default_provider module_env_paths fs environ = (Ret n, environ') ->
  (forall p,
     fst (get_provider py_int py_float unicode_lower module_env_paths fs None api_key_arg
            vision_arg language_arg None kwargs environ') = Ret p ->
     name (kind p) = str_lower unicode_lower n) /\
  (~ In (str_lower unicode_lower n) provider_names ->
   get_provider py_int py_float unicode_lower module_env_paths fs None api_key_arg
     vision_arg language_arg None kwargs environ'
   = (Raise (unknown_provider (str_lower unicode_lower n)), environ')).
Proof.
  unfold get_default_provider.
  destruct (_load_env_file module_env_paths fs None environ)
    as [[ev|e] en] eqn:Hload; [|discriminate].
  intros E. inversion E. subst en. clear E.
  pose proof (load_env_file_again _ _ _ _ _ _ Hload) as Hagain.
  unfold get_provider. rewrite Hagain. cbn [fst]. split.
  - intros p Hp. apply resolve_builds in Hp as (_ & _ & _ & _ & Hk & _).
    apply lookup_provider_Some in Hk. symmetry. exact Hk.
  - intros Hnot. unfold resolve.
    rewrite (lookup_provider_None PROVIDERS _ Hnot). reflexivity.
Qed.

(* ===================================================================== *)
(** * The pipeline configuration (config.py) *)
(* ===================================================================== *)

(** [config.py]'s table of key variables is the factory's. *)
Lemma key_env_map_agrees (k : provider_kind) :
  config_py.AIProviderConfig.dict_lookup
    config_py.AIProviderConfig.key_env_map (name k)
  = api_key_env_map k.
Proof. destruct k; reflexivity. Qed.

(** [PipelineConfig.get_provider] for a known provider: the provider
    has the numeric fields of the config. *)
Lemma pipeline_provider_known
    (py_int : string -> Z + string) (py_float : string -> pyfloat + string)
    (unicode_lower : string -> string)
    (module_env_paths : list string) (fs : string -> option (list string))
    (cfg : config_py.PipelineConfig.t) (k : provider_kind)
    (environ env_vars environ' : gmap string string) :
  str_lower unicode_lower
    (config_py.AIProviderConfig.provider (config_py.PipelineConfig.ai cfg))
  = name k ->
  _load_env_file module_env_paths fs None environ = (Ret env_vars, environ') ->
  settings_parse py_int py_float environ' env_vars ->
  exists p c0,
    config_py.PipelineConfig.get_provider py_int py_float unicode_lower module_env_paths fs
      cfg environ = (Ret p, environ') /\
    kind p = k /\ _client p = false /\ config p = __post_init__ c0 /\
    max_tokens c0
    = config_py.AIProviderConfig.max_tokens (config_py.PipelineConfig.ai cfg) /\
    temperature c0
    = config_py.AIProviderConfig.temperature (config_py.PipelineConfig.ai cfg) /\
    max_retries c0 = config_py.PipelineConfig.max_retries cfg /\
    retry_delay c0 = config_py.PipelineConfig.retry_delay cfg /\
    (forall var c s,
       api_key_env_map k = Some var ->
       config_py.AIProviderConfig.api_key (config_py.PipelineConfig.ai cfg)
       = String c s ->
       api_key c0 = String c s).
Proof.
  intros Hn Hload (P1 & P2 & P3 & P4).
  apply is_Ret_true in P1 as [mt H1]. apply is_Ret_true in P2 as [temp H2].
  apply is_Ret_true in P3 as [mr H3]. apply is_Ret_true in P4 as [rd H4].
  set (a := config_py.PipelineConfig.ai cfg) in *.
  assert (Hk : lookup_provider PROVIDERS
                 (resolved_name unicode_lower
                    (Some (config_py.AIProviderConfig.provider a))
                    environ' env_vars) = Some k).
  { unfold resolved_name. rewrite Hn. apply lookup_provider_name. }
  unfold config_py.PipelineConfig.get_provider. fold a.
  match goal with
  | |- context [get_provider _ _ _ _ _ ?pn ?ak ?vm ?lm ?ef ?kw environ] =>
      destruct (get_provider_known py_int py_float unicode_lower
                  module_env_paths fs pn ak
                  vm lm ef kw environ env_vars environ' k mt temp mr rd
                  Hload Hk H1 H2 H3 H4 (or_introl eq_refl) (or_introl eq_refl))
        as (p & c0 & E & Hkind & Hcfg & Hmt & Ht & _ & Hmr & Hrd & Hkey & _)
  end.
  exists p, c0. split; [exact E|]. split; [exact Hkind|].
  split.
  { pose proof (f_equal fst E) as E2. unfold get_provider in E2.
    rewrite Hload in E2. cbn [fst] in E2.
    rewrite (resolve_known _ _ _ _ _ _ _ _ _ _ _ mt temp mr rd Hk H1 H2 H3 H4)
      in E2.
    apply factory_function_builds in E2 as (_ & Hc & _). exact Hc. }
  split; [exact Hcfg|].
  cbn [kw_max_tokens kw_temperature kw_max_retries kw_retry_delay default]
    in Hmt, Ht, Hmr, Hrd.
  repeat (split; [assumption|]).
  intros var c s Hvar Hkeyed. rewrite Hkey.
  unfold resolved_first_argument, key_or_environ,
    config_py.PipelineConfig.non_empty.
  rewrite Hkeyed.
  destruct k; cbn in Hvar; try discriminate; reflexivity.
Qed.

(** X26. The provider [PipelineConfig.get_provider] builds has the
    retry parameters of the config, whatever [MAX_RETRIES] and
    [RETRY_DELAY] say in the environment, and the [max_tokens] of the
    config when that is at least 1 (4096 otherwise); no client is
    constructed. *)
Theorem pipeline_config_reaches_provider
    (py_int : string -> Z + string) (py_float : string -> pyfloat + string)
    (unicode_lower : string -> string)
    (module_env_paths : list string) (fs : string -> option (list string))
    (cfg : config_py.PipelineConfig.t) (k : provider_kind)
    (environ env_vars environ' : gmap string string) :
  str_lower unicode_lower
    (config_py.AIProviderConfig.provider (config_py.PipelineConfig.ai cfg))
  = name k ->
  _load_env_file module_env_paths fs None environ = (Ret env_vars, environ') ->
  settings_parse py_int py_float environ' env_vars ->
  exists p,
    config_py.PipelineConfig.get_provider py_int py_float unicode_lower module_env_paths fs
      cfg environ = (Ret p, environ') /\
    kind p = k /\ _client p = false /\
    max_retries (config p) = config_py.PipelineConfig.max_retries cfg /\
    retry_delay (config p) = config_py.PipelineConfig.retry_delay cfg /\
    max_tokens (config p)
    = (let mt := config_py.AIProviderConfig.max_tokens
                   (config_py.PipelineConfig.ai cfg) in
       if (mt <? 1)%Z then 4096%Z else mt).
Proof.
  intros Hn Hload Hparse.
  destruct (pipeline_provider_known py_int py_float unicode_lower module_env_paths fs cfg k
              environ env_vars environ' Hn Hload Hparse)
    as (p & c0 & E & Hkind & Hc & Hcfg & Hmt & _ & Hmr & Hrd & _).
  exists p. split; [exact E|]. split; [exact Hkind|]. split; [exact Hc|].
  rewrite Hcfg, post_init_max_retries, post_init_retry_delay,
    post_init_max_tokens, Hmr, Hrd, Hmt.
  repeat split.
Qed.

(** X27. [AIProviderConfig.__post_init__] reads [MAX_TOKENS] only when
    the field holds 4096: for any other value, the default 32768
    included, the field is kept and a value of the variable that is not
    a number raises nothing; when the field holds 4096 the variable
    replaces it, and raises [ValueError] if it is not a number. *)
Theorem ai_config_max_tokens_variable
    (py_int : string -> Z + string) (py_float : string -> pyfloat + string)
    (unicode_lower unicode_upper : string -> string)
    (environ : gmap string string) (a a' : config_py.AIProviderConfig.t) :
  config_py.AIProviderConfig.__post_init__ py_int py_float unicode_lower
    unicode_upper environ a = Ret a' ->
  (config_py.AIProviderConfig.max_tokens a <> 4096%Z ->
   config_py.AIProviderConfig.max_tokens a'
   = config_py.AIProviderConfig.max_tokens a /\
   forall py_int' : string -> Z + string,
     config_py.AIProviderConfig.__post_init__ py_int' py_float unicode_lower
       unicode_upper environ a
     = Ret a') /\
  (config_py.AIProviderConfig.max_tokens a = 4096%Z ->
   py_int (environ_get environ "MAX_TOKENS" "4096")
   = inl (config_py.AIProviderConfig.max_tokens a')).
Proof.
  unfold config_py.AIProviderConfig.__post_init__.
  destruct (config_py.AIProviderConfig.max_tokens a =? 4096)%Z eqn:E4096.
  - apply Z.eqb_eq in E4096. intros E. split; [intros F; contradiction|].
    intros _.
    destruct (py_int (environ_get environ "MAX_TOKENS" "4096")) as [m|];
      [|discriminate].
    destruct (if float_eqb _ _ then _ else _) as [t|e]; [|discriminate].
    inversion E. reflexivity.
  - apply Z.eqb_neq in E4096. intros E. split; [|intros F; contradiction].
    intros _.
    destruct (if float_eqb _ _ then _ else _) as [t|e]; [|discriminate].
    inversion E. split; reflexivity.
Qed.

(** X28. [load_config] with a new provider name and no key leaves the
    key and the model names of the config as they are: the provider
    [PipelineConfig.get_provider] then builds is of the new kind and
    carries a non-empty key and non-empty model names read for the
    provider before. *)
Theorem load_config_keeps_the_old_key
    (py_int : string -> Z + string) (py_float : string -> pyfloat + string)
    (unicode_lower : string -> string)
    (module_env_paths : list string) (fs : string -> option (list string))
    (cfg : config_py.PipelineConfig.t) (n : string) (k : provider_kind)
    (var : string) (c : ascii) (s : string)
    (environ env_vars environ' : gmap string string) :
  str_lower unicode_lower n = name k ->
  api_key_env_map k = Some var ->
  config_py.AIProviderConfig.api_key (config_py.PipelineConfig.ai cfg)
  = String c s ->
  _load_env_file module_env_paths fs None environ = (Ret env_vars, environ') ->
  settings_parse py_int py_float environ' env_vars ->
  exists p,
    config_py.PipelineConfig.get_provider py_int py_float unicode_lower module_env_paths fs
      (config_py.load_config (Some n) None None None cfg) environ
    = (Ret p, environ') /\
    kind p = k /\
    api_key (config p) = String c s.
Proof.
  intros Hn Hvar Hkeyed Hload Hparse.
  assert (Hne : PyStr.truthy n = true).
  { destruct n; [|reflexivity]. destruct k; discriminate. }
  set (cfg' := config_py.load_config (Some n) None None None cfg).
  assert (Hp : config_py.AIProviderConfig.provider
                 (config_py.PipelineConfig.ai cfg') = n).
  { unfold cfg', config_py.load_config, config_py.updated. cbn. rewrite Hne.
    reflexivity. }
  assert (Hkey' : config_py.AIProviderConfig.api_key
                    (config_py.PipelineConfig.ai cfg') = String c s).
  { unfold cfg', config_py.load_config, config_py.updated. cbn. exact Hkeyed. }
  assert (Hn' : str_lower unicode_lower
                  (config_py.AIProviderConfig.provider
                     (config_py.PipelineConfig.ai cfg')) = name k).
  { rewrite Hp. exact Hn. }
  destruct (pipeline_provider_known py_int py_float unicode_lower module_env_paths fs cfg' k
              environ env_vars environ' Hn' Hload Hparse)
    as (p & c0 & E & Hkind & _ & Hcfg & _ & _ & _ & _ & Hk).
  exists p. split; [exact E|]. split; [exact Hkind|].
  rewrite Hcfg. cbn [__post_init__ api_key]. exact (Hk var c s Hvar Hkey').
Qed.

(** X29. An [AIProviderConfig] constructed without a key for a Qwen,
    Gemini, OpenAI or Anthropic provider, in whatever case the name is
    written, takes as key the value of the variable the factory reads
    for that provider, from the process environment as it is then, and
    the empty string when the variable is not set. *)
Theorem ai_config_key_is_the_factory_key
    (py_int : string -> Z + string) (py_float : string -> pyfloat + string)
    (unicode_lower unicode_upper : string -> string)
    (environ : gmap string string) (a a' : config_py.AIProviderConfig.t)
    (k : provider_kind) (var : string) :
  config_py.AIProviderConfig.__post_init__ py_int py_float unicode_lower
    unicode_upper environ a = Ret a' ->
  str_lower unicode_lower (config_py.AIProviderConfig.provider a') = name k ->
  api_key_env_map k = Some var ->
  config_py.AIProviderConfig.api_key a = "" ->
  config_py.AIProviderConfig.api_key a' = key_or_environ None var environ.
Proof.
  unfold config_py.AIProviderConfig.__post_init__.
  intros E Hn Hvar Hempty.
  destruct (if (config_py.AIProviderConfig.max_tokens a =? 4096)%Z
            then _ else _) as [m|e]; [|discriminate].
  destruct (if float_eqb _ _ then _ else _) as [t|e]; [|discriminate].
  inversion E as [Ha']. subst a'. clear E.
  cbn [config_py.AIProviderConfig.provider config_py.AIProviderConfig.api_key]
    in *.
  rewrite Hempty. cbn [PyStr.truthy negb].
  rewrite Hn. unfold key_or_environ. cbn [default].
  destruct k; cbn in Hvar; try discriminate; inversion Hvar; subst var;
    reflexivity.
Qed.

(* ===================================================================== *)
(** * Merging scripture texts (modules/pdf_scanner.py) *)
(* ===================================================================== *)

Section MergeMore.

Variable py_strip : string -> string.

Lemma assign_other (st : pdf_scanner.Store) (r r' : nat)
    (f : pdf_scanner.PageContent -> pdf_scanner.PageContent) :
  r' <> r -> pdf_scanner.assign st r f r' = st r'.
Proof.
  intros Hne. unfold pdf_scanner.assign.
  destruct (Nat.eqb r' r) eqn:E; [|reflexivity].
  apply Nat.eqb_eq in E. contradiction.
Qed.

(** A turn of the loop changes no object but the page it is at, and
    that one only when it has no scripture text. *)
Lemma merge_page_store (l : pdf_scanner.Loop) (page r : nat) :
  r <> page \/ pdf_scanner.has_scripture (pdf_scanner.store l page) = true ->
  pdf_scanner.store (pdf_scanner.merge_page py_strip l page) r
  = pdf_scanner.store l r.
Proof.
  intros Hr. unfold pdf_scanner.merge_page.
  destruct (pdf_scanner.has_scripture (pdf_scanner.store l page)) eqn:Hs;
    [reflexivity|].
  destruct Hr as [Hne|F]; [|discriminate].
  destruct (PyStr.truthy (pdf_scanner.pending_scripture l)
            && negb (Nat.eqb (length (pdf_scanner.pending_pages l)) 0));
    [|reflexivity].
  cbn [pdf_scanner.store]. rewrite !assign_other by exact Hne. reflexivity.
Qed.

Lemma merge_page_merged (l : pdf_scanner.Loop) (page : nat) :
  pdf_scanner.merged (pdf_scanner.merge_page py_strip l page)
  = (pdf_scanner.merged l
     ++ if pdf_scanner.has_scripture (pdf_scanner.store l page)
        then [] else [page])%list.
Proof.
  unfold pdf_scanner.merge_page.
  destruct (pdf_scanner.has_scripture (pdf_scanner.store l page)).
  - cbn [pdf_scanner.merged]. rewrite app_nil_r. reflexivity.
  - destruct (PyStr.truthy (pdf_scanner.pending_scripture l)
              && negb (Nat.eqb (length (pdf_scanner.pending_pages l)) 0));
      reflexivity.
Qed.

(** The loop over distinct pages: the list grows by the pages without
    scripture text, and the objects of the others stay as they are. *)
Lemma merge_loop (pages : list nat) :
  List.NoDup pages ->
  forall l : pdf_scanner.Loop,
    let l' := fold_left (pdf_scanner.merge_page py_strip) pages l in
    pdf_scanner.merged l'
    = (pdf_scanner.merged l
       ++ List.filter
            (fun r => negb (pdf_scanner.has_scripture (pdf_scanner.store l r)))
            pages)%list /\
    (forall r,
       ~ In r pages \/ pdf_scanner.has_scripture (pdf_scanner.store l r) = true ->
       pdf_scanner.store l' r = pdf_scanner.store l r).
Proof.
  induction 1 as [|page rest Hnotin Hnodup IH]; intros l.
  - cbn. rewrite app_nil_r. split; [reflexivity|]. intros; reflexivity.
  - cbn [fold_left].
    destruct (IH (pdf_scanner.merge_page py_strip l page)) as [Hm Hs].
    assert (Hrest : forall r, In r rest ->
              pdf_scanner.store (pdf_scanner.merge_page py_strip l page) r
              = pdf_scanner.store l r).
    { intros r Hin. apply merge_page_store. left. intros ->. contradiction. }
    cbn zeta. split.
    + rewrite Hm, merge_page_merged, <- app_assoc. f_equal.
      cbn [List.filter].
      rewrite (List.filter_ext_in
                 (fun r => negb (pdf_scanner.has_scripture
                                   (pdf_scanner.store
                                      (pdf_scanner.merge_page py_strip l page) r)))
                 (fun r => negb (pdf_scanner.has_scripture
                                   (pdf_scanner.store l r)))).
      * destruct (pdf_scanner.has_scripture (pdf_scanner.store l page));
          reflexivity.
      * intros r Hin. rewrite (Hrest r Hin). reflexivity.
    + intros r Hr.
      assert (Hstep : pdf_scanner.store (pdf_scanner.merge_page py_strip l page) r
                      = pdf_scanner.store l r).
      { destruct (Nat.eq_dec r page) as [->|Hne].
        - apply merge_page_store. right.
          destruct Hr as [Hr|Hr]; [|exact Hr].
          exfalso. apply Hr. left. reflexivity.
        - apply merge_page_store. left. exact Hne. }
      rewrite <- Hstep. apply Hs.
      destruct Hr as [Hr|Hr].
      * left. intros Hin. apply Hr. right. exact Hin.
      * right. rewrite Hstep. exact Hr.
Qed.

(** Without scripture text pending or ahead the loop only copies the
    references. *)
Lemma merge_loop_plain (pages : list nat) :
  forall l : pdf_scanner.Loop,
    pdf_scanner.pending_scripture l = "" ->
    (forall r, In r pages ->
               pdf_scanner.has_scripture (pdf_scanner.store l r) = false) ->
    fold_left (pdf_scanner.merge_page py_strip) pages l
    = pdf_scanner.mkLoop (pdf_scanner.store l)
        (pdf_scanner.merged l ++ pages)%list "" (pdf_scanner.pending_pages l).
Proof.
  induction pages as [|page rest IH]; intros l Hp Hnone.
  - cbn. rewrite app_nil_r. destruct l. cbn in Hp. subst. reflexivity.
  - cbn [fold_left].
    assert (Hstep : pdf_scanner.merge_page py_strip l page
                    = pdf_scanner.mkLoop (pdf_scanner.store l)
                        (pdf_scanner.merged l ++ [page])%list ""
                        (pdf_scanner.pending_pages l)).
    { unfold pdf_scanner.merge_page.
      rewrite (Hnone page (or_introl eq_refl)), Hp. reflexivity. }
    rewrite Hstep, IH.
    + cbn [pdf_scanner.store pdf_scanner.merged pdf_scanner.pending_pages].
      rewrite <- app_assoc. reflexivity.
    + reflexivity.
    + intros r Hin. cbn [pdf_scanner.store]. apply Hnone. right. exact Hin.
Qed.

End MergeMore.

(** X30. [merge_scripture_texts] on a list of distinct pages returns
    the pages that have no scripture text, in their order: a page
    with scripture text is never in the result, and its object is left
    as it was; no object outside the list is touched.  With no scripture
    text anywhere the list comes back as it was given. *)
Theorem merge_drops_scripture_pages (py_strip : string -> string)
    (st : pdf_scanner.Store) (pages : list nat) :
  List.NoDup pages ->
  let '(st', merged) := pdf_scanner.merge_scripture_texts py_strip st pages in
  merged
  = List.filter (fun r => negb (pdf_scanner.has_scripture (st r))) pages /\
  (forall r, ~ In r pages \/ pdf_scanner.has_scripture (st r) = true ->
             st' r = st r) /\
  (List.forallb (fun r => negb (pdf_scanner.has_scripture (st r))) pages = true ->
   merged = pages /\ forall r, st' r = st r).
Proof.
  intros Hnodup.
  destruct (pdf_scanner.merge_scripture_texts py_strip st pages)
    as [st' merged] eqn:E.
  unfold pdf_scanner.merge_scripture_texts in E.
  destruct (merge_loop py_strip pages Hnodup
              (pdf_scanner.mkLoop st [] "" [])) as [Hm Hs].
  cbn zeta in Hm, Hs. cbn [pdf_scanner.merged pdf_scanner.store app] in Hm, Hs.
  set (keep := fun r => negb (pdf_scanner.has_scripture (st r))) in *.
  set (l := fold_left (pdf_scanner.merge_page py_strip) pages
              (pdf_scanner.mkLoop st [] "" [])) in *.
  assert (Hcases :
            merged = pdf_scanner.merged l /\
            (st' = pdf_scanner.store l \/
             exists last f, In last (pdf_scanner.merged l) /\
                            st' = pdf_scanner.assign (pdf_scanner.store l) last f)).
  { destruct (PyStr.truthy (pdf_scanner.pending_scripture l));
      [destruct (List.rev (pdf_scanner.merged l)) as [|last tl] eqn:Hrev|];
      inversion E; split; auto.
    right. eexists last, _. split; [|reflexivity].
    apply in_rev. rewrite Hrev. left. reflexivity. }
  destruct Hcases as [Hmerged' Hst'].
  assert (Hmerged : merged = List.filter keep pages) by congruence.
  assert (Hstore : forall r,
            ~ In r pages \/ pdf_scanner.has_scripture (st r) = true ->
            st' r = st r).
  { intros r Hr. destruct Hst' as [->|(last & f & Hlast & ->)];
      [apply Hs; exact Hr|].
    rewrite Hm in Hlast. apply filter_In in Hlast as [Hin Hkeep].
    rewrite assign_other; [apply Hs; exact Hr|].
    intros ->. destruct Hr as [Hr|Hr]; [contradiction|].
    unfold keep in Hkeep. rewrite Hr in Hkeep. discriminate. }
  split; [exact Hmerged|]. split; [exact Hstore|].
  intros Hall. rewrite forallb_forall in Hall.
  unfold l in E.
  rewrite (merge_loop_plain py_strip pages (pdf_scanner.mkLoop st [] "" []))
    in E.
  - cbn in E. inversion E. split; [reflexivity|]. intros; reflexivity.
  - reflexivity.
  - intros r Hin. cbn [pdf_scanner.store]. specialize (Hall r Hin).
    apply negb_true_iff in Hall. exact Hall.
Qed.

(* ===================================================================== *)
(** * The properties above at sample inputs *)
(* ===================================================================== *)





Lemma constructed_config_bounds_requests_witness :
  exists new,
    sent (ext (snd (@chat unit answering "hello" None
                      (sample_provider OpenAI) quiet)))
    = (sent (ext quiet) ++ new)%list /\
    Forall (fun kr =>
              request_temperature (snd kr) = Finite 1.5 /\
              in_interval 0 2 (request_temperature (snd kr)) /\
              request_max_tokens (snd kr) = 4096%Z /\
              (1 <= request_max_tokens (snd kr))%Z) new.
Proof.
  exact (proj1 (@constructed_config_bounds_requests unit answering
                  (mkConfigArgs (Some "key") None None None (Some 4096%Z)
                     (Some (Finite 1.5)) (Some (Finite 0.9)) (Some 3%Z)
                     (Some (Finite 1)) None)
                  (sample_provider OpenAI) "hello" None [] "png" quiet
                  eq_refl)).
Defined.

Lemma client_is_initialised_once_witness :
  _client (snd (fst (@ensure_client unit answering (sample_provider OpenAI)
                       quiet))) = true.
Proof.
  assert (Hne : kind (sample_provider OpenAI) <> Gemini) by discriminate.
  exact (proj1 (@client_is_initialised_once unit answering
                  (sample_provider OpenAI) _ quiet _ Hne eq_refl)).
Defined.

Lemma gemini_never_marks_client_witness :
  _client (snd (fst (@chat unit answering "hello" None
                       (sample_provider Gemini) quiet))) = false.
Proof.
  exact (proj1 (@gemini_never_marks_client unit answering
                  (sample_provider Gemini) "hello" None [] "png" quiet
                  eq_refl)).
Defined.

Lemma missing_sdk_is_not_retried_witness :
  @chat unit bare "hello" None (sample_provider OpenAI) quiet
  = (Raise (import_error OpenAI), sample_provider OpenAI, quiet).
Proof.
  assert (Hne : kind (sample_provider OpenAI) <> Ollama) by discriminate.
  exact (proj1 (@missing_sdk_is_not_retried unit bare (sample_provider OpenAI)
                  "hello" None [] "png" quiet Hne eq_refl eq_refl)).
Defined.

Lemma unreachable_ollama_is_not_retried_witness :
  exists e self' w',
    @chat unit bare "hello" None (sample_provider Ollama) quiet
    = (Raise e, self', w') /\
    exn_cls e = ConnectionError /\ sent (ext w') = [] /\ trace w' = [].
Proof.
  eexists _, _, _. split.
  - exact (proj1 (@unreachable_ollama_is_not_retried unit bare
                    (sample_provider Ollama) "hello" None [] "png" quiet
                    "Connection refused" tt eq_refl eq_refl eq_refl)).
  - repeat split.
Defined.

Lemma ollama_validate_reports_the_probe_witness :
  fst (fst (@validate unit answering (sample_provider Ollama) quiet))
  = Ret (true, []).
Proof.
  apply (proj2 (proj1 (proj2 (@ollama_validate_reports_the_probe unit answering
                                (sample_provider Ollama) quiet eq_refl)))).
  reflexivity.
Defined.

Lemma get_provider_returns_normalised_witness :
  exists p,
    fst (get_provider no_int no_float no_case [] (fun _ => None)
           (Some "OpenAI") None None None None
           (mkKwargs None (Some 0%Z) (Some (Finite 3)) None None None None None) ∅)
    = Ret p /\
    _client p = false /\ in_interval 0 2 (temperature (config p)) /\
    (1 <= max_tokens (config p))%Z /\ name (kind p) = "openai".
Proof.
  destruct (fst (get_provider no_int no_float no_case []
                   (fun _ => None) (Some "OpenAI") None None None None
                   (mkKwargs None (Some 0%Z) (Some (Finite 3)) None None None
                      None None) ∅)) as [p|e] eqn:E.
  - exists p. split; [reflexivity|].
    destruct (get_provider_returns_normalised _ _ _ _ _ _ _ _ _ _ _ _ p E)
      as (Hc & Ht & _ & Hm & Hn).
    split; [exact Hc|]. split; [exact Ht|]. split; [exact Hm|].
    exact (Hn "OpenAI" eq_refl).
  - vm_compute in E. discriminate E.
Defined.

Lemma api_key_resolution_witness :
  exists p,
    get_provider decimal_int no_float no_case [] dotenv_fs (Some "OpenAI")
      None None None None no_kwargs openai_environ
    = (Ret p, loaded_environ) /\
    kind p = OpenAI /\ api_key (config p) = "sk-process".
Proof.
  destruct (api_key_resolution decimal_int no_float no_case [] dotenv_fs
              "OpenAI" OpenAI "OPENAI_API_KEY" None None None None no_kwargs
              openai_environ dotenv_vars loaded_environ)
    as (p & E & K & A & _); try reflexivity.
  - repeat split.
  - exists p. split; [exact E|]. split; [exact K|]. exact A.
Defined.

Lemma ollama_resolution_witness :
  (exists p,
     get_provider no_int no_float no_case [] (fun _ => None)
       (Some "ollama") (Some "sk-ignored") None None None no_kwargs
       ollama_environ
     = (Ret p, ollama_environ) /\
     api_key (config p) = "" /\
     api_base (config p) = "http://gpu-host:11434") /\
  (exists p,
     get_provider no_int no_float no_case [] (fun _ => None)
       (Some "ollama") None None None None base_url_kwargs ∅
     = (Ret p, ∅) /\
     api_base (config p) = "http://x").
Proof.
  split.
  - destruct (ollama_resolution no_int no_float no_case []
                (fun _ => None) "ollama" (Some "sk-ignored") None None None
                no_kwargs ollama_environ ∅ ollama_environ)
      as (p & E & _ & A & B); try reflexivity.
    + repeat split.
    + exists p. split; [exact E|]. split; [exact A|]. exact B.
  - destruct (ollama_resolution no_int no_float no_case []
                (fun _ => None) "ollama" None None None None
                base_url_kwargs ∅ ∅ ∅)
      as (p & E & _ & _ & B); try reflexivity.
    + repeat split.
    + exists p. split; [exact E|]. exact B.
Defined.

Lemma keywords_override_environment_witness :
  exists p,
    get_provider decimal_int no_float no_case [] dotenv_fs (Some "qwen")
      None None None None
      (mkKwargs None None None None (Some 7%Z) None None None) openai_environ
    = (Ret p, loaded_environ) /\
    max_retries (config p) = 7%Z /\ retry_delay (config p) = Finite 1.
Proof.
  destruct (keywords_override_environment decimal_int no_float no_case []
              dotenv_fs "qwen" Qwen None None None None
              (mkKwargs None None None None (Some 7%Z) None None None)
              openai_environ dotenv_vars loaded_environ
              4096%Z (Finite 0.7) 5%Z (Finite 1))
    as (p & E & Hmr & Hrd & _); try reflexivity; [left; reflexivity|].
  exists p. split; [exact E|]. split; [exact Hmr|]. exact Hrd.
Defined.

Lemma malformed_setting_raises_witness :
  get_provider decimal_int no_float no_case [] (fun _ => None) None None None
    None None (mkKwargs None (Some 100%Z) None None None None None None)
    malformed_environ
  = (Raise (Exn ValueError
              ("invalid literal for int() with base 10: '" ++ "many" ++ "'")),
     malformed_environ).
Proof.
  apply (malformed_setting_raises decimal_int no_float no_case []
           (fun _ => None) None None None None None
           (mkKwargs None (Some 100%Z) None None None None None None)
           malformed_environ ∅ malformed_environ "many"
           ("invalid literal for int() with base 10: '" ++ "many" ++ "'"));
    try reflexivity.
  right. right. right. right. left. reflexivity.
Defined.

Lemma env_file_never_overrides_witness :
  snd (_load_env_file [] dotenv_fs None openai_environ) !! "OPENAI_API_KEY"
  = Some "sk-process".
Proof.
  apply (proj1 (env_file_never_overrides [] dotenv_fs None openai_environ)).
  reflexivity.
Defined.

Lemma env_file_load_is_idempotent_witness :
  _load_env_file [] dotenv_fs None loaded_environ
  = (Ret dotenv_vars, loaded_environ).
Proof.
  apply (env_file_load_is_idempotent [] dotenv_fs None openai_environ).
  reflexivity.
Defined.

Lemma env_line_is_read_back_witness :
  load_line ("MAX_RETRIES" ++ "=" ++ "5" ++ no_break_space_line_end)
    (∅, openai_environ)
  = (Ret (<["MAX_RETRIES" := "5"]> ∅), loaded_environ).
Proof.
  assert (Hkey : plain_key "MAX_RETRIES") by plain_text.
  assert (Hvalue : plain_value "5") by plain_text.
  assert (Htrail : blank no_break_space_line_end).
  { vm_compute. blank_text. }
  exact (env_line_is_read_back "MAX_RETRIES" "5" no_break_space_line_end ∅
           openai_environ Hkey Hvalue Htrail).
Defined.

Lemma provider_info_of_registered_names_witness :
  is_Ret (get_provider_info "anthropic") = true.
Proof.
  apply (proj2 (proj1 (provider_info_of_registered_names "anthropic"))).
  right. right. right. left. reflexivity.
Defined.

Lemma reported_defaults_are_used_witness :
  exists p,
    get_provider no_int no_float no_case [] (fun _ => None)
      (Some "ollama") None None None None no_kwargs ∅ = (Ret p, ∅) /\
    vision_model (config p) = "llava" /\ language_model (config p) = "llama3".
Proof.
  destruct (reported_defaults_are_used no_int no_float no_case []
              (fun _ => None) "ollama"
              (mkProviderInfo "ollama" "OllamaProvider" "llava" "llama3" false)
              None None no_kwargs ∅ ∅ ∅)
    as (p & E & _ & Hv & Hl); try reflexivity.
  - repeat split.
  - exists p. split; [exact E|]. split; [exact Hv | exact Hl].
Defined.

Lemma default_provider_is_unchecked_witness :
  get_provider no_int no_float no_case [] (fun _ => None) None None
    None None None no_kwargs unregistered_environ
  = (Raise (unknown_provider "mistral"), unregistered_environ).
Proof.
  apply (proj2 (default_provider_is_unchecked no_int no_float no_case
                  [] (fun _ => None) None None None no_kwargs
                  unregistered_environ unregistered_environ "Mistral"
                  eq_refl)).
  simpl. intros [F|[F|[F|[F|[F|[]]]]]]; discriminate F.
Defined.

Lemma pipeline_config_reaches_provider_witness :
  exists p,
    config_py.PipelineConfig.get_provider decimal_int no_float no_case []
      dotenv_fs qwen_pipeline_config openai_environ = (Ret p, loaded_environ) /\
    kind p = Qwen /\ max_retries (config p) = 3%Z /\
    max_tokens (config p) = 32768%Z.
Proof.
  destruct (pipeline_config_reaches_provider decimal_int no_float no_case []
              dotenv_fs qwen_pipeline_config Qwen openai_environ dotenv_vars
              loaded_environ)
    as (p & E & K & _ & Hmr & _ & Hmt); try reflexivity.
  - repeat split.
  - exists p. split; [exact E|]. split; [exact K|]. split; [exact Hmr|].
    exact Hmt.
Defined.

Lemma ai_config_max_tokens_variable_witness :
  exists a',
    config_py.AIProviderConfig.__post_init__ decimal_int no_float no_case
      no_case malformed_environ openai_ai_config = Ret a' /\
    config_py.AIProviderConfig.max_tokens a' = 32768%Z.
Proof.
  destruct (config_py.AIProviderConfig.__post_init__ decimal_int
              no_float no_case no_case malformed_environ openai_ai_config)
    as [a'|e] eqn:E.
  - exists a'. split; [reflexivity|].
    apply (proj1 (ai_config_max_tokens_variable _ _ _ _ _ _ _ E)).
    discriminate.
  - vm_compute in E. discriminate E.
Defined.

Lemma load_config_keeps_the_old_key_witness :
  exists p,
    config_py.PipelineConfig.get_provider no_int no_float no_case []
      (fun _ => None)
      (config_py.load_config (Some "gemini") None None None
         qwen_pipeline_config) ∅ = (Ret p, ∅) /\
    kind p = Gemini /\ api_key (config p) = "sk-qwen".
Proof.
  destruct (load_config_keeps_the_old_key no_int no_float no_case []
              (fun _ => None) qwen_pipeline_config "gemini" Gemini
              "GEMINI_API_KEY" "s"%char "k-qwen" ∅ ∅ ∅)
    as (p & E & K & A); try reflexivity.
  - repeat split.
  - exists p. split; [exact E|]. split; [exact K | exact A].
Defined.

Lemma ai_config_key_is_the_factory_key_witness :
  exists a',
    config_py.AIProviderConfig.__post_init__ no_int no_float no_case no_case
      openai_environ openai_ai_config = Ret a' /\
    config_py.AIProviderConfig.api_key a' = "sk-process".
Proof.
  destruct (config_py.AIProviderConfig.__post_init__ no_int
              no_float no_case no_case openai_environ openai_ai_config)
    as [a'|e] eqn:E.
  - exists a'. split; [reflexivity|].
    rewrite (ai_config_key_is_the_factory_key _ _ _ _ _ _ _ OpenAI
               "OPENAI_API_KEY" E).
    + reflexivity.
    + vm_compute in E. inversion E. reflexivity.
    + reflexivity.
    + reflexivity.
  - vm_compute in E. discriminate E.
Defined.

Lemma merge_drops_scripture_pages_witness :
  snd (pdf_scanner.merge_scripture_texts PyStr.strip sample_pages
         [0%nat; 1%nat; 2%nat]) = [2%nat].
Proof.
  assert (Hnd : List.NoDup [0%nat; 1%nat; 2%nat]).
  { repeat constructor; cbn; intuition discriminate. }
  pose proof (merge_drops_scripture_pages PyStr.strip sample_pages
                [0%nat; 1%nat; 2%nat] Hnd) as Hm.
  revert Hm.
  destruct (pdf_scanner.merge_scripture_texts PyStr.strip sample_pages
              [0%nat; 1%nat; 2%nat]) as [st' merged].
  intros (Hm & _). exact Hm.
Defined.
